(** * gh-github-mcp-server: the launcher of [main.go], embedded in Rocq

    [main.go] is a small launcher: it asks the GitHub CLI for a token,
    looks for an installed [github-mcp-server] binary in a fixed list of
    places, downloads and unpacks the latest release when none is found,
    and finally runs the binary in stdio mode.

    The embedding follows the source function by function.  Everything the
    program does to the outside world goes through a [World] (environment
    variables, file system, trace of observable events) that is threaded
    through a state monad; everything the outside world answers (what
    [gh auth token] prints, what the HTTP endpoint returns, how archives
    decode, how the helper exits) is a field of a [Host] record, so every
    theorem holds for all possible answers.

    What the model of the Go runtime leaves out: strings are byte
    strings, and what [strings.ToLower] and [strings.TrimSpace] do to a
    string with a byte outside ASCII is left to the host (the Unicode
    tables are a field of [Host]); paths are Unix paths without symbolic
    links, a node of the file system is kept under its cleaned name, and
    the functions of package [os] resolve a name component by component,
    through directories that must be there; the process may perform every
    file operation it attempts and writes to an open file succeed; a
    child process is seen through its outcome only.
    Most general theorems use the path functions as black boxes; what the
    install path needs of [Clean] and [Join] is proved in the section on
    joining paths.

    Layout: Go's [strings] and [path/filepath] functions, the world and the
    [os] primitives, the functions of [main.go], the specification's
    wording of the locator and the selection rules, sample hosts, then the
    theorems. *)

From Stdlib Require Import ZArith String Ascii List Bool Lia.
From Stdlib.Strings Require Import Byte.
From stdpp Require Import base option gmap strings list pretty.

Set Default Proof Using "Type".
Local Open Scope Z_scope.

(** ** Go's [strings] package (strings are byte strings) *)

Module Strings.

Fixpoint HasPrefix (s p : string) {struct p} : bool :=
  match p, s with
  | EmptyString, _ => true
  | String _ _, EmptyString => false
  | String c p', String d s' =>
      if Ascii.eqb c d then HasPrefix s' p' else false
  end.

Fixpoint Contains (s sub : string) : bool :=
  HasPrefix s sub ||
  match s with
  | EmptyString => false
  | String _ s' => Contains s' sub
  end.

Definition HasSuffix (s suf : string) : bool :=
  let n := String.length s in
  let k := String.length suf in
  (k <=? n)%nat && String.eqb (String.substring (n - k) k s) suf.

(** What the tables of package [unicode] decide.  [strings.ToLower] and
    [strings.TrimSpace] handle a string of ASCII bytes themselves and turn
    to [unicode] as soon as they meet another byte; the three functions
    stand for these slow paths, [Map(unicode.ToLower, s)],
    [TrimFunc(s, unicode.IsSpace)] and [TrimRightFunc(s, unicode.IsSpace)].
    Nothing is assumed about them. *)
Record Unicode : Type := mkUnicode {
  map_to_lower : string → string;
  trim_func_space : string → string;
  trim_right_func_space : string → string
}.

(** [c >= utf8.RuneSelf] *)
Definition non_ascii (c : ascii) : bool := (128 <=? nat_of_ascii c)%nat.

Fixpoint is_ascii (s : string) : bool :=
  match s with
  | EmptyString => true
  | String c s' => negb (non_ascii c) && is_ascii s'
  end.

Definition lower_ascii (c : ascii) : ascii :=
  let n := nat_of_ascii c in
  if ((65 <=? n) && (n <=? 90))%nat then ascii_of_nat (n + 32) else c.

Fixpoint lower_bytes (s : string) : string :=
  match s with
  | EmptyString => EmptyString
  | String c s' => String (lower_ascii c) (lower_bytes s')
  end.

(** [strings.ToLower]: the ASCII fast path, or the mapping by
    [unicode.ToLower]. *)
Definition ToLower (u : Unicode) (s : string) : string :=
  if is_ascii s then lower_bytes s else map_to_lower u s.

(** The table [asciiSpace] of package [strings]. *)
Definition is_space (c : ascii) : bool :=
  let n := nat_of_ascii c in
  ((9 <=? n) && (n <=? 13) || (n =? 32))%nat.

Fixpoint trim_left_space (s : string) : string :=
  match s with
  | String c s' => if is_space c then trim_left_space s' else s
  | EmptyString => EmptyString
  end.

Fixpoint trim_right_space (s : string) : string :=
  match s with
  | EmptyString => EmptyString
  | String c s' =>
      match trim_right_space s' with
      | EmptyString => if is_space c then EmptyString else String c EmptyString
      | t => String c t
      end
  end.

Fixpoint last_byte (s : string) : option ascii :=
  match s with
  | EmptyString => None
  | String c EmptyString => Some c
  | String _ s' => last_byte s'
  end.

(** [strings.TrimSpace]: ASCII white space is dropped from the front; if
    the first byte left is not ASCII the rest is trimmed by
    [unicode.IsSpace]; otherwise ASCII white space is dropped from the
    back, and if the last byte left is not ASCII the back is trimmed by
    [unicode.IsSpace]. *)
Definition TrimSpace (u : Unicode) (s : string) : string :=
  match trim_left_space s with
  | EmptyString => EmptyString
  | String c rest =>
      if non_ascii c then trim_func_space u (String c rest)
      else
        let t := trim_right_space (String c rest) in
        match last_byte t with
        | Some d => if non_ascii d then trim_right_func_space u t else t
        | None => t
        end
  end.

(** [Split s "/"]-like splitting on one separator byte. *)
Fixpoint split_on (sep : ascii) (s : string) : list string :=
  match s with
  | EmptyString => [EmptyString]
  | String c s' =>
      if Ascii.eqb c sep then EmptyString :: split_on sep s'
      else match split_on sep s' with
           | w :: ws => String c w :: ws
           | [] => [String c EmptyString]
           end
  end.

Fixpoint Join (elems : list string) (sep : string) : string :=
  match elems with
  | [] => EmptyString
  | [e] => e
  | e :: es => e +:+ sep +:+ Join es sep
  end.

End Strings.

(** ** Go's [path/filepath] package, Unix form (separator [/]) *)

Module Filepath.

(** One pass over the components of a path, keeping a stack of the
    components retained so far (innermost first). *)
Fixpoint clean_go (rooted : bool) (comps acc : list string) : list string :=
  match comps with
  | [] => rev acc
  | c :: cs =>
      if bool_decide (c = "" ∨ c = ".") then clean_go rooted cs acc
      else if bool_decide (c = "..") then
        match acc with
        | a :: acc' =>
            if bool_decide (a = "..") then clean_go rooted cs (c :: acc)
            else clean_go rooted cs acc'
        | [] => if rooted then clean_go rooted cs [] else clean_go rooted cs [c]
        end
      else clean_go rooted cs (c :: acc)
  end.

Definition Clean (p : string) : string :=
  let rooted := Strings.HasPrefix p "/" in
  let cs := clean_go rooted (Strings.split_on "/"%char p) [] in
  if rooted then "/" +:+ Strings.Join cs "/"
  else match cs with
       | [] => "."
       | _ => Strings.Join cs "/"
       end.

(** One step of [clean_go]: the components kept after the component
    [c]. *)
Definition clean_step (rooted : bool) (acc : list string) (c : string) : list string :=
  if bool_decide (c = "" ∨ c = ".") then acc
  else if bool_decide (c = "..") then
    match acc with
    | a :: acc' => if bool_decide (a = "..") then c :: acc else acc'
    | [] => if rooted then [] else [c]
    end
  else c :: acc.

(** How [Clean] writes out the components it keeps. *)
Definition render (rooted : bool) (cs : list string) : string :=
  if rooted then "/" +:+ Strings.Join cs "/"
  else match cs with
       | [] => "."
       | _ => Strings.Join cs "/"
       end.

Definition Join (elems : list string) : string :=
  match filter (λ e, e ≠ "") elems with
  | [] => ""
  | es => Clean (Strings.Join es "/")
  end.

(** Everything up to and including the last separator. *)
Fixpoint dir_part (s : string) : string :=
  match s with
  | EmptyString => EmptyString
  | String c s' =>
      if Strings.Contains s "/" then String c (dir_part s') else EmptyString
  end.

Definition Dir (p : string) : string := Clean (dir_part p).

Definition IsAbs (p : string) : bool := Strings.HasPrefix p "/".

Definition SplitList (p : string) : list string :=
  if bool_decide (p = "") then [] else Strings.split_on ":"%char p.

End Filepath.

(** ** Results, the world, and what the host answers *)

(** A Go [(T, error)] pair: either the value or the error's message. *)
Inductive Result (A : Type) : Type :=
| Ok (a : A)
| Err (msg : string).
Arguments Ok {A} a.
Arguments Err {A} msg.

Definition is_ok {A} (r : Result A) : bool :=
  match r with Ok _ => true | Err _ => false end.

(** A file-system node.  There are no symbolic links, and the process is
    allowed every operation (no [EACCES]). *)
Inductive Node : Type :=
| File (content : list byte) (perm : Z)
| Dir (perm : Z).

Definition is_dir (n : Node) : bool :=
  match n with Dir _ => true | File _ _ => false end.

(** An [http.Request] as far as the program fills it in. *)
Record Request : Type := mkRequest {
  reqMethod : string;
  reqURL : string;
  reqHeader : list (string * string)
}.

(** An [io.Reader] read to its end: the bytes it delivers, then end of file
    or an error. *)
Record Stream : Type := mkStream {
  streamBytes : list byte;
  streamErr : option string
}.

(** An [http.Response]: the status and the body. *)
Record Response : Type := mkResponse {
  StatusCode : Z;
  Body : Stream
}.

(** [zip.File]: the entry's name and what [Open] yields. *)
Record ZipFile : Type := mkZipFile {
  zipName : string;
  zipOpen : Result Stream
}.

Inductive Typeflag : Type := TypeReg | TypeDir | TypeOther (flag : byte).

(** What successive calls of [tar.Reader.Next] yield. *)
Inductive TarStream : Type :=
| TarEOF
| TarFail (msg : string)
| TarEntry (name : string) (flag : Typeflag) (data : Stream) (rest : TarStream).

(** The release listing after JSON decoding. *)
Record Asset : Type := mkAsset {
  Name : string;
  BrowserDownloadURL : string
}.

Record Release : Type := mkRelease {
  Assets : list Asset;
  TagName : string
}.

(** How a child process ends for its parent: [cmd.Output]/[cmd.Run] return
    nil, an [*exec.ExitError], or another error (the program could not be
    started). *)
Inductive CmdOutcome : Type :=
| Exited (code : Z) (stdout : string) (stderr : string)
| NotStarted (msg : string).

Inductive Event : Type :=
| EvStdout (text : string)
| EvStderr (text : string)
| EvExec (path : string) (argv : list string) (environ : gmap string string)
| EvHTTP (req : Request).

(** The mutable part: environment variables, files (keyed by their cleaned
    path; relative paths are relative to the fixed working directory), and
    the events so far, most recent first. *)
Record World : Type := mkWorld {
  env : gmap string string;
  fs : gmap string Node;
  trace : list Event
}.

(** The answers of the outside world, fixed for a run. *)
Record Host : Type := mkHost {
  GOOS : string;
  GOARCH : string;
  (** [main.version], set at link time *)
  version : string;
  Args : list string;
  Executable : Result string;
  umask : Z;
  (** outcome of running a child process: how many children ran before
      it, the program, its argument vector, its environment *)
  run_command : nat → string → list string → gmap string string → CmdOutcome;
  (** [http.Client.Do]: a transport error or a response *)
  http_do : Request → Result Response;
  (** [json.Decoder.Decode] into the release struct *)
  decode_release : Stream → Result Release;
  (** [zip.OpenReader] on a file's bytes *)
  zip_read : list byte → Result (list ZipFile);
  (** [gzip.NewReader] then [tar.NewReader] on a file's bytes *)
  targz_read : list byte → Result TarStream;
  (** the random part of the name [os.CreateTemp] picks *)
  temp_random : string;
  (** the tables of package [unicode], for strings that are not ASCII *)
  unicode : Strings.Unicode
}.

(** ** The state monad of the program *)

Definition M (A : Type) : Type := World → A * World.

Definition ret {A} (a : A) : M A := λ w, (a, w).

Definition bind {A B} (m : M A) (k : A → M B) : M B :=
  λ w, let '(a, w') := m w in k a w'.

Declare Scope prog_scope.
Delimit Scope prog_scope with prog.
Notation "'let*' x := m 'in' k" := (bind m (λ x, k))
  (at level 10, x name, m at level 100, k at level 200) : prog_scope.
Notation "m ';;;' k" := (bind m (λ _, k))
  (at level 100, k at level 200, right associativity) : prog_scope.
Local Open Scope prog_scope.

Definition emit (e : Event) : M unit :=
  λ w, (tt, mkWorld (env w) (fs w) (e :: trace w)).

Definition get_fs : M (gmap string Node) := λ w, (fs w, w).

(** [fmt.Println] / [fmt.Printf] and [fmt.Fprintf(os.Stderr, ...)]. *)
Definition Print (text : string) : M unit := emit (EvStdout text).
Definition Eprint (text : string) : M unit := emit (EvStderr text).

Definition nl : string := String "010"%char "".

(** ** The [os], [io], [os/exec] and [net/http] primitives the program uses

    Unix behaviour; one device, so [Rename] never crosses file systems.
    A name is resolved before anything is done with it. *)

Module Os.
Section os.
Context (h : Host).

Definition with_fs (w : World) (f : gmap string Node) : World :=
  mkWorld (env w) f (trace w).

Definition Getenv (key : string) : M string :=
  λ w, (default "" (env w !! key), w).

Definition has_nul (s : string) : bool :=
  Strings.Contains s (String "000"%char "").

Definition Setenv (key value : string) : M (Result unit) :=
  λ w, if bool_decide (key = "") || Strings.Contains key "=" || has_nul key
          || has_nul value
       then (Err "setenv: invalid argument", w)
       else (Ok tt, mkWorld (<[key := value]> (env w)) (fs w) (trace w)).

(** Resolving a name as the kernel does: its components are followed one
    by one, from the root or from the working directory, and what is
    followed must be a directory.  The result is the components of the
    node reached, innermost first.  There are no symbolic links, so [..]
    leads to the directory above. *)
Fixpoint walk (f : gmap string Node) (rooted : bool) (comps acc : list string)
  : Result (list string) :=
  match comps with
  | [] => Ok acc
  | c :: cs =>
      match f !! Filepath.render rooted (rev acc) with
      | Some (Dir _) => walk f rooted cs (Filepath.clean_step rooted acc c)
      | Some (File _ _) => Err "not a directory"
      | None => Err "no such file or directory"
      end
  end.

(** Where a name leads: the name under which the node it stands for is
    kept, when every directory on the way is there.  (The node itself
    need not exist.) *)
Definition resolve (f : gmap string Node) (name : string) : Result string :=
  if bool_decide (name = "") then Err "no such file or directory"
  else
    let rooted := Strings.HasPrefix name "/" in
    match walk f rooted (Strings.split_on "/" name) [] with
    | Ok acc => Ok (Filepath.render rooted (rev acc))
    | Err e => Err e
    end.

(** [os.Stat]: [None] is an error. *)
Definition Stat (f : gmap string Node) (name : string) : option Node :=
  match resolve f name with
  | Ok k => f !! k
  | Err _ => None
  end.

(** The node kept under the cleaned name: where a name that resolves
    finds its node.  A regular file named with a trailing separator is
    not found. *)
Definition stat (f : gmap string Node) (name : string) : option Node :=
  if bool_decide (name = "") then None
  else match f !! Filepath.Clean name with
       | Some (File c m) =>
           if Strings.HasSuffix name "/" then None else Some (File c m)
       | o => o
       end.

(** The components of a name without the empty ones at its end. *)
Fixpoint strip_empty (cs : list string) : list string :=
  match cs with
  | [] => []
  | c :: cs' =>
      match strip_empty cs' with
      | [] => if bool_decide (c = "") then [] else [c]
      | t => c :: t
      end
  end.

(** [os.Mkdir]: the directory above must resolve, the name must be
    free. *)
Definition Mkdir (name : string) (perm : Z) : M (Result unit) :=
  λ w,
    if bool_decide (name = "") then (Err "mkdir: no such file or directory", w)
    else
      let rooted := Strings.HasPrefix name "/" in
      match walk (fs w) rooted (strip_empty (Strings.split_on "/" name)) [] with
      | Err e => (Err ("mkdir: " +:+ e), w)
      | Ok acc =>
          let k := Filepath.render rooted (rev acc) in
          match fs w !! k with
          | Some _ => (Err "mkdir: file exists", w)
          | None =>
              (Ok tt, with_fs w (<[k := Dir (Z.ldiff perm (umask h))]> (fs w)))
          end
      end.

Fixpoint drop_while (p : ascii → bool) (l : list ascii) : list ascii :=
  match l with
  | c :: l' => if p c then drop_while p l' else l
  | [] => []
  end.

Definition is_sep (c : ascii) : bool := Ascii.eqb c "/".

(** [path[:i+1]] of [os.MkdirAll]: trailing separators are dropped, then
    the last element. *)
Definition parent_prefix (path : string) : string :=
  string_of_list_ascii
    (rev (drop_while (λ c, negb (is_sep c))
            (drop_while is_sep (rev (list_ascii_of_string path))))).

(** [os.MkdirAll]; the parent is strictly shorter than the path, so the
    length of the path bounds the recursion. *)
Fixpoint MkdirAll_rec (fuel : nat) (path : string) (perm : Z) : M (Result unit) :=
  λ w,
    match Stat (fs w) path with
    | Some (Dir _) => (Ok tt, w)
    | Some (File _ _) => (Err "mkdir: not a directory", w)
    | None =>
        let parent := parent_prefix path in
        let '(r, w1) :=
          match fuel with
          | S fuel' =>
              if bool_decide (parent ≠ "") then MkdirAll_rec fuel' parent perm w
              else (Ok tt, w)
          | O => (Ok tt, w)
          end in
        match r with
        | Err e => (Err e, w1)
        | Ok _ =>
            let '(r2, w2) := Mkdir path perm w1 in
            match r2 with
            | Ok _ => (Ok tt, w2)
            | Err e =>
                match Stat (fs w2) path with
                | Some (Dir _) => (Ok tt, w2)
                | _ => (Err e, w2)
                end
            end
        end
    end.

Definition MkdirAll (path : string) (perm : Z) : M (Result unit) :=
  MkdirAll_rec (String.length path) path perm.

(** [os.Create]: open for writing, create with mode 0666 (before umask),
    truncate.  The result is the open file, named by its key. *)
Definition Create (name : string) : M (Result string) :=
  λ w,
    match resolve (fs w) name with
    | Err e => (Err ("open: " +:+ e), w)
    | Ok k =>
        match fs w !! k with
        | Some (Dir _) => (Err "open: is a directory", w)
        | Some (File _ m) => (Ok k, with_fs w (<[k := File [] m]> (fs w)))
        | None => (Ok k, with_fs w (<[k := File [] (Z.ldiff 438 (umask h))]> (fs w)))
        end
    end.

Definition append_bytes (data : list byte) (n : Node) : Node :=
  match n with
  | File c m => File (c ++ data) m
  | Dir m => Dir m
  end.

(** [io.Copy(dst, src)] into an open file: the bytes the source delivers
    are written, the source's error (if any) is returned. *)
Definition Copy (dst : string) (src : Stream) : M (Result unit) :=
  λ w,
    (match streamErr src with Some e => Err e | None => Ok tt end,
     with_fs w (alter (append_bytes (streamBytes src)) dst (fs w))).

Definition TempDir : M string :=
  let* d := Getenv "TMPDIR" in
  ret (if bool_decide (d = "") then "/tmp" else d).

(** [os.CreateTemp(dir, prefix*suffix)]: one name is tried; the file is
    created exclusively with mode 0600.  Returns the file's name. *)
Definition CreateTemp (dir pre suf : string) : M (Result string) :=
  let* d := (if bool_decide (dir = "") then TempDir else ret dir) in
  let name := (if Strings.HasSuffix d "/" then d else d +:+ "/")
                +:+ pre +:+ temp_random h +:+ suf in
  λ w,
    match resolve (fs w) name with
    | Err e => (Err ("open: " +:+ e), w)
    | Ok k =>
        match fs w !! k with
        | Some _ => (Err "open: file exists", w)
        | None =>
            (Ok name, with_fs w (<[k := File [] (Z.ldiff 384 (umask h))]> (fs w)))
        end
    end.

(** [os.Rename] of a regular file (the program renames only the temporary
    file it has just written); renaming a directory is not modelled. *)
Definition Rename (oldpath newpath : string) : M (Result unit) :=
  λ w,
    match resolve (fs w) oldpath with
    | Err e => (Err ("rename: " +:+ e), w)
    | Ok ko =>
        match fs w !! ko with
        | Some (File c m) =>
            match resolve (fs w) newpath with
            | Err e => (Err ("rename: " +:+ e), w)
            | Ok kn =>
                match fs w !! kn with
                | Some (Dir _) => (Err "rename: file exists", w)
                | _ => (Ok tt, with_fs w (<[kn := File c m]> (delete ko (fs w))))
                end
            end
        | Some (Dir _) => (Err "rename: directories are not modelled", w)
        | None => (Err "rename: no such file or directory", w)
        end
    end.

Definition has_child (f : gmap string Node) (k : string) : bool :=
  existsb (λ entry : string * Node,
             bool_decide (entry.1 ≠ k ∧ Filepath.Dir entry.1 = k))
          (map_to_list f).

(** [os.Remove]: a file, or an empty directory. *)
Definition Remove (name : string) : M (Result unit) :=
  λ w,
    match resolve (fs w) name with
    | Err e => (Err ("remove: " +:+ e), w)
    | Ok k =>
        match fs w !! k with
        | Some (File _ _) => (Ok tt, with_fs w (delete k (fs w)))
        | Some (Dir _) =>
            if has_child (fs w) k then (Err "remove: directory not empty", w)
            else (Ok tt, with_fs w (delete k (fs w)))
        | None => (Err "remove: no such file or directory", w)
        end
    end.

Definition set_perm (mode : Z) (n : Node) : Node :=
  match n with
  | File c _ => File c mode
  | Dir _ => Dir mode
  end.

Definition Chmod (name : string) (mode : Z) : M (Result unit) :=
  λ w,
    match resolve (fs w) name with
    | Err e => (Err ("chmod: " +:+ e), w)
    | Ok k =>
        match fs w !! k with
        | Some _ => (Ok tt, with_fs w (alter (set_perm mode) k (fs w)))
        | None => (Err "chmod: no such file or directory", w)
        end
    end.

(** [os.Open] followed by reading the file to its end. *)
Definition read_file (f : gmap string Node) (name : string) : Result (list byte) :=
  match Stat f name with
  | Some (File c _) => Ok c
  | Some (Dir _) => Err "read: is a directory"
  | None => Err "open: no such file or directory"
  end.

(** [os.UserHomeDir]. *)
Definition UserHomeDir : M (Result string) :=
  let var := if bool_decide (GOOS h = "windows") then "USERPROFILE"
             else if bool_decide (GOOS h = "plan9") then "home" else "HOME" in
  let* v := Getenv var in
  if bool_decide (v ≠ "") then ret (Ok v)
  else if bool_decide (GOOS h = "android") then ret (Ok "/sdcard")
  else if bool_decide (GOOS h = "ios") then ret (Ok "/")
  else ret (Err ("$" +:+ var +:+ " is not defined")).

(** [findExecutable] of [os/exec]: a non-directory with an execute bit. *)
Definition findExecutable (f : gmap string Node) (file : string) : bool :=
  match Stat f file with
  | Some (File _ m) => negb (Z.land m 73 =? 0)
  | _ => false
  end.

Fixpoint look_in (f : gmap string Node) (dirs : list string) (file : string)
  : Result string :=
  match dirs with
  | [] => Err "executable file not found in $PATH"
  | dir :: rest =>
      let dir := if bool_decide (dir = "") then "." else dir in
      let path := Filepath.Join [dir; file] in
      if findExecutable f path then
        if Filepath.IsAbs path then Ok path
        else Err "cannot run executable found relative to current directory"
      else look_in f rest file
  end.

(** [exec.LookPath]. *)
Definition LookPath (file : string) : M (Result string) :=
  λ w,
    if Strings.Contains file "/" then
      (if findExecutable (fs w) file then Ok file
       else Err "no such file or directory", w)
    else
      (look_in (fs w) (Filepath.SplitList (default "" (env w !! "PATH"))) file, w).

Definition is_exec (e : Event) : bool :=
  match e with EvExec _ _ _ => true | _ => false end.

(** Start a child with the current environment and wait for it. *)
Definition Run (path : string) (argv : list string) : M CmdOutcome :=
  λ w,
    (run_command h (length (List.filter is_exec (trace w))) path argv (env w),
     mkWorld (env w) (fs w) (EvExec path argv (env w) :: trace w)).

(** [http.Client.Do] / [http.Get]. *)
Definition Do (req : Request) : M (Result Response) :=
  λ w, (http_do h req, mkWorld (env w) (fs w) (EvHTTP req :: trace w)).

End os.
End Os.

(** ** The functions of [main.go] *)

Definition releaseAPIURL : string :=
  "https://api.github.com/repos/github/github-mcp-server/releases/latest".

(** The four selection rules of [getLatestReleaseAssetURL], in the order
    of its four loops. *)
Inductive Rule : Type := RuleOsArch | RuleMacAlt | RuleX8664 | RuleOsOnly.

Section program.
Context (h : Host).

(** [binaryName] *)
Definition binaryName : string :=
  let baseName := "github-mcp-server" in
  if bool_decide (GOOS h = "windows") then baseName +:+ ".exe" else baseName.

(** [fileExists] *)
Definition fileExists (filename : string) : M bool :=
  λ w,
    (match Os.Stat (fs w) filename with
     | None => false
     | Some info => negb (is_dir info)
     end, w).

(** [getExtensionDataDir] *)
Definition getExtensionDataDir : M string :=
  let create (dataDir : string) : M string :=
    Os.MkdirAll h dataDir 493 ;;; ret dataDir in
  let* xdgDataHome := Os.Getenv "XDG_DATA_HOME" in
  if bool_decide (xdgDataHome ≠ "") then
    create (Filepath.Join [xdgDataHome; "gh-github-mcp-server"])
  else
    let* r := Os.UserHomeDir h in
    match r with
    | Err _ => ret "."
    | Ok homeDir =>
        if bool_decide (GOOS h = "windows") then
          create (Filepath.Join [homeDir; "AppData"; "Local"; "gh-github-mcp-server"])
        else if bool_decide (GOOS h = "darwin") then
          create (Filepath.Join
                    [homeDir; "Library"; "Application Support"; "gh-github-mcp-server"])
        else
          create (Filepath.Join [homeDir; ".local"; "share"; "gh-github-mcp-server"])
    end.

(** [getGitHubToken] *)
Definition getGitHubToken : M (Result string) :=
  let* o := Os.Run h "gh" ["gh"; "auth"; "token"] in
  match o with
  | NotStarted msg => ret (Err ("failed to execute gh auth token: " +:+ msg))
  | Exited code output stderr =>
      if bool_decide (code ≠ 0) then
        ret (Err ("failed to get GitHub token: " +:+ stderr))
      else
        let token := Strings.TrimSpace (unicode h) output in
        if bool_decide (token = "") then
          ret (Err "received empty token from GitHub CLI")
        else ret (Ok token)
  end.

(** [findServerBinary] *)
Definition findServerBinary : M string :=
  let* customPath := Os.Getenv "GITHUB_MCP_SERVER_PATH" in
  let* hit := (if bool_decide (customPath ≠ "") then fileExists customPath
               else ret false) in
  if hit then ret customPath else
  let* workspaceDir := Os.Getenv "GITHUB_MCP_SERVER_DIR" in
  let* found :=
    (if bool_decide (workspaceDir ≠ "") then
       let binPath := Filepath.Join [workspaceDir; "bin"; binaryName] in
       let* hit := fileExists binPath in
       ret (if hit then Some binPath else None)
     else ret None) in
  match found with
  | Some binPath => ret binPath
  | None =>
      let* dataDir := getExtensionDataDir in
      let binPath := Filepath.Join [dataDir; "bin"; binaryName] in
      let* hit := fileExists binPath in
      if hit then ret binPath else
      let* found :=
        match Executable h with
        | Ok execPath =>
            let dir := Filepath.Dir execPath in
            let binPath := Filepath.Join [dir; "bin"; binaryName] in
            let* hit := fileExists binPath in
            if hit then ret (Some binPath) else
            let binPath := Filepath.Join [dir; binaryName] in
            let* hit := fileExists binPath in
            ret (if hit then Some binPath else None)
        | Err _ => ret None
        end in
      match found with
      | Some binPath => ret binPath
      | None =>
          let* r := Os.LookPath "github-mcp-server" in
          match r with
          | Ok path => ret path
          | Err _ => ret ""
          end
      end
  end.

(** The tests of the four loops of [getLatestReleaseAssetURL], on the
    lower-cased asset name. *)
Definition matchOsArch (lowerName : string) : bool :=
  Strings.Contains lowerName (Strings.ToLower (unicode h) (GOOS h)) &&
  Strings.Contains lowerName (Strings.ToLower (unicode h) (GOARCH h)).

Definition matchMacAlt (variant lowerName : string) : bool :=
  Strings.Contains lowerName variant &&
  (Strings.Contains lowerName (GOARCH h) ||
   Strings.Contains lowerName "x86_64" ||
   Strings.Contains lowerName "amd64").

Definition matchX8664 (lowerName : string) : bool :=
  Strings.Contains lowerName (Strings.ToLower (unicode h) (GOOS h)) &&
  Strings.Contains lowerName "x86_64".

Definition matchOsOnly (lowerName : string) : bool :=
  Strings.Contains lowerName (Strings.ToLower (unicode h) (GOOS h)) &&
  negb (Strings.Contains lowerName ".sha") &&
  negb (Strings.Contains lowerName ".md5") &&
  negb (Strings.Contains lowerName "src") &&
  negb (Strings.Contains lowerName "source").

(** [for _, asset := range assets { if test(ToLower(asset.Name)) { return asset } }] *)
Definition first_asset (test : string → bool) (assets : list Asset) : option Asset :=
  List.find (λ asset, test (Strings.ToLower (unicode h) (Name asset))) assets.

(** The nested loop over [macVariants] and the assets. *)
Fixpoint first_variant_asset (variants : list string) (assets : list Asset)
  : option Asset :=
  match variants with
  | [] => None
  | variant :: rest =>
      match first_asset (matchMacAlt variant) assets with
      | Some asset => Some asset
      | None => first_variant_asset rest assets
      end
  end.

Definition macVariants : list string := ["mac"; "macos"; "osx"].

Definition noSuitable : string :=
  "no suitable binary found for " +:+ GOOS h +:+ "/" +:+ GOARCH h.

(** Lines 291-356 of [getLatestReleaseAssetURL]: the selection among
    the assets of the decoded release. *)
Definition chooseAsset (assets : list Asset) : M (Result string) :=
  Eprint ("Looking for pattern: github-mcp-server.*" +:+ GOOS h +:+ ".*"
          +:+ GOARCH h +:+ nl) ;;;
  match first_asset matchOsArch assets with
  | Some asset =>
      Eprint ("Found matching asset: " +:+ Name asset +:+ nl) ;;;
      ret (Ok (BrowserDownloadURL asset))
  | None =>
  let* mac :=
    (if bool_decide (GOOS h = "darwin") then
       Eprint ("Trying macOS alternatives: mac, macos, osx" +:+ nl) ;;;
       match first_variant_asset macVariants assets with
       | Some asset =>
           Eprint ("Found matching asset with macOS alternative: "
                   +:+ Name asset +:+ nl) ;;;
           ret (Some asset)
       | None => ret None
       end
     else ret None) in
  match mac with
  | Some asset => ret (Ok (BrowserDownloadURL asset))
  | None =>
  let* alt :=
    (if bool_decide (GOARCH h = "amd64") then
       Eprint ("Trying architecture alternatives: x86_64" +:+ nl) ;;;
       match first_asset matchX8664 assets with
       | Some asset =>
           Eprint ("Found matching asset with architecture alternative: "
                   +:+ Name asset +:+ nl) ;;;
           ret (Some asset)
       | None => ret None
       end
     else ret None) in
  match alt with
  | Some asset => ret (Ok (BrowserDownloadURL asset))
  | None =>
  Eprint ("Looking for any binary for " +:+ GOOS h +:+ nl) ;;;
  match first_asset matchOsOnly assets with
  | Some asset =>
      Eprint ("Found OS-matching asset: " +:+ Name asset +:+ nl) ;;;
      ret (Ok (BrowserDownloadURL asset))
  | None =>
      if bool_decide (GOOS h = "darwin") && bool_decide (GOARCH h = "amd64") then
        ret (Err (noSuitable +:+ ". Consider building from source: "
                  +:+ "go build -o bin/github-mcp-server ./cmd/github-mcp-server"))
      else ret (Err noSuitable)
  end end end end.

(** What [chooseAsset] selects, without its messages: the rule that
    fired and the asset. *)
Definition pickAsset (assets : list Asset) : option (Rule * Asset) :=
  match first_asset matchOsArch assets with
  | Some asset => Some (RuleOsArch, asset)
  | None =>
  match (if bool_decide (GOOS h = "darwin")
         then first_variant_asset macVariants assets else None) with
  | Some asset => Some (RuleMacAlt, asset)
  | None =>
  match (if bool_decide (GOARCH h = "amd64")
         then first_asset matchX8664 assets else None) with
  | Some asset => Some (RuleX8664, asset)
  | None =>
  match first_asset matchOsOnly assets with
  | Some asset => Some (RuleOsOnly, asset)
  | None => None
  end end end end.

Fixpoint print_assets (assets : list Asset) : M unit :=
  match assets with
  | [] => ret tt
  | asset :: rest => Eprint ("  - " +:+ Name asset +:+ nl) ;;; print_assets rest
  end.

(** [getLatestReleaseAssetURL]; the request for the constant
    [releaseAPIURL] is always well formed. *)
Definition getLatestReleaseAssetURL : M (Result string) :=
  let userAgent := ("User-Agent", "gh-github-mcp-server/" +:+ version h) in
  let* r := getGitHubToken in
  let token := match r with Ok token => token | Err _ => "" end in
  let header :=
    if bool_decide (token ≠ "") then [userAgent; ("Authorization", "token " +:+ token)]
    else [userAgent] in
  Eprint ("Requesting latest release info from: " +:+ releaseAPIURL +:+ nl) ;;;
  let* r := Os.Do h (mkRequest "GET" releaseAPIURL header) in
  match r with
  | Err e => ret (Err ("failed to get latest release info: " +:+ e))
  | Ok resp =>
      if bool_decide (StatusCode resp ≠ 200) then
        ret (Err ("failed to get latest release info: HTTP "
                  +:+ pretty (StatusCode resp) +:+ " - "
                  +:+ string_of_list_byte (streamBytes (Body resp))))
      else
        match decode_release h (Body resp) with
        | Err e => ret (Err ("failed to parse release info: " +:+ e))
        | Ok release =>
            Eprint ("Found release with "
                    +:+ pretty (length (Assets release)) +:+ " assets:" +:+ nl) ;;;
            print_assets (Assets release) ;;;
            chooseAsset (Assets release)
        end
  end.

(** The test of the loop of [extractFromZip]. *)
Definition binary_entry (file : ZipFile) : bool :=
  Strings.Contains (zipName file) "github-mcp-server"
  && negb (Strings.HasSuffix (zipName file) "/").

(** [extractFromZip]; the archive is decoded from the bytes the file
    holds when it is opened. *)
Definition extractFromZip (zipPath targetPath : string) : M (Result unit) :=
  let* files := get_fs in
  match Os.read_file files zipPath with
  | Err e => ret (Err e)
  | Ok bytes =>
  match zip_read h bytes with
  | Err e => ret (Err e)
  | Ok reader =>
  match List.find binary_entry reader with
  | None => ret (Err "binary not found in zip")
  | Some binaryFile =>
  match zipOpen binaryFile with
  | Err e => ret (Err e)
  | Ok src =>
      let* r := Os.Create h targetPath in
      match r with
      | Err e => ret (Err e)
      | Ok dst => Os.Copy dst src
      end
  end end end end.

Definition is_TypeReg (flag : Typeflag) : bool :=
  match flag with TypeReg => true | _ => false end.

(** The [for] loop of [extractFromTarGz] over [tr.Next()]. *)
Fixpoint extractFromTar (tr : TarStream) (targetPath : string) : M (Result unit) :=
  match tr with
  | TarEOF => ret (Err "binary not found in tar.gz")
  | TarFail e => ret (Err e)
  | TarEntry name flag data rest =>
      if Strings.Contains name "github-mcp-server" && is_TypeReg flag then
        let* r := Os.Create h targetPath in
        match r with
        | Err e => ret (Err e)
        | Ok dst => Os.Copy dst data
        end
      else extractFromTar rest targetPath
  end.

(** [extractFromTarGz] *)
Definition extractFromTarGz (tarPath targetPath : string) : M (Result unit) :=
  let* files := get_fs in
  match Os.read_file files tarPath with
  | Err e => ret (Err e)
  | Ok bytes =>
  match targz_read h bytes with
  | Err e => ret (Err e)
  | Ok tr => extractFromTar tr targetPath
  end end.

(** Lines 219-240 of [downloadServerBinary]: extract the binary from the
    downloaded file as the URL's suffix says, then make it executable
    (mode 0755). *)
Definition installFrom (assetURL tmpName targetPath : string) : M (Result string) :=
  let* r :=
    (if Strings.HasSuffix assetURL ".zip" then extractFromZip tmpName targetPath
     else if Strings.HasSuffix assetURL ".tar.gz" then
       extractFromTarGz tmpName targetPath
     else Os.Rename tmpName targetPath) in
  match r with
  | Err e => ret (Err ("failed to extract binary: " +:+ e))
  | Ok _ =>
  let* r := Os.Chmod targetPath 493 in
  match r with
  | Err e => ret (Err ("failed to make binary executable: " +:+ e))
  | Ok _ => ret (Ok targetPath)
  end end.

(** [downloadServerBinary]; the deferred [os.Remove] of the temporary
    file runs on every return after the file was created. *)
Definition downloadServerBinary : M (Result string) :=
  let* r := getLatestReleaseAssetURL in
  match r with
  | Err e => ret (Err e)
  | Ok assetURL =>
  let* dataDir := getExtensionDataDir in
  let binDir := Filepath.Join [dataDir; "bin"] in
  let* r := Os.MkdirAll h binDir 493 in
  match r with
  | Err e => ret (Err ("failed to create binary directory: " +:+ e))
  | Ok _ =>
  Eprint ("Downloading from: " +:+ assetURL +:+ nl) ;;;
  let* r := Os.Do h (mkRequest "GET" assetURL []) in
  match r with
  | Err e => ret (Err ("failed to download binary: " +:+ e))
  | Ok resp =>
  if bool_decide (StatusCode resp ≠ 200) then
    ret (Err ("failed to download binary: HTTP " +:+ pretty (StatusCode resp)))
  else
  let* r := Os.CreateTemp h "" "github-mcp-server-" "" in
  match r with
  | Err e => ret (Err ("failed to create temporary file: " +:+ e))
  | Ok tmpName =>
  let* result :=
    (let* r := Os.Copy (Filepath.Clean tmpName) (Body resp) in
     match r with
     | Err e => ret (Err ("failed to save downloaded file: " +:+ e))
     | Ok _ => installFrom assetURL tmpName (Filepath.Join [binDir; binaryName])
     end) in
  Os.Remove tmpName ;;;
  ret result
  end end end end.

(** [ensureServerBinary] *)
Definition ensureServerBinary : M (Result string) :=
  let* binPath := findServerBinary in
  if bool_decide (binPath ≠ "") then ret (Ok binPath) else
  Eprint ("GitHub MCP Server binary not found, downloading..." +:+ nl) ;;;
  let* r := downloadServerBinary in
  match r with
  | Err e => ret (Err ("failed to download server binary: " +:+ e))
  | Ok binPath => ret (Ok binPath)
  end.

Definition usage : list string :=
  [ "GitHub MCP Server CLI Extension"; "";
    "USAGE:";
    "  gh github-mcp-server stdio [flags] - Start the MCP server in stdio mode"; "";
    "FLAGS:";
    "  --read-only            Restrict the server to read-only operations";
    "  --log-file string      Path to log file";
    "  --gh-host string       Specify the GitHub hostname (for GitHub Enterprise)"; "";
    "This extension uses your GitHub CLI authentication";
    "to securely communicate with GitHub APIs." ].

Fixpoint Println_all (lines : list string) : M unit :=
  match lines with
  | [] => ret tt
  | line :: rest => Print (line +:+ nl) ;;; Println_all rest
  end.

(** [main]; the result is the exit status of the process: 0 when [main]
    returns, the argument of [os.Exit] otherwise. *)
Definition main : M Z :=
  if bool_decide (Args h !! 1%nat = Some "-v" ∨ Args h !! 1%nat = Some "--version") then
    Print ("gh-github-mcp-server v" +:+ version h +:+ nl) ;;;
    ret 0
  else if bool_decide (Args h !! 1%nat = Some "stdio") then
    let* r := getGitHubToken in
    match r with
    | Err e =>
        Eprint ("Error getting GitHub token: " +:+ e +:+ nl) ;;;
        ret 1
    | Ok token =>
    Os.Setenv "GITHUB_PERSONAL_ACCESS_TOKEN" token ;;;
    let* r := ensureServerBinary in
    match r with
    | Err e =>
        Eprint ("Error with server binary: " +:+ e +:+ nl) ;;;
        ret 1
    | Ok serverPath =>
    Eprint ("Using server binary: " +:+ serverPath +:+ nl) ;;;
    let cmdArgs :=
      if (2 <? length (Args h))%nat then [serverPath; "stdio"] ++ drop 2 (Args h)
      else [serverPath; "stdio"] in
    let* o := Os.Run h serverPath cmdArgs in
    match o with
    | Exited code _ _ =>
        if bool_decide (code = 0) then ret 0
        else
          Eprint ("Error running MCP server: exit status " +:+ pretty code +:+ nl) ;;;
          ret 1
    | NotStarted msg =>
        Eprint ("Error running MCP server: " +:+ msg +:+ nl) ;;;
        ret 1
    end end end
  else
    Println_all usage ;;;
    ret 0.

End program.

(** ** The selection rules as the specification words them

    Section 4.2 of the specification lists four rules, tried in order, each
    a case-insensitive substring test on the asset name. *)

Definition ci_contains (u : Strings.Unicode) (name pattern : string) : bool :=
  Strings.Contains (Strings.ToLower u name) (Strings.ToLower u pattern).

Definition spec_rule_matches (h : Host) (rule : Rule) (name : string) : bool :=
  match rule with
  | RuleOsArch => ci_contains (unicode h) name (GOOS h) && ci_contains (unicode h) name (GOARCH h)
  | RuleMacAlt =>
      bool_decide (GOOS h = "darwin")
      && existsb (ci_contains (unicode h) name) ["mac"; "macos"; "osx"]
      && (ci_contains (unicode h) name (GOARCH h) || ci_contains (unicode h) name "x86_64"
          || ci_contains (unicode h) name "amd64")
  | RuleX8664 =>
      bool_decide (GOARCH h = "amd64")
      && ci_contains (unicode h) name (GOOS h) && ci_contains (unicode h) name "x86_64"
  | RuleOsOnly =>
      ci_contains (unicode h) name (GOOS h)
      && negb (existsb (ci_contains (unicode h) name) [".sha"; ".md5"; "src"; "source"])
  end.

Definition rule_rank (rule : Rule) : nat :=
  match rule with
  | RuleOsArch => 0
  | RuleMacAlt => 1
  | RuleX8664 => 2
  | RuleOsOnly => 3
  end.

(** The line a rule writes to the error stream when it selects an asset. *)
Definition found_message (rule : Rule) (asset : Asset) : string :=
  match rule with
  | RuleOsArch => "Found matching asset: "
  | RuleMacAlt => "Found matching asset with macOS alternative: "
  | RuleX8664 => "Found matching asset with architecture alternative: "
  | RuleOsOnly => "Found OS-matching asset: "
  end +:+ Name asset +:+ nl.

(** ** The Binary Locator as the specification words it

    Section 4.1: six candidates in priority order; the first that exists
    and is a regular file is returned.  All of it is read off the world
    [findServerBinary] starts in. *)

Definition getenv (w : World) (key : string) : string :=
  default "" (env w !! key).

(** The extension data directory: the XDG data home override, else
    [AppData/Local] on Windows, [Library/Application Support] on macOS,
    [~/.local/share] elsewhere; the working directory when no home
    directory is known. *)
Definition extensionDataDir (h : Host) (w : World) : string :=
  if bool_decide (getenv w "XDG_DATA_HOME" ≠ "") then
    Filepath.Join [getenv w "XDG_DATA_HOME"; "gh-github-mcp-server"]
  else
    match fst (Os.UserHomeDir h w) with
    | Err _ => "."
    | Ok homeDir =>
        if bool_decide (GOOS h = "windows") then
          Filepath.Join [homeDir; "AppData"; "Local"; "gh-github-mcp-server"]
        else if bool_decide (GOOS h = "darwin") then
          Filepath.Join [homeDir; "Library"; "Application Support"; "gh-github-mcp-server"]
        else Filepath.Join [homeDir; ".local"; "share"; "gh-github-mcp-server"]
    end.

(** Candidates 1 to 5, [None] where the candidate is not defined (its
    environment variable is unset, the launcher's own path is unknown). *)
Definition candidates (h : Host) (w : World) : list (option string) :=
  [ if bool_decide (getenv w "GITHUB_MCP_SERVER_PATH" ≠ "")
    then Some (getenv w "GITHUB_MCP_SERVER_PATH") else None;
    if bool_decide (getenv w "GITHUB_MCP_SERVER_DIR" ≠ "")
    then Some (Filepath.Join [getenv w "GITHUB_MCP_SERVER_DIR"; "bin"; binaryName h])
    else None;
    Some (Filepath.Join [extensionDataDir h w; "bin"; binaryName h]);
    match Executable h with
    | Ok execPath => Some (Filepath.Join [Filepath.Dir execPath; "bin"; binaryName h])
    | Err _ => None
    end;
    match Executable h with
    | Ok execPath => Some (Filepath.Join [Filepath.Dir execPath; binaryName h])
    | Err _ => None
    end ].

Definition is_regular_file (f : gmap string Node) (path : string) : bool :=
  match Os.Stat f path with
  | Some (File _ _) => true
  | _ => false
  end.

(** What is found at a candidate in the file system [f]. *)
Definition found_at (f : gmap string Node) (c : option string) : option string :=
  match c with
  | Some path => if is_regular_file f path then Some path else None
  | None => None
  end.

(** For each of the six ranks, the path found there, if any: a candidate
    that is a regular file, and what the executable search path resolves
    the bare name to.  The two overrides are looked up in the file system
    as the locator finds it.  Before it looks at rank 3 the locator has the
    extension data directory created, so ranks 3 to 6 are looked up in the
    file system that has it. *)
Definition hits (h : Host) (w : World) : list (option string) :=
  let w1 := snd (getExtensionDataDir h w) in
  map (found_at (fs w)) (take 2 (candidates h w))
  ++ map (found_at (fs w1)) (drop 2 (candidates h w))
  ++ [ match fst (Os.LookPath "github-mcp-server" w1) with
       | Ok path => Some path
       | Err _ => None
       end ].

(** The first hit, or the empty string ([NotFound]). *)
Fixpoint first_hit (l : list (option string)) : string :=
  match l with
  | [] => ""
  | Some path :: _ => path
  | None :: l' => first_hit l'
  end.

(** One of the two override ranks has a hit. *)
Definition override_hit (h : Host) (w : World) : bool :=
  match hits h w with
  | Some _ :: _ => true
  | _ :: Some _ :: _ => true
  | _ => false
  end.

(** The six ranks read off the file system as the locator finds it. *)
Definition hits_at_start (h : Host) (w : World) : list (option string) :=
  map (found_at (fs w)) (candidates h w)
  ++ [ match fst (Os.LookPath "github-mcp-server" w) with
       | Ok path => Some path
       | Err _ => None
       end ].

(** A file system in which the name of every entry resolves: the
    directories above an entry are there.  Every real one is like that. *)
Definition tree (f : gmap string Node) : Prop :=
  ∀ k, is_Some (f !! k) → is_Some (Os.Stat f k).

#[global] Instance tree_dec f : Decision (tree f).
Proof.
  refine (cast_if (decide (map_Forall (λ k _, is_Some (Os.Stat f k)) f))).
  - intros k [n Hk]. exact (m k n Hk).
  - intros Ht. apply n. intros k x Hk. apply Ht. eauto.
Defined.

(** [f'] is [f] with new directories only: every node of [f] is the same
    in [f'], and whatever else [f'] holds is a directory. *)
Definition only_new_dirs (f f' : gmap string Node) : Prop :=
  ∀ k, f' !! k = f !! k ∨ (f !! k = None ∧ ∃ m, f' !! k = Some (Dir m)).

(** Every directory of [f] is a directory of [f']. *)
Definition dirs_kept (f f' : gmap string Node) : Prop :=
  ∀ k m, f !! k = Some (Dir m) → ∃ m', f' !! k = Some (Dir m').

(** [m] keeps every directory. *)
Definition keeps_dirs {A} (m : M A) : Prop :=
  ∀ w, dirs_kept (fs w) (fs (snd (m w))).

(** ** Observing the trace *)

(** The event of one run of [gh auth token], the Credential Provider. *)
Definition is_gh_auth_token (e : Event) : bool :=
  match e with
  | EvExec path argv _ => bool_decide (path = "gh" ∧ argv = ["gh"; "auth"; "token"])
  | _ => false
  end.

(** How often the Credential Provider was invoked. *)
Definition gh_calls (t : list Event) : nat :=
  length (List.filter is_gh_auth_token t).

Definition is_print (e : Event) : bool :=
  match e with
  | EvStdout _ | EvStderr _ => true
  | _ => false
  end.

Definition no_exec (e : Event) : bool := negb (Os.is_exec e).

(** [m] leaves the trace as it is. *)
Definition quiet {A} (m : M A) : Prop :=
  ∀ w, trace (snd (m w)) = trace w.

(** [m] adds to the trace only events that satisfy [P]. *)
Definition adds_only {A} (P : Event → bool) (m : M A) : Prop :=
  ∀ w, ∃ new, trace (snd (m w)) = new ++ trace w ∧ forallb P new = true.

(** [m] invokes the Credential Provider exactly [n] times. *)
Definition gh_adds {A} (n : nat) (m : M A) : Prop :=
  ∀ w, gh_calls (trace (snd (m w))) = (gh_calls (trace w) + n)%nat.

(** ** Archives as the specification words them *)

(** The entries a tar stream delivers before it ends. *)
Fixpoint tar_entries (tr : TarStream) : list (string * Typeflag) :=
  match tr with
  | TarEOF | TarFail _ => []
  | TarEntry name flag _ rest => (name, flag) :: tar_entries rest
  end.

(** The stream is read to its end without an error. *)
Fixpoint tar_complete (tr : TarStream) : bool :=
  match tr with
  | TarEOF => true
  | TarFail _ => false
  | TarEntry _ _ _ rest => tar_complete rest
  end.

(** The world with the explicit override variable unset. *)
Definition without_override (w : World) : World :=
  mkWorld (delete "GITHUB_MCP_SERVER_PATH" (env w)) (fs w) (trace w).

(** ** Sample hosts and worlds

    Concrete runs, used to evaluate the program. *)

Definition gh_prints (gh helper : CmdOutcome)
  : nat → string → list string → gmap string string → CmdOutcome :=
  λ _ path _ _, if bool_decide (path = "gh") then gh else helper.

Definition token_line : string := "gho_sample" +:+ nl.

(** Tables that leave every string that is not ASCII as it is. *)
Definition plain_tables : Strings.Unicode :=
  Strings.mkUnicode (λ s, s) (λ s, s) (λ s, s).

(** linux/amd64, [gh-github-mcp-server stdio --read-only], a working
    [gh], no network. *)
Definition linux_host : Host := {|
  GOOS := "linux";
  GOARCH := "amd64";
  version := "dev";
  Args := ["gh-github-mcp-server"; "stdio"; "--read-only"];
  Executable := Ok "/ext/gh-github-mcp-server";
  umask := 18;
  run_command := gh_prints (Exited 0 token_line "") (Exited 0 "" "");
  http_do := λ _, Err "dial tcp: no route to host";
  decode_release := λ _, Err "unexpected end of JSON input";
  zip_read := λ _, Err "zip: not a valid zip file";
  targz_read := λ _, Err "gzip: invalid header";
  temp_random := "1234567";
  unicode := plain_tables
|}.

(** An asset name with [U+0130] (bytes 196, 176), which [unicode.ToLower]
    maps to [i], and a host whose tables know it. *)
Definition dotted_name : string :=
  "server-L" +:+ String "196"%char (String "176"%char "NUX-amd64.tar.gz").

Definition dotted_tables : Strings.Unicode :=
  Strings.mkUnicode
    (λ s, if String.eqb s dotted_name then "server-linux-amd64.tar.gz" else s)
    (λ s, s) (λ s, s).

Definition dotted_host : Host := {|
  GOOS := "linux";
  GOARCH := "amd64";
  version := "dev";
  Args := ["gh-github-mcp-server"; "stdio"];
  Executable := Ok "/ext/gh-github-mcp-server";
  umask := 18;
  run_command := gh_prints (Exited 0 token_line "") (Exited 0 "" "");
  http_do := λ _, Err "dial tcp: no route to host";
  decode_release := λ _, Err "unexpected end of JSON input";
  zip_read := λ _, Err "zip: not a valid zip file";
  targz_read := λ _, Err "gzip: invalid header";
  temp_random := "1234567";
  unicode := dotted_tables
|}.

Definition dotted_asset : Asset :=
  mkAsset dotted_name "https://example.invalid/server-linux-amd64.tar.gz".

Definition root_only : gmap string Node := {[ "/" := Dir 493 ]}.

Definition empty_world : World := mkWorld ∅ root_only [].

(** Only [XDG_DATA_HOME] is set; nothing is installed. *)
Definition xdg_world : World :=
  mkWorld {[ "XDG_DATA_HOME" := "/data" ]} root_only [].

Definition installed_path : string :=
  "/home/u/.local/share/gh-github-mcp-server/bin/github-mcp-server".

(** The helper is installed in the extension data directory of user [u]. *)
Definition installed_fs : gmap string Node :=
  {[ "/" := Dir 493;
     "/home" := Dir 493;
     "/home/u" := Dir 493;
     "/home/u/.local" := Dir 493;
     "/home/u/.local/share" := Dir 493;
     "/home/u/.local/share/gh-github-mcp-server" := Dir 493;
     "/home/u/.local/share/gh-github-mcp-server/bin" := Dir 493;
     installed_path := File [] 493 ]}.

Definition installed_world : World :=
  mkWorld {[ "HOME" := "/home/u" ]} installed_fs [].

(** The override names a directory; the helper is installed as above. *)
Definition override_dir_world : World :=
  mkWorld {[ "HOME" := "/home/u"; "GITHUB_MCP_SERVER_PATH" := "/home/u" ]}
          installed_fs [].

(** The override names the installed helper. *)
Definition override_file_world : World :=
  mkWorld {[ "GITHUB_MCP_SERVER_PATH" := installed_path ]} installed_fs [].

(** The override names a helper by way of a directory that does not
    exist; [XDG_DATA_HOME] is set and nothing is installed there. *)
Definition detour_world : World :=
  mkWorld {[ "XDG_DATA_HOME" := "/data";
             "GITHUB_MCP_SERVER_PATH" := "/missing/../custom/helper" ]}
          {[ "/" := Dir 493; "/custom" := Dir 493; "/custom/helper" := File [] 493 ]}
          [].

(** The override names the installed helper by way of a directory that
    does not exist. *)
Definition override_missing_world : World :=
  mkWorld {[ "HOME" := "/home/u";
             "GITHUB_MCP_SERVER_PATH" := "/missing/.." +:+ installed_path ]}
          installed_fs [].

(** A downloaded archive in the temporary directory, and the [bin]
    directory of the extension ready to receive the helper. *)
Definition archive_bytes : list byte := [x50; x4b; x03; x04].

Definition helper_bytes : list byte := [x7f; x45; x4c; x46; x02; x01].

Definition download_fs : gmap string Node :=
  {[ "/" := Dir 493;
     "/tmp" := Dir 511;
     "/tmp/github-mcp-server-1234567" := File archive_bytes 384;
     "/data" := Dir 493;
     "/data/bin" := Dir 493 ]}.

Definition download_world : World := mkWorld ∅ download_fs [].

(** The archive is a zip holding a directory entry and the helper. *)
Definition sample_zip : list ZipFile :=
  [ mkZipFile "github-mcp-server/" (Ok (mkStream [] None));
    mkZipFile "github-mcp-server/bin/github-mcp-server"
              (Ok (mkStream helper_bytes None)) ].

(** The archive is a tar.gz without the helper: a directory of the right
    name and a text file. *)
Definition sample_tar : TarStream :=
  TarEntry "github-mcp-server/" TypeDir (mkStream [] None)
    (TarEntry "README.md" TypeReg (mkStream [x68; x69] None) TarEOF).

Definition archive_host : Host := {|
  GOOS := "linux";
  GOARCH := "amd64";
  version := "dev";
  Args := ["gh-github-mcp-server"; "stdio"];
  Executable := Ok "/ext/gh-github-mcp-server";
  umask := 18;
  run_command := gh_prints (Exited 0 token_line "") (Exited 0 "" "");
  http_do := λ _, Err "dial tcp: no route to host";
  decode_release := λ _, Err "unexpected end of JSON input";
  zip_read := λ _, Ok sample_zip;
  targz_read := λ _, Ok sample_tar;
  temp_random := "1234567";
  unicode := plain_tables
|}.

(** As [linux_host], but the helper exits with status 2. *)
Definition failing_helper_host : Host := {|
  GOOS := "linux";
  GOARCH := "amd64";
  version := "dev";
  Args := ["gh-github-mcp-server"; "stdio"; "--read-only"];
  Executable := Ok "/ext/gh-github-mcp-server";
  umask := 18;
  run_command := gh_prints (Exited 0 token_line "") (Exited 2 "" "");
  http_do := λ _, Err "dial tcp: no route to host";
  decode_release := λ _, Err "unexpected end of JSON input";
  zip_read := λ _, Err "zip: not a valid zip file";
  targz_read := λ _, Err "gzip: invalid header";
  temp_random := "1234567";
  unicode := plain_tables
|}.

(** As [linux_host], but [gh auth token] fails: nobody is logged in. *)
Definition logged_out_host : Host := {|
  GOOS := "linux";
  GOARCH := "amd64";
  version := "dev";
  Args := ["gh-github-mcp-server"; "stdio"];
  Executable := Ok "/ext/gh-github-mcp-server";
  umask := 18;
  run_command := gh_prints (Exited 1 "" "no oauth token found for github.com")
                           (Exited 0 "" "");
  http_do := λ _, Err "dial tcp: no route to host";
  decode_release := λ _, Err "unexpected end of JSON input";
  zip_read := λ _, Err "zip: not a valid zip file";
  targz_read := λ _, Err "gzip: invalid header";
  temp_random := "1234567";
  unicode := plain_tables
|}.

Definition macos_zip : Asset :=
  mkAsset "server-macos.zip" "https://example.invalid/server-macos.zip".

Definition macos_arm64_zip : Asset :=
  mkAsset "server-macos-arm64.zip" "https://example.invalid/server-macos-arm64.zip".

(** darwin/arm64; the release listing is served and holds [assets]. *)
Definition mac_host (assets : list Asset) : Host := {|
  GOOS := "darwin";
  GOARCH := "arm64";
  version := "dev";
  Args := ["gh-github-mcp-server"; "stdio"];
  Executable := Ok "/ext/gh-github-mcp-server";
  umask := 18;
  run_command := gh_prints (Exited 0 token_line "") (Exited 0 "" "");
  http_do := λ _, Ok (mkResponse 200 (mkStream [] None));
  decode_release := λ _, Ok (mkRelease assets "v1.0.0");
  zip_read := λ _, Err "zip: not a valid zip file";
  targz_read := λ _, Err "gzip: invalid header";
  temp_random := "1234567";
  unicode := plain_tables
|}.

(** linux/amd64 with the release served: the listing holds a checksum
    file and a zip for x86_64; every other URL delivers the archive. *)
Definition release_host : Host := {|
  GOOS := "linux";
  GOARCH := "amd64";
  version := "dev";
  Args := ["gh-github-mcp-server"; "stdio"; "--read-only"];
  Executable := Ok "/ext/gh-github-mcp-server";
  umask := 18;
  run_command := gh_prints (Exited 0 token_line "") (Exited 0 "" "");
  http_do := λ req,
    if bool_decide (reqURL req = releaseAPIURL)
    then Ok (mkResponse 200 (mkStream [] None))
    else Ok (mkResponse 200 (mkStream archive_bytes None));
  decode_release := λ _,
    Ok (mkRelease
          [ mkAsset "checksums.txt" "https://example.invalid/checksums.txt";
            mkAsset "github-mcp-server_Linux_x86_64.zip"
                    "https://example.invalid/github-mcp-server_Linux_x86_64.zip" ]
          "v1.0.0");
  zip_read := λ _, Ok sample_zip;
  targz_read := λ _, Ok sample_tar;
  temp_random := "1234567";
  unicode := plain_tables
|}.

(** A fresh account: a home directory, a temporary directory, nothing
    installed. *)
Definition home_world : World :=
  mkWorld {[ "HOME" := "/home/u" ]}
          {[ "/" := Dir 493; "/tmp" := Dir 511; "/home" := Dir 493; "/home/u" := Dir 493 ]}
          [].

Definition linux_asset : Asset :=
  mkAsset "server-linux-amd64.tar.gz" "https://example.invalid/server-linux-amd64.tar.gz".

(** A listing without anything for linux. *)
Definition other_assets : list Asset :=
  [ mkAsset "checksums.txt" "https://example.invalid/checksums.txt";
    mkAsset "server-Windows-amd64.zip" "https://example.invalid/server-Windows-amd64.zip";
    mkAsset "server-darwin-arm64.tar.gz"
            "https://example.invalid/server-darwin-arm64.tar.gz" ].

(** ** Further observations on a run *)

Definition is_stdout (e : Event) : bool :=
  match e with
  | EvStdout _ => true
  | _ => false
  end.

(** [m] leaves the component [part] of the world (its environment, its
    file system) as it is. *)
Definition preserves {A X} (part : World → X) (m : M A) : Prop :=
  ∀ w, part (snd (m w)) = part w.

(** An event that is not the start of a child process, or is a run of
    [gh auth token]. *)
Definition gh_or_no_exec (e : Event) : bool :=
  negb (Os.is_exec e) || is_gh_auth_token e.

(** The error of the selection when no rule matches (lines 350-356). *)
Definition no_match_error (h : Host) : string :=
  if bool_decide (GOOS h = "darwin") && bool_decide (GOARCH h = "amd64") then
    noSuitable h +:+ ". Consider building from source: "
    +:+ "go build -o bin/github-mcp-server ./cmd/github-mcp-server"
  else noSuitable h.

(** As [linux_host], invoked with [--version]. *)
Definition version_host : Host := {|
  GOOS := "linux";
  GOARCH := "amd64";
  version := "1.2.3";
  Args := ["gh-github-mcp-server"; "--version"; "stdio"];
  Executable := Ok "/ext/gh-github-mcp-server";
  umask := 18;
  run_command := gh_prints (Exited 0 token_line "") (Exited 0 "" "");
  http_do := λ _, Err "dial tcp: no route to host";
  decode_release := λ _, Err "unexpected end of JSON input";
  zip_read := λ _, Err "zip: not a valid zip file";
  targz_read := λ _, Err "gzip: invalid header";
  temp_random := "1234567";
  unicode := plain_tables
|}.

(** A tar stream that delivers [entries] and then continues as [tr]. *)
Fixpoint tar_prepend (entries : list (string * Typeflag * Stream)) (tr : TarStream)
  : TarStream :=
  match entries with
  | [] => tr
  | (name, flag, data) :: rest => TarEntry name flag data (tar_prepend rest tr)
  end.

(** The test of the loop of [extractFromTarGz]. *)
Definition binary_tar_entry (entry : string * Typeflag * Stream) : bool :=
  Strings.Contains entry.1.1 "github-mcp-server" && is_TypeReg entry.1.2.

(** As [archive_host], with the archives decoding to [zip] and [tar]. *)
Definition unpack_host (zip : Result (list ZipFile)) (tar : Result TarStream) : Host := {|
  GOOS := "linux";
  GOARCH := "amd64";
  version := "dev";
  Args := ["gh-github-mcp-server"; "stdio"];
  Executable := Ok "/ext/gh-github-mcp-server";
  umask := 18;
  run_command := gh_prints (Exited 0 token_line "") (Exited 0 "" "");
  http_do := λ _, Err "dial tcp: no route to host";
  decode_release := λ _, Err "unexpected end of JSON input";
  zip_read := λ _, zip;
  targz_read := λ _, tar;
  temp_random := "1234567";
  unicode := plain_tables
|}.

(** A zip with a directory of the helper's name and a text file only. *)
Definition zip_without_helper : list ZipFile :=
  [ mkZipFile "github-mcp-server/" (Ok (mkStream [] None));
    mkZipFile "README.md" (Ok (mkStream [x68; x69] None)) ].

(** A zip whose helper entry breaks off after two bytes. *)
Definition zip_truncated : list ZipFile :=
  [ mkZipFile "github-mcp-server" (Ok (mkStream [x7f; x45] (Some "unexpected EOF"))) ].

(** A tar.gz with a text file and the helper. *)
Definition tar_with_helper : TarStream :=
  TarEntry "README.md" TypeReg (mkStream [x68; x69] None)
    (TarEntry "github-mcp-server" TypeReg (mkStream helper_bytes None) TarEOF).

(** The name [os.CreateTemp("", "github-mcp-server-*")] tries in [w]. *)
Definition tempName (h : Host) (w : World) : string :=
  let d := if bool_decide (getenv w "TMPDIR" = "") then "/tmp" else getenv w "TMPDIR" in
  (if Strings.HasSuffix d "/" then d else d +:+ "/")
    +:+ "github-mcp-server-" +:+ temp_random h +:+ "".

(** Where [downloadServerBinary] installs the helper. *)
Definition downloadTarget (h : Host) (w : World) : string :=
  Filepath.Join [Filepath.Join [extensionDataDir h w; "bin"]; binaryName h].

(** The request carries an [Authorization] header. *)
Definition has_authorization (req : Request) : bool :=
  existsb (λ kv, String.eqb kv.1 "Authorization") (reqHeader req).

(** An event that is not a request with an [Authorization] header to
    anything but the release API. *)
Definition token_stays_with_api (e : Event) : bool :=
  match e with
  | EvHTTP req => negb (has_authorization req) || bool_decide (reqURL req = releaseAPIURL)
  | _ => true
  end.

Definition is_http (e : Event) : bool :=
  match e with
  | EvHTTP _ => true
  | _ => false
  end.

(** The shape of a cleaned path: no empty component and no [.]; [..]
    only in front, and only where [dots] allows it (not below the
    root). *)
Fixpoint kept_from (dots : bool) (cs : list string) : bool :=
  match cs with
  | [] => true
  | c :: cs' =>
      if bool_decide (c = "..") then dots && kept_from true cs'
      else negb (bool_decide (c = "" ∨ c = ".")) && kept_from false cs'
  end.

(** A file name: one component that names an entry. *)
Definition plain (n : string) : Prop :=
  n ≠ "" ∧ n ≠ "." ∧ n ≠ ".." ∧ Strings.split_on "/" n = [n]
  ∧ Strings.HasSuffix n "/" = false.

(** The file name of the temporary file. *)
Definition tempBase (h : Host) : string := "github-mcp-server-" +:+ temp_random h.

(** As [release_host], but the asset cannot be fetched. *)
Definition unreachable_asset_host : Host := {|
  GOOS := "linux";
  GOARCH := "amd64";
  version := "dev";
  Args := ["gh-github-mcp-server"; "stdio"];
  Executable := Ok "/ext/gh-github-mcp-server";
  umask := 18;
  run_command := gh_prints (Exited 0 token_line "") (Exited 0 "" "");
  http_do := λ req,
    if bool_decide (reqURL req = releaseAPIURL)
    then Ok (mkResponse 200 (mkStream [] None))
    else Ok (mkResponse 404 (mkStream [] None));
  decode_release := decode_release release_host;
  zip_read := λ _, Ok sample_zip;
  targz_read := λ _, Ok sample_tar;
  temp_random := "1234567";
  unicode := plain_tables
|}.

(** A tar.gz that breaks off after a text file. *)
Definition tar_broken : TarStream :=
  TarEntry "README.md" TypeReg (mkStream [x68; x69] None) (TarFail "unexpected EOF").

(** * Theorems *)

(** ** The string and path functions on sample inputs *)

Example Contains_ex : Strings.Contains "server-linux-amd64.tar.gz" "amd64" = true.
Proof. reflexivity. Qed.
Example HasSuffix_ex : Strings.HasSuffix "a/b.tar.gz" ".tar.gz" = true.
Proof. reflexivity. Qed.
Example ToLower_ex u : Strings.ToLower u "Server-MacOS.ZIP" = "server-macos.zip".
Proof. reflexivity. Qed.
Example TrimSpace_ex u :
  Strings.TrimSpace u (" gho_x " +:+ String "010"%char "") = "gho_x".
Proof. reflexivity. Qed.

(** Outside ASCII both functions leave the work to the Unicode tables:
    [U+0130] (bytes 196, 176) in an asset name, a no-break space
    [U+00A0] (bytes 194, 160) after a token. *)
Example ToLower_ex2 u :
  Strings.ToLower u ("L" +:+ String "196"%char (String "176"%char "NUX"))
  = Strings.map_to_lower u ("L" +:+ String "196"%char (String "176"%char "NUX")).
Proof. reflexivity. Qed.
Example TrimSpace_ex2 u :
  Strings.TrimSpace u (" gho_x" +:+ String "194"%char (String "160"%char " "))
  = Strings.trim_right_func_space u ("gho_x" +:+ String "194"%char (String "160"%char "")).
Proof. reflexivity. Qed.
Example Clean_ex1 : Filepath.Clean "/a//b/./c/../d/" = "/a/b/d".
Proof. reflexivity. Qed.
Example Clean_ex2 : Filepath.Clean "" = ".".
Proof. reflexivity. Qed.
Example Clean_ex3 : Filepath.Clean "../../a" = "../../a".
Proof. reflexivity. Qed.
Example Clean_ex4 : Filepath.Clean "/../a" = "/a".
Proof. reflexivity. Qed.
Example Join_ex : Filepath.Join ["/home/u"; ".local"; "share"; "gh-github-mcp-server"]
                  = "/home/u/.local/share/gh-github-mcp-server".
Proof. reflexivity. Qed.
Example Join_ex2 : Filepath.Join ["."; "bin"; "github-mcp-server"] = "bin/github-mcp-server".
Proof. reflexivity. Qed.
Example Dir_ex : Filepath.Dir "/usr/local/bin/gh-x" = "/usr/local/bin".
Proof. reflexivity. Qed.
Example Dir_ex2 : Filepath.Dir "gh-x" = ".".
Proof. reflexivity. Qed.
Example Dir_ex3 : Filepath.Dir "/gh-x" = "/".
Proof. reflexivity. Qed.

(** Resolution goes through every directory a name mentions, so a name
    that resolves after [Clean] need not resolve as it is written. *)
Example Stat_ex1 : Os.Stat installed_fs "/home//u/../u/.local/" = Some (Dir 493).
Proof. vm_compute. reflexivity. Qed.
Example Stat_ex2 : Os.Stat installed_fs installed_path = Some (File [] 493).
Proof. vm_compute. reflexivity. Qed.
Example Stat_ex3 :
  Filepath.Clean ("/missing/.." +:+ installed_path) = installed_path
  ∧ Os.Stat installed_fs ("/missing/.." +:+ installed_path) = None.
Proof. split; vm_compute; reflexivity. Qed.
Example Stat_ex4 :
  Filepath.Clean (installed_path +:+ "/.") = installed_path
  ∧ Os.Stat installed_fs (installed_path +:+ "/.") = None.
Proof. split; vm_compute; reflexivity. Qed.

(** Mode 0755: read, write and execute for the owner, read and execute
    for group and others; 0111 are the three execute bits. *)
Example mode_0755 : 493 = 7 * 64 + 5 * 8 + 5 ∧ Z.land 493 73 = 73.
Proof. split; reflexivity. Qed.

(** ** Asset selection *)

Section selection.
Context (h : Host).

Lemma find_first {A} (f : A → bool) (l : list A) (x : A) :
  List.find f l = Some x →
  ∃ pre post, l = pre ++ x :: post ∧ f x = true
              ∧ Forall (λ y, f y = false) pre.
Proof.
  induction l as [|y l IH]; simpl; [discriminate|].
  destruct (f y) eqn:Hy.
  - intros [= ->]. exists [], l. auto.
  - intros Hx. destruct (IH Hx) as (pre & post & -> & Hfx & Hpre).
    exists (y :: pre), post. auto.
Qed.

Lemma find_absent {A} (f : A → bool) (l : list A) :
  List.find f l = None → ∀ x, In x l → f x = false.
Proof. intros Hn x Hx. exact (List.find_none f l Hn x Hx). Qed.

Lemma first_asset_hit test assets asset :
  first_asset h test assets = Some asset →
  In asset assets ∧ test (Strings.ToLower (unicode h) (Name asset)) = true.
Proof.
  unfold first_asset. intros Hf.
  destruct (find_first _ _ _ Hf) as (pre & post & -> & Ht & _).
  split; [apply in_or_app; right; left; reflexivity | exact Ht].
Qed.

Lemma first_asset_prefix test (spec : string → bool) assets asset :
  (∀ name, test (Strings.ToLower (unicode h) name) = spec name) →
  first_asset h test assets = Some asset →
  ∃ pre post, assets = pre ++ asset :: post
              ∧ Forall (λ a, spec (Name a) = false) pre.
Proof.
  unfold first_asset. intros Hspec Hf.
  destruct (find_first _ _ _ Hf) as (pre & post & Heq & _ & Hpre).
  exists pre, post. split; [exact Heq|].
  eapply Forall_impl; [exact Hpre|]. intros a Ha. simpl in Ha.
  rewrite <- Hspec. exact Ha.
Qed.

Lemma first_asset_miss test assets :
  first_asset h test assets = None →
  ∀ asset, In asset assets → test (Strings.ToLower (unicode h) (Name asset)) = false.
Proof. unfold first_asset. intros Hn asset Hin. exact (find_absent _ _ Hn asset Hin). Qed.

Lemma first_variant_asset_hit variants assets asset :
  first_variant_asset h variants assets = Some asset →
  In asset assets ∧
  existsb (λ v, matchMacAlt h v (Strings.ToLower (unicode h) (Name asset))) variants = true.
Proof.
  induction variants as [|v vs IH]; simpl; [discriminate|].
  destruct (first_asset h (matchMacAlt h v) assets) as [a|] eqn:Hv.
  - intros [= ->]. destruct (first_asset_hit _ _ _ Hv) as [Hin Hm].
    split; [exact Hin | rewrite Hm; reflexivity].
  - intros Hs. destruct (IH Hs) as [Hin Hm].
    split; [exact Hin | rewrite Hm; apply orb_true_r].
Qed.

Lemma first_variant_asset_miss variants assets :
  first_variant_asset h variants assets = None →
  ∀ asset, In asset assets →
    existsb (λ v, matchMacAlt h v (Strings.ToLower (unicode h) (Name asset))) variants = false.
Proof.
  induction variants as [|v vs IH]; simpl; [reflexivity|].
  destruct (first_asset h (matchMacAlt h v) assets) as [a|] eqn:Hv; [discriminate|].
  intros Hs asset Hin.
  rewrite (first_asset_miss _ _ Hv asset Hin), (IH Hs asset Hin). reflexivity.
Qed.

(** The tests of the code are the rules of the specification. *)
Lemma matchOsArch_spec name :
  matchOsArch h (Strings.ToLower (unicode h) name) = spec_rule_matches h RuleOsArch name.
Proof. reflexivity. Qed.

Lemma matchMacAlt_spec name :
  GOOS h = "darwin" →
  Strings.ToLower (unicode h) (GOARCH h) = GOARCH h →
  existsb (λ v, matchMacAlt h v (Strings.ToLower (unicode h) name)) macVariants
  = spec_rule_matches h RuleMacAlt name.
Proof.
  intros Hos Harch. unfold spec_rule_matches, matchMacAlt, macVariants, ci_contains.
  rewrite Hos, Harch. cbn [existsb].
  change (Strings.ToLower (unicode h) "mac") with "mac".
  change (Strings.ToLower (unicode h) "macos") with "macos".
  change (Strings.ToLower (unicode h) "osx") with "osx".
  change (Strings.ToLower (unicode h) "x86_64") with "x86_64".
  change (Strings.ToLower (unicode h) "amd64") with "amd64".
  rewrite bool_decide_eq_true_2 by reflexivity.
  destruct (Strings.Contains (Strings.ToLower (unicode h) name) "mac"),
    (Strings.Contains (Strings.ToLower (unicode h) name) "macos"),
    (Strings.Contains (Strings.ToLower (unicode h) name) "osx"),
    (Strings.Contains (Strings.ToLower (unicode h) name) (GOARCH h)
     || Strings.Contains (Strings.ToLower (unicode h) name) "x86_64"
     || Strings.Contains (Strings.ToLower (unicode h) name) "amd64"); reflexivity.
Qed.

Lemma matchX8664_spec name :
  GOARCH h = "amd64" →
  matchX8664 h (Strings.ToLower (unicode h) name) = spec_rule_matches h RuleX8664 name.
Proof.
  intros Harch. unfold spec_rule_matches, matchX8664, ci_contains.
  rewrite bool_decide_eq_true_2 by exact Harch. reflexivity.
Qed.

Lemma matchOsOnly_spec name :
  matchOsOnly h (Strings.ToLower (unicode h) name) = spec_rule_matches h RuleOsOnly name.
Proof.
  unfold spec_rule_matches, matchOsOnly, ci_contains. cbn [existsb].
  change (Strings.ToLower (unicode h) ".sha") with ".sha".
  change (Strings.ToLower (unicode h) ".md5") with ".md5".
  change (Strings.ToLower (unicode h) "src") with "src".
  change (Strings.ToLower (unicode h) "source") with "source".
  destruct (Strings.Contains (Strings.ToLower (unicode h) name) (Strings.ToLower (unicode h) (GOOS h))),
    (Strings.Contains (Strings.ToLower (unicode h) name) ".sha"),
    (Strings.Contains (Strings.ToLower (unicode h) name) ".md5"),
    (Strings.Contains (Strings.ToLower (unicode h) name) "src"),
    (Strings.Contains (Strings.ToLower (unicode h) name) "source"); reflexivity.
Qed.

Lemma spec_MacAlt_off name :
  GOOS h ≠ "darwin" → spec_rule_matches h RuleMacAlt name = false.
Proof. intros Hos. simpl. rewrite bool_decide_eq_false_2 by exact Hos. reflexivity. Qed.

Lemma spec_X8664_off name :
  GOARCH h ≠ "amd64" → spec_rule_matches h RuleX8664 name = false.
Proof. intros Ha. simpl. rewrite bool_decide_eq_false_2 by exact Ha. reflexivity. Qed.

(** [chooseAsset] returns what [pickAsset] picks, and its last message
    names the rule that fired. *)
Lemma chooseAsset_pick assets w :
  match pickAsset h assets with
  | Some (rule, asset) =>
      fst (chooseAsset h assets w) = Ok (BrowserDownloadURL asset)
      ∧ head (trace (snd (chooseAsset h assets w)))
        = Some (EvStderr (found_message rule asset))
  | None =>
      ∃ e, fst (chooseAsset h assets w) = Err e
           ∧ Strings.HasPrefix e (noSuitable h) = true
  end.
Proof.
  assert (Hpre : ∀ s t, Strings.HasPrefix (s +:+ t) s = true).
  { induction s as [|c s IH]; intros t; [reflexivity|].
    change (String c s +:+ t) with (String c (s +:+ t)). simpl.
    rewrite Ascii.eqb_refl. apply IH. }
  assert (Hpre' : ∀ s, Strings.HasPrefix s s = true).
  { induction s as [|c s IH]; simpl; [reflexivity|].
    rewrite Ascii.eqb_refl. apply IH. }
  unfold pickAsset, chooseAsset, bind, ret, Eprint, emit.
  destruct (first_asset h (matchOsArch h) assets) as [a1|]; [split; reflexivity|].
  destruct (bool_decide (GOOS h = "darwin"));
    [destruct (first_variant_asset h macVariants assets) as [a2|];
     [split; reflexivity|] |];
    (destruct (bool_decide (GOARCH h = "amd64"));
     [destruct (first_asset h (matchX8664 h) assets) as [a3|];
      [split; reflexivity|] |];
     (destruct (first_asset h (matchOsOnly h) assets) as [a4|];
      [split; reflexivity|])).
  all: cbn [andb fst snd]; eexists; (split; [reflexivity|]).
  all: first [apply Hpre | apply Hpre'].
Qed.

Lemma pickAsset_sound assets rule asset :
  Strings.ToLower (unicode h) (GOARCH h) = GOARCH h →
  pickAsset h assets = Some (rule, asset) →
  In asset assets
  ∧ spec_rule_matches h rule (Name asset) = true
  ∧ (∀ rule' asset', (rule_rank rule' < rule_rank rule)%nat → In asset' assets →
       spec_rule_matches h rule' (Name asset') = false)
  ∧ (rule ≠ RuleMacAlt →
     ∃ pre post, assets = pre ++ asset :: post
       ∧ Forall (λ a, spec_rule_matches h rule (Name a) = false) pre).
Proof.
  intros Hlow. unfold pickAsset.
  destruct (first_asset h (matchOsArch h) assets) as [a1|] eqn:H1.
  { intros [= <- <-]. destruct (first_asset_hit _ _ _ H1) as [Hin Hm].
    split; [exact Hin|]. split; [exact Hm|]. split.
    - intros r' a' Hr; simpl in Hr; lia.
    - intros _. exact (first_asset_prefix _ _ _ _ matchOsArch_spec H1). }
  assert (N1 : ∀ a, In a assets → spec_rule_matches h RuleOsArch (Name a) = false).
  { intros a Ha. rewrite <- matchOsArch_spec. exact (first_asset_miss _ _ H1 a Ha). }
  assert (N2 : (if bool_decide (GOOS h = "darwin")
                then first_variant_asset h macVariants assets else None) = None →
               ∀ a, In a assets → spec_rule_matches h RuleMacAlt (Name a) = false).
  { intros Hn a Ha. destruct (decide (GOOS h = "darwin")) as [Hos|Hos].
    - rewrite bool_decide_eq_true_2 in Hn by exact Hos.
      rewrite <- (matchMacAlt_spec _ Hos Hlow).
      exact (first_variant_asset_miss _ _ Hn a Ha).
    - apply spec_MacAlt_off; exact Hos. }
  assert (N3 : (if bool_decide (GOARCH h = "amd64")
                then first_asset h (matchX8664 h) assets else None) = None →
               ∀ a, In a assets → spec_rule_matches h RuleX8664 (Name a) = false).
  { intros Hn a Ha. destruct (decide (GOARCH h = "amd64")) as [Har|Har].
    - rewrite bool_decide_eq_true_2 in Hn by exact Har.
      rewrite <- (matchX8664_spec _ Har).
      exact (first_asset_miss _ _ Hn a Ha).
    - apply spec_X8664_off; exact Har. }
  destruct (if bool_decide (GOOS h = "darwin")
            then first_variant_asset h macVariants assets else None)
    as [a2|] eqn:H2.
  { intros [= <- <-].
    destruct (decide (GOOS h = "darwin")) as [Hos|Hos];
      [rewrite bool_decide_eq_true_2 in H2 by exact Hos
      |rewrite bool_decide_eq_false_2 in H2 by exact Hos; discriminate].
    destruct (first_variant_asset_hit _ _ _ H2) as [Hin Hm].
    rewrite (matchMacAlt_spec _ Hos Hlow) in Hm.
    split; [exact Hin|]. split; [exact Hm|]. split; [|intros Hne; contradiction].
    intros [] a' Hr Ha'; simpl in Hr; try lia. exact (N1 a' Ha'). }
  specialize (N2 eq_refl).
  destruct (if bool_decide (GOARCH h = "amd64")
            then first_asset h (matchX8664 h) assets else None)
    as [a3|] eqn:H3.
  { intros [= <- <-].
    destruct (decide (GOARCH h = "amd64")) as [Har|Har];
      [rewrite bool_decide_eq_true_2 in H3 by exact Har
      |rewrite bool_decide_eq_false_2 in H3 by exact Har; discriminate].
    destruct (first_asset_hit _ _ _ H3) as [Hin Hm].
    rewrite (matchX8664_spec _ Har) in Hm.
    split; [exact Hin|]. split; [exact Hm|]. split.
    - intros [] a' Hr Ha'; simpl in Hr; try lia; [exact (N1 a' Ha') | exact (N2 a' Ha')].
    - intros _. exact (first_asset_prefix _ _ _ _ (λ n, matchX8664_spec n Har) H3). }
  specialize (N3 eq_refl).
  destruct (first_asset h (matchOsOnly h) assets) as [a4|] eqn:H4; [|discriminate].
  intros [= <- <-]. destruct (first_asset_hit _ _ _ H4) as [Hin Hm].
  rewrite matchOsOnly_spec in Hm.
  split; [exact Hin|]. split; [exact Hm|]. split.
  - intros [] a' Hr Ha'; simpl in Hr; try lia;
      [exact (N1 a' Ha') | exact (N2 a' Ha') | exact (N3 a' Ha')].
  - intros _. exact (first_asset_prefix _ _ _ _ matchOsOnly_spec H4).
Qed.

Lemma pickAsset_none assets :
  Strings.ToLower (unicode h) (GOARCH h) = GOARCH h →
  pickAsset h assets = None →
  ∀ rule asset, In asset assets → spec_rule_matches h rule (Name asset) = false.
Proof.
  intros Hlow. unfold pickAsset.
  destruct (first_asset h (matchOsArch h) assets) as [a1|] eqn:H1; [discriminate|].
  destruct (bool_decide (GOOS h = "darwin")) eqn:Hos;
    [apply bool_decide_eq_true_1 in Hos | apply bool_decide_eq_false_1 in Hos].
  1: destruct (first_variant_asset h macVariants assets) as [a2|] eqn:H2; [discriminate|].
  all: destruct (bool_decide (GOARCH h = "amd64")) eqn:Har;
    [apply bool_decide_eq_true_1 in Har | apply bool_decide_eq_false_1 in Har].
  all: try (destruct (first_asset h (matchX8664 h) assets) as [a3|] eqn:H3; [discriminate|]).
  all: destruct (first_asset h (matchOsOnly h) assets) as [a4|] eqn:H4; [discriminate|].
  all: intros _ [] a Ha.
  all: try (rewrite <- matchOsArch_spec; exact (first_asset_miss _ _ H1 a Ha)).
  all: try (rewrite <- matchOsOnly_spec; exact (first_asset_miss _ _ H4 a Ha)).
  all: try (apply spec_MacAlt_off; exact Hos).
  all: try (apply spec_X8664_off; exact Har).
  all: try (rewrite <- (matchMacAlt_spec _ Hos Hlow);
            exact (first_variant_asset_miss _ _ H2 a Ha)).
  all: try (rewrite <- (matchX8664_spec _ Har); exact (first_asset_miss _ _ H3 a Ha)).
Qed.

Lemma find_after_misses {A} (f : A → bool) (pre post : list A) (x : A) :
  Forall (λ y, f y = false) pre → f x = true →
  List.find f (pre ++ x :: post) = Some x.
Proof.
  intros Hpre Hx. induction Hpre as [|y pre Hy _ IH]; simpl.
  - rewrite Hx. reflexivity.
  - rewrite Hy. exact IH.
Qed.

End selection.

(** C5.  The Release Resolver tries its rules in the order OS+arch,
    macOS alternatives, OS+x86_64 (amd64 only), OS only without checksum
    and source artifacts, each a case-insensitive substring test, and stops
    at the first rule some asset satisfies: the asset it returns satisfies a
    rule that no asset satisfies any earlier rule of (and, for the rules
    with a single pass over the listing, is the first asset of the listing
    that does); it reports an error only when no asset satisfies any rule.
    In particular on linux/amd64 an asset named server-linux-amd64.tar.gz
    with no OS+arch match before it is selected by the OS+arch rule.
    The architecture identifier is lower case, as every GOARCH value is. *)
Theorem chooseAsset_rule_order (h : Host) (assets : list Asset) (w : World) :
  Strings.ToLower (unicode h) (GOARCH h) = GOARCH h →
  match fst (chooseAsset h assets w) with
  | Ok url =>
      ∃ rule asset,
        In asset assets
        ∧ url = BrowserDownloadURL asset
        ∧ spec_rule_matches h rule (Name asset) = true
        ∧ (∀ rule' asset', (rule_rank rule' < rule_rank rule)%nat →
             In asset' assets → spec_rule_matches h rule' (Name asset') = false)
        ∧ (rule ≠ RuleMacAlt →
           ∃ pre post, assets = pre ++ asset :: post
             ∧ Forall (λ a, spec_rule_matches h rule (Name a) = false) pre)
        ∧ head (trace (snd (chooseAsset h assets w)))
          = Some (EvStderr (found_message rule asset))
  | Err _ =>
      ∀ rule asset, In asset assets → spec_rule_matches h rule (Name asset) = false
  end
  ∧ (GOOS h = "linux" → GOARCH h = "amd64" →
     ∀ pre asset post,
       assets = pre ++ asset :: post →
       Name asset = "server-linux-amd64.tar.gz" →
       Forall (λ a, spec_rule_matches h RuleOsArch (Name a) = false) pre →
       fst (chooseAsset h assets w) = Ok (BrowserDownloadURL asset)
       ∧ head (trace (snd (chooseAsset h assets w)))
         = Some (EvStderr (found_message RuleOsArch asset))).
Proof.
  intros Hlow. split.
  - pose proof (chooseAsset_pick h assets w) as Hpick.
    destruct (pickAsset h assets) as [[rule asset]|] eqn:Hp.
    + destruct Hpick as [Hfst Hhead]. rewrite Hfst.
      destruct (pickAsset_sound h assets rule asset Hlow Hp) as (Hin & Hm & Hearlier & Hfirst).
      exists rule, asset. repeat (split; [assumption || reflexivity|]). exact Hhead.
    + destruct Hpick as (e & Hfst & _). rewrite Hfst.
      exact (pickAsset_none h assets Hlow Hp).
  - intros Hos Harch pre asset post -> Hname Hpre.
    pose proof (chooseAsset_pick h (pre ++ asset :: post) w) as Hpick.
    assert (Hp : pickAsset h (pre ++ asset :: post) = Some (RuleOsArch, asset)).
    { unfold pickAsset, first_asset.
      rewrite (find_after_misses _ pre post asset); [reflexivity| |].
      - eapply Forall_impl; [exact Hpre|]. intros a Ha. exact Ha.
      - unfold matchOsArch. rewrite Hname, Hos, Harch. reflexivity. }
    rewrite Hp in Hpick. exact Hpick.
Qed.

Lemma chooseAsset_rule_order_witness :
  Strings.ToLower (unicode linux_host) (GOARCH linux_host) = GOARCH linux_host
  ∧ fst (chooseAsset linux_host [linux_asset] empty_world)
    = Ok (BrowserDownloadURL linux_asset)
  ∧ head (trace (snd (chooseAsset linux_host [linux_asset] empty_world)))
    = Some (EvStderr (found_message RuleOsArch linux_asset))
  ∧ is_ok (fst (chooseAsset dotted_host [dotted_asset] empty_world)) = true.
Proof.
  split; [reflexivity|].
  destruct (chooseAsset_rule_order linux_host [linux_asset] empty_world eq_refl)
    as [_ Hex].
  destruct (Hex eq_refl eq_refl [] linux_asset [] eq_refl eq_refl (List.Forall_nil _))
    as [Hurl Hhead].
  split; [exact Hurl|]. split; [exact Hhead|].
  destruct (chooseAsset_rule_order dotted_host [dotted_asset] empty_world eq_refl)
    as [Hrule _].
  destruct (fst (chooseAsset dotted_host [dotted_asset] empty_world)) as [url|e];
    [reflexivity|].
  specialize (Hrule RuleOsArch dotted_asset (or_introl eq_refl)).
  vm_compute in Hrule. discriminate Hrule.
Defined.

(** ** The file system: [MkdirAll] adds directories and nothing else *)

Section frame.
Context (h : Host).

Lemma only_new_dirs_refl f : only_new_dirs f f.
Proof. intros k. left. reflexivity. Qed.

Lemma only_new_dirs_trans f1 f2 f3 :
  only_new_dirs f1 f2 → only_new_dirs f2 f3 → only_new_dirs f1 f3.
Proof.
  intros H12 H23 k. destruct (H23 k) as [E23|[N2 [m E3]]], (H12 k) as [E12|[N1 [m' E2]]].
  - left. congruence.
  - right. split; [exact N1|]. exists m'. congruence.
  - right. split; [congruence|]. exists m. exact E3.
  - congruence.
Qed.

Lemma only_new_dirs_insert (f : gmap string Node) k m :
  f !! k = None → only_new_dirs f (<[k := Dir m]> f).
Proof.
  intros Hk j. destruct (decide (k = j)) as [<-|Hne].
  - right. split; [exact Hk|]. exists m. apply lookup_insert_eq.
  - left. apply lookup_insert_ne. exact Hne.
Qed.

Lemma dirs_kept_refl f : dirs_kept f f.
Proof. intros k m Hk. eauto. Qed.

Lemma dirs_kept_trans f1 f2 f3 : dirs_kept f1 f2 → dirs_kept f2 f3 → dirs_kept f1 f3.
Proof. intros H12 H23 k m Hk. destruct (H12 k m Hk) as [m' Hk']. eauto. Qed.

Lemma dirs_kept_insert f k n :
  (∀ m, f !! k ≠ Some (Dir m)) → dirs_kept f (<[k := n]> f).
Proof.
  intros Hk k' m Hk'. destruct (decide (k' = k)) as [->|Hne].
  - destruct (Hk m Hk').
  - exists m. rewrite lookup_insert_ne by congruence. exact Hk'.
Qed.

Lemma dirs_kept_delete f k :
  (∀ m, f !! k ≠ Some (Dir m)) → dirs_kept f (delete k f).
Proof.
  intros Hk k' m Hk'. destruct (decide (k' = k)) as [->|Hne].
  - destruct (Hk m Hk').
  - exists m. rewrite lookup_delete_ne by congruence. exact Hk'.
Qed.

Lemma dirs_kept_alter f (g : Node → Node) k :
  (∀ m, ∃ m', g (Dir m) = Dir m') → dirs_kept f (alter g k f).
Proof.
  intros Hg k' m Hk'. destruct (decide (k' = k)) as [->|Hne].
  - rewrite lookup_alter_eq, Hk'. cbn. destruct (Hg m) as [m' ->]. eauto.
  - exists m. rewrite lookup_alter_ne by congruence. exact Hk'.
Qed.

Lemma only_new_dirs_kept f f' : only_new_dirs f f' → dirs_kept f f'.
Proof.
  intros Hf k m Hk. destruct (Hf k) as [E|[N _]]; [|congruence].
  exists m. congruence.
Qed.

(** Resolution follows directories only: it goes the same way wherever
    the directories are kept. *)
Lemma walk_dirs_kept f f' rooted comps : ∀ acc acc',
  dirs_kept f f' →
  Os.walk f rooted comps acc = Ok acc' → Os.walk f' rooted comps acc = Ok acc'.
Proof.
  induction comps as [|c comps IH]; intros acc acc' Hf; cbn [Os.walk]; [auto|].
  destruct (f !! Filepath.render rooted (rev acc)) as [[content m|m]|] eqn:Hk;
    try discriminate.
  destruct (Hf _ _ Hk) as [m' ->]. apply IH. exact Hf.
Qed.

Lemma clean_go_step r c cs acc :
  Filepath.clean_go r (c :: cs) acc = Filepath.clean_go r cs (Filepath.clean_step r acc c).
Proof.
  cbn [Filepath.clean_go]. unfold Filepath.clean_step.
  repeat case_match; reflexivity.
Qed.

(** Where resolution arrives is where [Clean] arrives. *)
Lemma walk_sound f r comps : ∀ acc acc',
  Os.walk f r comps acc = Ok acc' → Filepath.clean_go r comps acc = rev acc'.
Proof.
  induction comps as [|c comps IH]; intros acc acc'.
  - cbn. congruence.
  - rewrite clean_go_step. cbn [Os.walk]. repeat case_match; try discriminate. apply IH.
Qed.

(** Where a name leads is its cleaned name. *)
Lemma resolve_Clean f name k :
  Os.resolve f name = Ok k → k = Filepath.Clean name ∧ name ≠ "".
Proof.
  unfold Os.resolve. case_bool_decide as Hne; [discriminate|]. cbv zeta.
  destruct (Os.walk f _ _ []) as [acc|e] eqn:Hw; [|discriminate].
  intros [= <-]. split; [|exact Hne].
  unfold Filepath.Clean, Filepath.render. cbv zeta.
  rewrite (walk_sound _ _ _ _ _ Hw). reflexivity.
Qed.

Lemma resolve_dirs_kept f f' name k :
  dirs_kept f f' → Os.resolve f name = Ok k → Os.resolve f' name = Ok k.
Proof.
  intros Hf. unfold Os.resolve. destruct (bool_decide (name = "")); [discriminate|].
  cbv zeta. destruct (Os.walk f _ _ []) as [acc|e] eqn:Hw; [|discriminate].
  rewrite (walk_dirs_kept f f' _ _ _ _ Hf Hw). auto.
Qed.

(** What a name resolves to is the node at the cleaned name. *)
Lemma Stat_lexical f name n :
  Os.Stat f name = Some n → f !! Filepath.Clean name = Some n.
Proof.
  unfold Os.Stat. destruct (Os.resolve f name) as [k|e] eqn:Hr; [|discriminate].
  apply resolve_Clean in Hr as [-> _]. auto.
Qed.

(** What a name resolves to is still there when directories are added. *)
Lemma Stat_more f f' name n :
  only_new_dirs f f' → Os.Stat f name = Some n → Os.Stat f' name = Some n.
Proof.
  intros Hf. unfold Os.Stat.
  destruct (Os.resolve f name) as [k|e] eqn:Hr; [|discriminate].
  rewrite (resolve_dirs_kept f f' _ _ (only_new_dirs_kept f f' Hf) Hr).
  intros Hn. destruct (Hf k) as [E|[N _]]; congruence.
Qed.

Lemma Stat_dir_kept f f' name m :
  dirs_kept f f' → Os.Stat f name = Some (Dir m) → ∃ m', Os.Stat f' name = Some (Dir m').
Proof.
  intros Hf. unfold Os.Stat.
  destruct (Os.resolve f name) as [k|e] eqn:Hr; [|discriminate].
  rewrite (resolve_dirs_kept f f' _ _ Hf Hr). apply Hf.
Qed.

Lemma is_regular_file_more f f' path :
  only_new_dirs f f' → is_regular_file f path = true → is_regular_file f' path = true.
Proof.
  intros Hf. unfold is_regular_file.
  destruct (Os.Stat f path) as [[c m|m]|] eqn:Hs; try discriminate.
  rewrite (Stat_more f f' path _ Hf Hs). reflexivity.
Qed.

Lemma Mkdir_frame name perm w :
  env (snd (Os.Mkdir h name perm w)) = env w
  ∧ trace (snd (Os.Mkdir h name perm w)) = trace w
  ∧ only_new_dirs (fs w) (fs (snd (Os.Mkdir h name perm w))).
Proof.
  unfold Os.Mkdir. destruct (bool_decide (name = "")).
  { simpl. auto using only_new_dirs_refl. }
  cbv zeta. destruct (Os.walk (fs w) _ _ []) as [acc|e].
  2: { simpl. auto using only_new_dirs_refl. }
  destruct (fs w !! Filepath.render _ (rev acc)) eqn:Hk;
    simpl; auto using only_new_dirs_refl, only_new_dirs_insert.
Qed.

Lemma MkdirAll_rec_frame fuel : ∀ path perm w,
  env (snd (Os.MkdirAll_rec h fuel path perm w)) = env w
  ∧ trace (snd (Os.MkdirAll_rec h fuel path perm w)) = trace w
  ∧ only_new_dirs (fs w) (fs (snd (Os.MkdirAll_rec h fuel path perm w))).
Proof.
  assert (Hstep : ∀ path perm w (r : Result unit) w1,
    env w1 = env w → trace w1 = trace w → only_new_dirs (fs w) (fs w1) →
    let res :=
      match r with
      | Err e => (Err e, w1)
      | Ok _ =>
          let '(r2, w2) := Os.Mkdir h path perm w1 in
          match r2 with
          | Ok _ => (Ok tt, w2)
          | Err e =>
              match Os.Stat (fs w2) path with
              | Some (Dir _) => (Ok tt, w2)
              | _ => (Err e, w2)
              end
          end
      end in
    env (snd res) = env w ∧ trace (snd res) = trace w
    ∧ only_new_dirs (fs w) (fs (snd res))).
  { intros path perm w r w1 He Ht Hf. destruct r as [[]|e]; simpl; [|auto].
    destruct (Mkdir_frame path perm w1) as (He2 & Ht2 & Hf2).
    destruct (Os.Mkdir h path perm w1) as [r2 w2]. simpl in He2, Ht2, Hf2.
    assert (env w2 = env w ∧ trace w2 = trace w ∧ only_new_dirs (fs w) (fs w2)) as Hall.
    { split; [congruence|]. split; [congruence|].
      eapply only_new_dirs_trans; eassumption. }
    destruct r2 as [[]|e]; [exact Hall|].
    destruct (Os.Stat (fs w2) path) as [[c m|m]|]; exact Hall. }
  induction fuel as [|fuel IH]; intros path perm w; simpl.
  - destruct (Os.Stat (fs w) path) as [[c m|m]|];
      simpl; auto using only_new_dirs_refl.
    apply (Hstep path perm w (Ok tt) w); auto using only_new_dirs_refl.
  - destruct (Os.Stat (fs w) path) as [[c m|m]|];
      simpl; auto using only_new_dirs_refl.
    destruct (bool_decide (Os.parent_prefix path ≠ "")).
    + destruct (IH (Os.parent_prefix path) perm w) as (He & Ht & Hf).
      destruct (Os.MkdirAll_rec h fuel (Os.parent_prefix path) perm w) as [r w1].
      apply (Hstep path perm w r w1); assumption.
    + apply (Hstep path perm w (Ok tt) w); auto using only_new_dirs_refl.
Qed.

(** The length of the path is enough fuel for [MkdirAll_rec]: more fuel
    changes nothing. *)
Lemma length_string_of_list_ascii l :
  String.length (string_of_list_ascii l) = length l.
Proof. induction l as [|c l IH]; simpl; [reflexivity | rewrite IH; reflexivity]. Qed.

Lemma length_list_ascii_of_string s :
  length (list_ascii_of_string s) = String.length s.
Proof. induction s as [|c s IH]; simpl; [reflexivity | rewrite IH; reflexivity]. Qed.

Lemma drop_while_length p l : (length (Os.drop_while p l) ≤ length l)%nat.
Proof.
  induction l as [|c l IH]; simpl; [lia|]. destruct (p c); simpl; lia.
Qed.

Lemma parent_prefix_shorter path :
  path ≠ "" → (String.length (Os.parent_prefix path) < String.length path)%nat.
Proof.
  intros Hne. unfold Os.parent_prefix.
  rewrite length_string_of_list_ascii, length_rev, <- length_list_ascii_of_string.
  rewrite <- (length_rev (list_ascii_of_string path)).
  destruct (rev (list_ascii_of_string path)) as [|c l] eqn:Hr.
  - exfalso. apply Hne. destruct path as [|a path]; [reflexivity|].
    apply (f_equal (@length ascii)) in Hr.
    rewrite length_rev, length_list_ascii_of_string in Hr. discriminate Hr.
  - simpl. destruct (Os.is_sep c) eqn:Hc.
    + pose proof (drop_while_length Os.is_sep l).
      pose proof (drop_while_length (λ c, negb (Os.is_sep c))
                    (Os.drop_while Os.is_sep l)). lia.
    + simpl. rewrite Hc. simpl.
      pose proof (drop_while_length (λ c, negb (Os.is_sep c)) l). lia.
Qed.

Lemma MkdirAll_rec_fuel n : ∀ path fuel1 fuel2 perm w,
  (String.length path ≤ n)%nat →
  (String.length path ≤ fuel1)%nat → (String.length path ≤ fuel2)%nat →
  Os.MkdirAll_rec h fuel1 path perm w = Os.MkdirAll_rec h fuel2 path perm w.
Proof.
  induction n as [|n IH]; intros path fuel1 fuel2 perm w Hn H1 H2.
  - destruct path as [|c path]; [|simpl in Hn; lia].
    destruct fuel1, fuel2; reflexivity.
  - destruct (decide (path = "")) as [->|Hne].
    { destruct fuel1, fuel2; reflexivity. }
    pose proof (parent_prefix_shorter path Hne) as Hlt.
    destruct fuel1 as [|fuel1]; [destruct path; [congruence|simpl in H1; lia]|].
    destruct fuel2 as [|fuel2]; [destruct path; [congruence|simpl in H2; lia]|].
    simpl. rewrite (IH (Os.parent_prefix path) fuel1 fuel2 perm w) by lia.
    reflexivity.
Qed.

Lemma MkdirAll_enough_fuel path fuel perm w :
  (String.length path ≤ fuel)%nat →
  Os.MkdirAll_rec h fuel path perm w = Os.MkdirAll h path perm w.
Proof.
  intros Hf. unfold Os.MkdirAll.
  apply (MkdirAll_rec_fuel (String.length path)); lia.
Qed.

Lemma MkdirAll_frame path perm w :
  env (snd (Os.MkdirAll h path perm w)) = env w
  ∧ trace (snd (Os.MkdirAll h path perm w)) = trace w
  ∧ only_new_dirs (fs w) (fs (snd (Os.MkdirAll h path perm w))).
Proof. apply MkdirAll_rec_frame. Qed.

Lemma fileExists_regular filename w :
  fileExists filename w = (is_regular_file (fs w) filename, w).
Proof.
  unfold fileExists, is_regular_file.
  destruct (Os.Stat (fs w) filename) as [[c m|m]|]; reflexivity.
Qed.

End frame.

(** ** The Binary Locator *)

Section locator.
Context (h : Host).

Lemma UserHomeDir_world w : snd (Os.UserHomeDir h w) = w.
Proof.
  unfold Os.UserHomeDir, bind, ret, Os.Getenv. cbv beta iota zeta.
  repeat match goal with |- context [bool_decide ?P] => destruct (bool_decide P) end;
    reflexivity.
Qed.

Lemma LookPath_world file w : snd (Os.LookPath file w) = w.
Proof. unfold Os.LookPath. destruct (Strings.Contains file "/"); reflexivity. Qed.

Lemma getExtensionDataDir_spec w :
  fst (getExtensionDataDir h w) = extensionDataDir h w
  ∧ env (snd (getExtensionDataDir h w)) = env w
  ∧ trace (snd (getExtensionDataDir h w)) = trace w
  ∧ only_new_dirs (fs w) (fs (snd (getExtensionDataDir h w))).
Proof.
  assert (Hcreate : ∀ dataDir,
    let res := bind (Os.MkdirAll h dataDir 493) (λ _, ret dataDir) w in
    fst res = dataDir ∧ env (snd res) = env w ∧ trace (snd res) = trace w
    ∧ only_new_dirs (fs w) (fs (snd res))).
  { intros dataDir. unfold bind, ret.
    pose proof (MkdirAll_frame h dataDir 493 w) as Hm.
    destruct (Os.MkdirAll h dataDir 493 w) as [r w1]. simpl in *. tauto. }
  remember (getExtensionDataDir h w) as res eqn:E.
  unfold getExtensionDataDir in E. unfold bind at 1 in E. unfold Os.Getenv at 1 in E.
  cbv beta iota zeta in E. unfold extensionDataDir, getenv.
  destruct (bool_decide (default "" (env w !! "XDG_DATA_HOME") ≠ "")).
  { subst res. apply Hcreate. }
  unfold bind at 1 in E. pose proof (UserHomeDir_world w) as Hw.
  destruct (Os.UserHomeDir h w) as [r w1]. simpl in Hw. subst w1. simpl fst.
  destruct r as [homeDir|e].
  - destruct (bool_decide (GOOS h = "windows")); [subst res; apply Hcreate|].
    destruct (bool_decide (GOOS h = "darwin")); subst res; apply Hcreate.
  - subst res. simpl. auto using only_new_dirs_refl.
Qed.

(** What [Mkdir] and [MkdirAll] do depends on the file system only. *)
Lemma Mkdir_fs name perm w w' :
  fs w' = fs w →
  fst (Os.Mkdir h name perm w') = fst (Os.Mkdir h name perm w)
  ∧ fs (snd (Os.Mkdir h name perm w')) = fs (snd (Os.Mkdir h name perm w)).
Proof.
  intros Hfs. unfold Os.Mkdir. rewrite Hfs. repeat case_match; cbn; auto.
Qed.

Lemma MkdirAll_rec_fs fuel : ∀ path perm w w',
  fs w' = fs w →
  fst (Os.MkdirAll_rec h fuel path perm w') = fst (Os.MkdirAll_rec h fuel path perm w)
  ∧ fs (snd (Os.MkdirAll_rec h fuel path perm w'))
    = fs (snd (Os.MkdirAll_rec h fuel path perm w)).
Proof.
  assert (Hstep : ∀ path perm (r : Result unit) w1 w1',
    fs w1' = fs w1 →
    let step := λ w0 : World,
      match r with
      | Err e => (Err e, w0)
      | Ok _ =>
          let '(r2, w2) := Os.Mkdir h path perm w0 in
          match r2 with
          | Ok _ => (Ok tt, w2)
          | Err e =>
              match Os.Stat (fs w2) path with
              | Some (Dir _) => (Ok tt, w2)
              | _ => (Err e, w2)
              end
          end
      end in
    fst (step w1') = fst (step w1) ∧ fs (snd (step w1')) = fs (snd (step w1))).
  { intros path perm r w1 w1' Hfs. cbv zeta. destruct r as [[]|e]; [|auto].
    destruct (Mkdir_fs path perm w1 w1' Hfs) as [Hr Hf].
    destruct (Os.Mkdir h path perm w1) as [r2 w2], (Os.Mkdir h path perm w1') as [r2' w2'].
    cbn [fst snd] in Hr, Hf. subst r2'. rewrite Hf.
    destruct r2 as [[]|e]; [auto|].
    destruct (Os.Stat (fs w2) path) as [[c m|m]|]; auto. }
  induction fuel as [|fuel IH]; intros path perm w w' Hfs; cbn [Os.MkdirAll_rec];
    rewrite Hfs.
  - destruct (Os.Stat (fs w) path) as [[c m|m]|]; cbn; auto.
    apply (Hstep path perm (Ok tt) w w' Hfs).
  - destruct (Os.Stat (fs w) path) as [[c m|m]|]; cbn [fst snd]; auto.
    destruct (bool_decide (Os.parent_prefix path ≠ "")).
    + destruct (IH (Os.parent_prefix path) perm w w' Hfs) as [Hr Hf].
      destruct (Os.MkdirAll_rec h fuel (Os.parent_prefix path) perm w) as [r w1],
        (Os.MkdirAll_rec h fuel (Os.parent_prefix path) perm w') as [r' w1'].
      cbn [fst snd] in Hr, Hf. subst r'. apply (Hstep path perm r w1 w1' Hf).
    + apply (Hstep path perm (Ok tt) w w' Hfs).
Qed.

(** The world [getExtensionDataDir] leaves. *)
Lemma getExtensionDataDir_world w :
  snd (getExtensionDataDir h w)
  = if bool_decide (getenv w "XDG_DATA_HOME" ≠ "") || is_ok (fst (Os.UserHomeDir h w))
    then snd (Os.MkdirAll h (extensionDataDir h w) 493 w)
    else w.
Proof.
  assert (Hcreate : ∀ dataDir,
    snd (bind (Os.MkdirAll h dataDir 493) (λ _, ret dataDir) w)
    = snd (Os.MkdirAll h dataDir 493 w)).
  { intros dataDir. unfold bind, ret.
    destruct (Os.MkdirAll h dataDir 493 w) as [r w1]. reflexivity. }
  remember (getExtensionDataDir h w) as res eqn:E.
  unfold getExtensionDataDir in E. unfold bind at 1 in E. unfold Os.Getenv at 1 in E.
  cbv beta iota zeta in E. unfold extensionDataDir, getenv.
  destruct (bool_decide (default "" (env w !! "XDG_DATA_HOME") ≠ "")).
  { subst res. apply Hcreate. }
  unfold bind at 1 in E. pose proof (UserHomeDir_world w) as Hw.
  destruct (Os.UserHomeDir h w) as [r w1]. simpl in Hw. subst w1. simpl fst.
  destruct r as [homeDir|e]; cbn [orb is_ok].
  - destruct (bool_decide (GOOS h = "windows")); [subst res; apply Hcreate|].
    destruct (bool_decide (GOOS h = "darwin")); subst res; apply Hcreate.
  - subst res. reflexivity.
Qed.

Lemma findServerBinary_spec w :
  fst (findServerBinary h w) = first_hit (hits h w)
  ∧ env (snd (findServerBinary h w)) = env w
  ∧ trace (snd (findServerBinary h w)) = trace w
  ∧ only_new_dirs (fs w) (fs (snd (findServerBinary h w)))
  ∧ fs (snd (findServerBinary h w))
    = (if override_hit h w then fs w else fs (snd (getExtensionDataDir h w))).
Proof.
  remember (findServerBinary h w) as res eqn:E.
  cbv beta iota zeta delta [findServerBinary bind ret Os.Getenv] in E.
  unfold override_hit, hits, candidates, getenv, found_at. cbv zeta.
  cbn [map app firstn skipn].
  set (custom := default "" (env w !! "GITHUB_MCP_SERVER_PATH")) in *.
  (* rank 1 *)
  assert (E1 : (if bool_decide (custom ≠ "") then fileExists custom
                else λ w0, (false, w0)) w
               = (match (if bool_decide (custom ≠ "") then Some custom else None) with
                  | Some path => is_regular_file (fs w) path
                  | None => false
                  end, w)).
  { destruct (bool_decide (custom ≠ "")); [apply fileExists_regular | reflexivity]. }
  rewrite E1 in E. clear E1.
  destruct (if bool_decide (custom ≠ "") then Some custom else None) as [c1|] eqn:C1.
  2: cbv beta iota in E.
  1: destruct (is_regular_file (fs w) c1) eqn:R1; cbv beta iota in E.
  1: { assert (c1 = custom) as -> by (destruct (bool_decide (custom ≠ "")); congruence).
       subst res. cbn [first_hit fst snd].
       repeat split; auto using only_new_dirs_refl. }
  (* rank 2 *)
  all: cbn [first_hit].
  all: set (workspaceDir := default "" (env w !! "GITHUB_MCP_SERVER_DIR")) in *.
  all: destruct (bool_decide (workspaceDir ≠ "")).
  all: try rewrite fileExists_regular in E.
  all: try destruct (is_regular_file (fs w) (Filepath.Join [workspaceDir; "bin"; binaryName h]));
    cbv beta iota in E; cbn [first_hit];
    try (subst res; cbn [fst snd]; repeat split; auto using only_new_dirs_refl; fail).
  (* rank 3: the data directory is created first *)
  all: destruct (getExtensionDataDir_spec w) as (Hd & He1 & Ht1 & Hf1).
  all: destruct (getExtensionDataDir h w) as [dataDir w1]; cbn [fst snd] in *;
    subst dataDir.
  all: rewrite fileExists_regular in E.
  all: destruct (is_regular_file (fs w1)
                   (Filepath.Join [extensionDataDir h w; "bin"; binaryName h]));
    cbv beta iota in E; cbn [first_hit];
    try (subst res; cbn [fst snd]; repeat split; auto; fail).
  (* ranks 4 and 5 *)
  all: destruct (Executable h) as [execPath|e].
  all: try rewrite fileExists_regular in E.
  all: try destruct (is_regular_file (fs w1)
                       (Filepath.Join [Filepath.Dir execPath; "bin"; binaryName h]));
    cbv beta iota in E; cbn [first_hit];
    try (subst res; cbn [fst snd]; repeat split; auto; fail).
  all: try rewrite fileExists_regular in E.
  all: try destruct (is_regular_file (fs w1)
                       (Filepath.Join [Filepath.Dir execPath; binaryName h]));
    cbv beta iota in E; cbn [first_hit];
    try (subst res; cbn [fst snd]; repeat split; auto; fail).
  (* rank 6 *)
  all: pose proof (LookPath_world "github-mcp-server" w1) as HLw.
  all: destruct (Os.LookPath "github-mcp-server" w1) as [r w2]; cbn [fst snd] in HLw;
    subst w2.
  all: destruct r as [path|e']; subst res; cbn [fst snd]; repeat split; auto.
Qed.

End locator.

Lemma first_hit_at (l : list (option string)) : ∀ k path,
  l !! k = Some (Some path) →
  (∀ j, (j < k)%nat → l !! j = Some None) →
  first_hit l = path.
Proof.
  induction l as [|o l IH]; intros k path Hk Hbefore; [destruct k; discriminate|].
  destruct k as [|k].
  - simpl in Hk. injection Hk as ->. reflexivity.
  - assert (o = None) as ->.
    { specialize (Hbefore 0%nat ltac:(lia)). simpl in Hbefore. congruence. }
    simpl. apply (IH k); [exact Hk|].
    intros j Hj. apply (Hbefore (S j)). lia.
Qed.

Lemma first_hit_none (l : list (option string)) :
  (∀ k, (k < length l)%nat → l !! k = Some None) → first_hit l = "".
Proof.
  induction l as [|o l IH]; intros Hall; [reflexivity|].
  assert (o = None) as ->.
  { specialize (Hall 0%nat ltac:(simpl; lia)). simpl in Hall. congruence. }
  simpl. apply IH. intros k Hk. apply (Hall (S k)). simpl. lia.
Qed.

Lemma first_hit_empty (l : list (option string)) :
  Forall (λ o, o ≠ Some "") l → first_hit l = "" →
  ∀ k, (k < length l)%nat → l !! k = Some None.
Proof.
  induction 1 as [|o l Ho _ IH]; intros Hf k Hk; [simpl in Hk; lia|].
  destruct o as [path|]; simpl in Hf; [congruence|].
  destruct k as [|k]; [reflexivity|]. simpl. apply IH; [exact Hf|]. simpl in Hk. lia.
Qed.

Lemma is_regular_file_nonempty f path : is_regular_file f path = true → path ≠ "".
Proof. intros Hr ->. discriminate Hr. Qed.

Lemma look_in_nonempty f dirs file path :
  Os.look_in f dirs file = Ok path → path ≠ "".
Proof.
  induction dirs as [|d dirs IH]; simpl; [discriminate|].
  destruct (Os.findExecutable f _) eqn:Hx; [|exact IH].
  destruct (Filepath.IsAbs _); [|discriminate].
  intros [= <-] Hp. rewrite Hp in Hx. discriminate Hx.
Qed.

Lemma found_at_regular f c path :
  found_at f c = Some path → is_regular_file f path = true.
Proof.
  destruct c as [p|]; [|discriminate]. cbn [found_at].
  destruct (is_regular_file f p) eqn:Hr; [|discriminate]. intros [= <-]. exact Hr.
Qed.

Lemma found_at_nonempty f l : Forall (λ o, o ≠ Some "") (map (found_at f) l).
Proof.
  apply Forall_fmap, Forall_forall. intros c _ Hc. cbn in Hc.
  apply found_at_regular in Hc. discriminate Hc.
Qed.

Lemma hits_nonempty h w : Forall (λ o, o ≠ Some "") (hits h w).
Proof.
  unfold hits. cbv zeta. rewrite !Forall_app.
  split; [apply found_at_nonempty|]. split; [apply found_at_nonempty|].
  apply Forall_singleton. unfold Os.LookPath.
  change (Strings.Contains "github-mcp-server" "/") with false.
  cbn [fst]. destruct (Os.look_in _ _ _) as [path|e] eqn:Hl; [|discriminate].
  intros [= ->]. exact (look_in_nonempty _ _ _ _ Hl eq_refl).
Qed.

(** C4 (as the code has it).  The Binary Locator changes no environment
    variable, writes no output, and creates, changes and removes no file;
    the only effect it can have is to create directories: when one of the
    two override ranks has a hit the file system is left as it was, and
    otherwise it is left as getExtensionDataDir leaves it, with the
    extension data directory and its missing parents created. *)
Theorem findServerBinary_frame (h : Host) (w : World) :
  env (snd (findServerBinary h w)) = env w
  ∧ trace (snd (findServerBinary h w)) = trace w
  ∧ only_new_dirs (fs w) (fs (snd (findServerBinary h w)))
  ∧ fs (snd (findServerBinary h w))
    = (if override_hit h w then fs w else fs (snd (getExtensionDataDir h w))).
Proof. destruct (findServerBinary_spec h w) as (_ & He & Ht & Hf & Hfs). auto. Qed.

(** C4 as stated fails: with only XDG_DATA_HOME=/data set and an empty
    disk, locating creates /data and /data/gh-github-mcp-server. *)
Lemma findServerBinary_creates_directories :
  fs xdg_world !! "/data/gh-github-mcp-server" = None
  ∧ fs (snd (findServerBinary linux_host xdg_world)) !! "/data/gh-github-mcp-server"
    = Some (Dir 493)
  ∧ fs (snd (findServerBinary linux_host xdg_world)) ≠ fs xdg_world.
Proof.
  assert (Hafter : fs (snd (findServerBinary linux_host xdg_world))
                     !! "/data/gh-github-mcp-server" = Some (Dir 493))
    by (vm_compute; reflexivity).
  assert (Hbefore : fs xdg_world !! "/data/gh-github-mcp-server" = None)
    by (vm_compute; reflexivity).
  split; [exact Hbefore|]. split; [exact Hafter|].
  intros Heq. rewrite Heq, Hbefore in Hafter. discriminate Hafter.
Qed.

(** An override that does not resolve is no hit, although its cleaned
    form names a regular file: the locator goes on and creates the data
    directory. *)
Example findServerBinary_detour :
  Filepath.Clean (getenv detour_world "GITHUB_MCP_SERVER_PATH") = "/custom/helper"
  ∧ override_hit linux_host detour_world = false
  ∧ fst (findServerBinary linux_host detour_world) = ""
  ∧ fs (snd (findServerBinary linux_host detour_world)) !! "/data/gh-github-mcp-server"
    = Some (Dir 493).
Proof. repeat split; vm_compute; reflexivity. Qed.

(** ** The explicit override *)

Section override.
Context (h : Host).

(** Rank 1 reads the override variable; ranks 2 to 6 read these. *)
Lemma hits_tail_env w w' :
  fs w' = fs w →
  (∀ key, In key ["GITHUB_MCP_SERVER_DIR"; "XDG_DATA_HOME"; "USERPROFILE";
                  "home"; "HOME"; "PATH"] →
          env w' !! key = env w !! key) →
  tail (hits h w') = tail (hits h w).
Proof.
  intros Hfs Henv.
  assert (Hget : ∀ key, In key ["GITHUB_MCP_SERVER_DIR"; "XDG_DATA_HOME";
                                "USERPROFILE"; "home"; "HOME"; "PATH"] →
                        getenv w' key = getenv w key).
  { intros key Hk. unfold getenv. rewrite (Henv key Hk). reflexivity. }
  assert (Hhome : fst (Os.UserHomeDir h w') = fst (Os.UserHomeDir h w)).
  { unfold Os.UserHomeDir, bind, ret, Os.Getenv. cbv beta iota zeta.
    destruct (bool_decide (GOOS h = "windows"));
      [rewrite (Henv "USERPROFILE") by (simpl; tauto)
      |destruct (bool_decide (GOOS h = "plan9"));
       [rewrite (Henv "home") by (simpl; tauto)
       |rewrite (Henv "HOME") by (simpl; tauto)]];
      repeat match goal with
             | |- context [bool_decide ?P] => destruct (bool_decide P)
             end; reflexivity. }
  assert (Hdata : extensionDataDir h w' = extensionDataDir h w).
  { unfold extensionDataDir. rewrite Hhome, (Hget "XDG_DATA_HOME") by (simpl; tauto).
    reflexivity. }
  assert (Hfs1 : fs (snd (getExtensionDataDir h w')) = fs (snd (getExtensionDataDir h w))).
  { rewrite !getExtensionDataDir_world, Hdata, Hhome, (Hget "XDG_DATA_HOME")
      by (simpl; tauto).
    destruct (_ || _); [|exact Hfs].
    apply (MkdirAll_rec_fs h _ _ _ w w' Hfs). }
  assert (Hlook : fst (Os.LookPath "github-mcp-server" (snd (getExtensionDataDir h w')))
                  = fst (Os.LookPath "github-mcp-server" (snd (getExtensionDataDir h w)))).
  { unfold Os.LookPath. change (Strings.Contains "github-mcp-server" "/") with false.
    cbn [fst]. rewrite Hfs1.
    rewrite (proj1 (proj2 (getExtensionDataDir_spec h w'))).
    rewrite (proj1 (proj2 (getExtensionDataDir_spec h w))).
    rewrite (Henv "PATH") by (simpl; tauto). reflexivity. }
  unfold hits, candidates. cbv zeta. cbn [map app tail firstn skipn].
  rewrite Hlook, Hdata, Hfs, Hfs1, (Hget "GITHUB_MCP_SERVER_DIR") by (simpl; tauto).
  reflexivity.
Qed.

Lemma hits_head w :
  hits h w
  = (if bool_decide (getenv w "GITHUB_MCP_SERVER_PATH" ≠ "")
        && is_regular_file (fs w) (getenv w "GITHUB_MCP_SERVER_PATH")
     then Some (getenv w "GITHUB_MCP_SERVER_PATH") else None)
    :: tail (hits h w).
Proof.
  unfold hits, candidates. cbv zeta. cbn [map app tail firstn skipn found_at]. f_equal.
  destruct (bool_decide (getenv w "GITHUB_MCP_SERVER_PATH" ≠ "")); [|reflexivity].
  cbn [andb found_at]. reflexivity.
Qed.

(** The locator depends on the environment through seven variables only. *)
Lemma hits_env w w' :
  fs w' = fs w →
  (∀ key, In key ["GITHUB_MCP_SERVER_PATH"; "GITHUB_MCP_SERVER_DIR"; "XDG_DATA_HOME";
                  "USERPROFILE"; "home"; "HOME"; "PATH"] →
          env w' !! key = env w !! key) →
  hits h w' = hits h w.
Proof.
  intros Hfs Henv. rewrite (hits_head w), (hits_head w').
  rewrite (hits_tail_env w w' Hfs) by (intros key Hk; apply Henv; simpl in *; tauto).
  unfold getenv. rewrite Hfs, (Henv "GITHUB_MCP_SERVER_PATH") by (simpl; tauto).
  reflexivity.
Qed.

(** What the search path resolves is a regular file. *)
Lemma LookPath_regular w path :
  fst (Os.LookPath "github-mcp-server" w) = Ok path → is_regular_file (fs w) path = true.
Proof.
  unfold Os.LookPath.
  change (Strings.Contains "github-mcp-server" "/") with false. cbn [fst].
  generalize (Filepath.SplitList (default "" (env w !! "PATH"))). intros dirs.
  induction dirs as [|d dirs IH]; simpl; [discriminate|].
  destruct (Os.findExecutable (fs w) _) eqn:Hx; [|exact IH].
  destruct (Filepath.IsAbs _); [|discriminate].
  intros [= <-]. unfold Os.findExecutable in Hx. unfold is_regular_file.
  destruct (Os.Stat (fs w) _) as [[c m|m]|]; [reflexivity|discriminate..].
Qed.

(** Every hit names a regular file, at the latest once the extension data
    directory has been created. *)
Lemma hits_regular w path :
  In (Some path) (hits h w) →
  is_regular_file (fs (snd (getExtensionDataDir h w))) path = true.
Proof.
  unfold hits. cbv zeta. rewrite !in_app_iff, !in_map_iff.
  destruct (getExtensionDataDir_spec h w) as (_ & _ & _ & Hf).
  intros [(c & Hc & _)|[(c & Hc & _)|[Hl|[]]]].
  - apply (is_regular_file_more _ _ _ Hf). exact (found_at_regular _ _ _ Hc).
  - exact (found_at_regular _ _ _ Hc).
  - apply LookPath_regular.
    destruct (fst (Os.LookPath "github-mcp-server" _)) as [p|e]; congruence.
Qed.

Lemma first_hit_in (l : list (option string)) :
  first_hit l = "" ∨ In (Some (first_hit l)) l.
Proof.
  induction l as [|[path|] l IH]; simpl; [left; reflexivity|right; left; reflexivity|].
  destruct IH as [IH|IH]; [left|right; right]; exact IH.
Qed.

End override.

(** ** The extractors *)

Section extract.
Context (h : Host).

Lemma extractFromTar_not_found tr targetPath w :
  tar_complete tr = true →
  (∀ name flag, In (name, flag) (tar_entries tr) →
     ¬ (Strings.Contains name "github-mcp-server" = true ∧ flag = TypeReg)) →
  extractFromTar h tr targetPath w = (Err "binary not found in tar.gz", w).
Proof.
  induction tr as [|msg|name flag data rest IH]; simpl; intros Hc Hno.
  - reflexivity.
  - discriminate Hc.
  - destruct (Strings.Contains name "github-mcp-server") eqn:Hn;
      [destruct flag; [exfalso; apply (Hno name TypeReg); auto|..]|];
      simpl; apply IH; auto.
Qed.

Lemma Create_ok path w :
  is_ok (fst (Os.Create h path w)) = true →
  Os.resolve (fs w) path = Ok (Filepath.Clean path)
  ∧ (∀ m, fs w !! Filepath.Clean path ≠ Some (Dir m))
  ∧ ∃ m, Os.Create h path w
         = (Ok (Filepath.Clean path),
            Os.with_fs w (<[Filepath.Clean path := File [] m]> (fs w)))
         ∧ (∀ content perm,
              fs w !! Filepath.Clean path = Some (File content perm) → m = perm).
Proof.
  unfold Os.Create. destruct (Os.resolve (fs w) path) as [k|e] eqn:Hr; [|discriminate].
  destruct (resolve_Clean _ _ _ Hr) as [-> _].
  destruct (fs w !! Filepath.Clean path) as [[c m|m]|]; try discriminate.
  - intros _. split; [reflexivity|]. split; [discriminate|].
    exists m. split; [reflexivity|]. congruence.
  - intros _. split; [reflexivity|]. split; [discriminate|].
    eexists. split; [reflexivity|]. discriminate.
Qed.

Lemma stat_file f name c m :
  Os.stat f name = Some (File c m) → f !! Filepath.Clean name = Some (File c m).
Proof.
  unfold Os.stat. repeat case_match; congruence.
Qed.

(** A rename that succeeds moves a regular file to a name that
    resolves. *)
Lemma Rename_ok oldpath newpath w :
  is_ok (fst (Os.Rename oldpath newpath w)) = true →
  ∃ c m,
    fs w !! Filepath.Clean oldpath = Some (File c m)
    ∧ Os.resolve (fs w) newpath = Ok (Filepath.Clean newpath)
    ∧ (∀ m', fs w !! Filepath.Clean newpath ≠ Some (Dir m'))
    ∧ Os.Rename oldpath newpath w
      = (Ok tt, Os.with_fs w (<[Filepath.Clean newpath := File c m]>
                                (delete (Filepath.Clean oldpath) (fs w)))).
Proof.
  unfold Os.Rename.
  destruct (Os.resolve (fs w) oldpath) as [ko|e] eqn:Ho; [|discriminate].
  destruct (resolve_Clean _ _ _ Ho) as [-> _]. clear Ho.
  destruct (fs w !! Filepath.Clean oldpath) as [[c m|m]|]; try discriminate.
  destruct (Os.resolve (fs w) newpath) as [kn|e] eqn:Hn; [|discriminate].
  destruct (resolve_Clean _ _ _ Hn) as [-> _].
  destruct (fs w !! Filepath.Clean newpath) as [[c' m'|m']|] eqn:Hk; try discriminate.
  all: intros _; exists c, m; repeat split; try reflexivity; discriminate.
Qed.

(** A file written at a name that resolves can have its mode set. *)
Lemma chmod_after_write targetPath content mode w :
  Os.resolve (fs w) targetPath = Ok (Filepath.Clean targetPath) →
  (∀ m, fs w !! Filepath.Clean targetPath ≠ Some (Dir m)) →
  Os.Chmod targetPath 493
    (Os.with_fs w (<[Filepath.Clean targetPath := File content mode]> (fs w)))
  = (Ok tt, Os.with_fs w (<[Filepath.Clean targetPath := File content 493]> (fs w))).
Proof.
  intros Hr Hfree. unfold Os.Chmod. unfold Os.with_fs at 1 2. cbn [fs].
  rewrite (resolve_dirs_kept _ _ _ _ (dirs_kept_insert _ _ _ Hfree) Hr).
  rewrite lookup_insert_eq. unfold Os.with_fs. cbn [fs env trace].
  rewrite alter_insert_eq. reflexivity.
Qed.

End extract.

(** C7.  When the downloaded tar.gz archive, read to its end, has no
    regular-file entry whose name contains the helper's base name, the
    Extractor returns the error "binary not found in tar.gz" and leaves the
    world as it was: nothing is created or written at the target path (or
    anywhere else); the install step reports the error as a failed
    extraction, again without touching the disk. *)
Theorem extractFromTarGz_not_found (h : Host) (w : World)
    (tarPath targetPath : string) (bytes : list byte) (tr : TarStream) :
  Os.read_file (fs w) tarPath = Ok bytes →
  targz_read h bytes = Ok tr →
  tar_complete tr = true →
  (∀ name flag, In (name, flag) (tar_entries tr) →
     ¬ (Strings.Contains name "github-mcp-server" = true ∧ flag = TypeReg)) →
  extractFromTarGz h tarPath targetPath w = (Err "binary not found in tar.gz", w)
  ∧ (∀ assetURL,
       Strings.HasSuffix assetURL ".zip" = false →
       Strings.HasSuffix assetURL ".tar.gz" = true →
       installFrom h assetURL tarPath targetPath w
       = (Err "failed to extract binary: binary not found in tar.gz", w)).
Proof.
  intros Hread Hdec Hcomplete Hno.
  assert (Hx : extractFromTarGz h tarPath targetPath w
               = (Err "binary not found in tar.gz", w)).
  { unfold extractFromTarGz, bind, get_fs. rewrite Hread, Hdec.
    exact (extractFromTar_not_found h tr targetPath w Hcomplete Hno). }
  split; [exact Hx|].
  intros assetURL Hzip Htgz. unfold installFrom, bind. rewrite Hzip, Htgz, Hx.
  reflexivity.
Qed.

Lemma extractFromTarGz_not_found_witness :
  extractFromTarGz archive_host "/tmp/github-mcp-server-1234567"
    "/data/bin/github-mcp-server" download_world
  = (Err "binary not found in tar.gz", download_world)
  ∧ installFrom archive_host "https://example.invalid/server_Linux_x86_64.tar.gz"
      "/tmp/github-mcp-server-1234567" "/data/bin/github-mcp-server" download_world
    = (Err "failed to extract binary: binary not found in tar.gz", download_world).
Proof.
  destruct (extractFromTarGz_not_found archive_host download_world
              "/tmp/github-mcp-server-1234567" "/data/bin/github-mcp-server"
              archive_bytes sample_tar) as [Hx Hi].
  - vm_compute. reflexivity.
  - reflexivity.
  - reflexivity.
  - intros name flag [Hin|[Hin|[]]]; injection Hin as <- <-; intros [Hc Hf];
      discriminate.
  - split; [exact Hx|]. apply Hi; reflexivity.
Defined.

(** C9.  Round trip through the zip extractor.  When the downloaded file
    decodes as a zip archive whose first entry with the helper's base name
    in its name and no trailing slash opens and reads without error, and
    the target path can be created (it is not the archive itself), then
    extractFromZip succeeds and leaves at the target path a regular file
    whose bytes are exactly that entry's content; the install step of
    downloadServerBinary then returns the target path with the file's mode
    set to 0755 and the same bytes, every other path being as before. *)
Theorem extractFromZip_round_trip (h : Host) (w : World)
    (assetURL zipPath targetPath : string) (bytes : list byte)
    (pre post : list ZipFile) (binaryFile : ZipFile) (src : Stream) :
  Strings.HasSuffix assetURL ".zip" = true →
  Os.read_file (fs w) zipPath = Ok bytes →
  zip_read h bytes = Ok (pre ++ binaryFile :: post) →
  Forall (λ file, binary_entry file = false) pre →
  binary_entry binaryFile = true →
  zipOpen binaryFile = Ok src →
  streamErr src = None →
  Filepath.Clean zipPath ≠ Filepath.Clean targetPath →
  is_ok (fst (Os.Create h targetPath w)) = true →
  (∃ mode,
     extractFromZip h zipPath targetPath w
     = (Ok tt,
        Os.with_fs w (<[Filepath.Clean targetPath := File (streamBytes src) mode]> (fs w))))
  ∧ (∃ w',
       installFrom h assetURL zipPath targetPath w = (Ok targetPath, w')
       ∧ fs w' !! Filepath.Clean targetPath = Some (File (streamBytes src) 493)
       ∧ (∀ k, k ≠ Filepath.Clean targetPath → fs w' !! k = fs w !! k)
       ∧ env w' = env w ∧ trace w' = trace w).
Proof.
  intros Hzip Hread Hdec Hpre Hentry Hopen Hnoerr _ Hcreate.
  destruct (Create_ok h targetPath w Hcreate) as (Hr & Hfree & m & HC & _).
  assert (Hx : extractFromZip h zipPath targetPath w
               = (Ok tt,
                  Os.with_fs w (<[Filepath.Clean targetPath := File (streamBytes src) m]>
                                  (fs w)))).
  { unfold extractFromZip, bind, get_fs, ret. rewrite Hread, Hdec.
    rewrite (find_after_misses binary_entry pre post binaryFile Hpre Hentry).
    rewrite Hopen, HC. unfold Os.Copy. rewrite Hnoerr. unfold Os.with_fs. simpl.
    rewrite alter_insert_eq. reflexivity. }
  split; [exists m; exact Hx|].
  eexists. unfold installFrom, bind, ret. rewrite Hzip, Hx.
  rewrite (chmod_after_write targetPath _ m w Hr Hfree).
  split; [reflexivity|]. unfold Os.with_fs. cbn [fs env trace].
  split; [apply lookup_insert_eq|]. split; [|split; reflexivity].
  intros k Hk. apply lookup_insert_ne. congruence.
Qed.

Lemma extractFromZip_round_trip_witness :
  ∃ w',
    installFrom archive_host "https://example.invalid/server_Linux_x86_64.zip"
      "/tmp/github-mcp-server-1234567" "/data/bin/github-mcp-server" download_world
    = (Ok "/data/bin/github-mcp-server", w')
    ∧ fs w' !! "/data/bin/github-mcp-server" = Some (File helper_bytes 493).
Proof.
  destruct (extractFromZip_round_trip archive_host download_world
              "https://example.invalid/server_Linux_x86_64.zip"
              "/tmp/github-mcp-server-1234567" "/data/bin/github-mcp-server"
              archive_bytes
              [mkZipFile "github-mcp-server/" (Ok (mkStream [] None))] []
              (mkZipFile "github-mcp-server/bin/github-mcp-server"
                         (Ok (mkStream helper_bytes None)))
              (mkStream helper_bytes None))
    as [_ (w' & Hi & Hf & _)].
  - reflexivity.
  - vm_compute. reflexivity.
  - reflexivity.
  - constructor; [reflexivity | constructor].
  - reflexivity.
  - reflexivity.
  - reflexivity.
  - vm_compute. discriminate.
  - vm_compute. reflexivity.
  - exists w'. split; [exact Hi | exact Hf].
Defined.

(** ** What the functions add to the trace *)

Section traces.
Context (h : Host).

Lemma quiet_adds_only {A} P (m : M A) : quiet m → adds_only P m.
Proof. intros Hq w. exists []. rewrite Hq. split; reflexivity. Qed.

Lemma adds_only_ret {A} P (a : A) : adds_only P (ret a).
Proof. intros w. exists []. split; reflexivity. Qed.

Lemma adds_only_bind {A B} P (m : M A) (k : A → M B) :
  adds_only P m → (∀ a, adds_only P (k a)) → adds_only P (bind m k).
Proof.
  intros Hm Hk w. unfold bind. destruct (Hm w) as (n1 & E1 & F1).
  destruct (m w) as [a w1]. destruct (Hk a w1) as (n2 & E2 & F2).
  exists (n2 ++ n1). simpl in E1. rewrite E2, E1, app_assoc, forallb_app, F1, F2.
  split; reflexivity.
Qed.

Lemma adds_only_emit P e : P e = true → adds_only P (emit e).
Proof. intros He w. exists [e]. simpl. rewrite He. split; reflexivity. Qed.

Lemma adds_only_weaken {A} (P Q : Event → bool) (m : M A) :
  (∀ e, P e = true → Q e = true) → adds_only P m → adds_only Q m.
Proof.
  intros HPQ Hm w. destruct (Hm w) as (new & E & F). exists new. split; [exact E|].
  rewrite forallb_forall in *. auto.
Qed.

Lemma gh_calls_app t1 t2 : gh_calls (t1 ++ t2) = (gh_calls t1 + gh_calls t2)%nat.
Proof. unfold gh_calls. rewrite List.filter_app, length_app. reflexivity. Qed.

Lemma gh_calls_no_exec new : forallb no_exec new = true → gh_calls new = 0%nat.
Proof.
  unfold gh_calls. induction new as [|e new IH]; simpl; [reflexivity|].
  intros [He Hn]%andb_true_iff. destruct e; simpl in *; try discriminate; auto.
Qed.

Lemma adds_only_gh_adds {A} (m : M A) : adds_only no_exec m → gh_adds 0 m.
Proof.
  intros Hm w. destruct (Hm w) as (new & -> & F).
  rewrite gh_calls_app, (gh_calls_no_exec new F). lia.
Qed.

Lemma gh_adds_bind {A B} n k (m : M A) (f : A → M B) :
  gh_adds n m → (∀ a, gh_adds k (f a)) → gh_adds (n + k) (bind m f).
Proof.
  intros Hm Hf w. unfold bind. specialize (Hm w). destruct (m w) as [a w1].
  rewrite (Hf a w1). simpl in Hm. rewrite Hm. lia.
Qed.

Lemma is_print_no_exec e : is_print e = true → no_exec e = true.
Proof. unfold no_exec. destruct e; simpl; congruence. Qed.

Lemma quiet_ret {A} (a : A) : quiet (ret a).
Proof. intros w. reflexivity. Qed.

Lemma quiet_bind {A B} (m : M A) (k : A → M B) :
  quiet m → (∀ a, quiet (k a)) → quiet (bind m k).
Proof.
  intros Hm Hk w. unfold bind. specialize (Hm w). destruct (m w) as [a w1].
  rewrite (Hk a w1). exact Hm.
Qed.

Lemma quiet_get_fs : quiet get_fs.
Proof. intros w. reflexivity. Qed.

Lemma quiet_Getenv key : quiet (Os.Getenv key).
Proof. intros w. reflexivity. Qed.

Lemma quiet_Setenv key value : quiet (Os.Setenv key value).
Proof. intros w. unfold Os.Setenv. case_match; reflexivity. Qed.

Lemma quiet_MkdirAll path perm : quiet (Os.MkdirAll h path perm).
Proof. intros w. apply (MkdirAll_frame h path perm w). Qed.

Lemma quiet_Create name : quiet (Os.Create h name).
Proof. intros w. unfold Os.Create. repeat case_match; reflexivity. Qed.

Lemma quiet_Copy dst src : quiet (Os.Copy dst src).
Proof. intros w. reflexivity. Qed.

Lemma quiet_CreateTemp dir pre suf : quiet (Os.CreateTemp h dir pre suf).
Proof.
  unfold Os.CreateTemp. apply quiet_bind.
  - case_match; [|apply quiet_ret]. unfold Os.TempDir.
    apply quiet_bind; [apply quiet_Getenv | intros a; apply quiet_ret].
  - intros d w. repeat case_match; reflexivity.
Qed.

Lemma quiet_Rename oldpath newpath : quiet (Os.Rename oldpath newpath).
Proof. intros w. unfold Os.Rename. repeat case_match; reflexivity. Qed.

Lemma quiet_Remove name : quiet (Os.Remove name).
Proof. intros w. unfold Os.Remove. repeat case_match; reflexivity. Qed.

Lemma quiet_Chmod name mode : quiet (Os.Chmod name mode).
Proof. intros w. unfold Os.Chmod. repeat case_match; reflexivity. Qed.

Lemma quiet_getExtensionDataDir : quiet (getExtensionDataDir h).
Proof. intros w. apply (getExtensionDataDir_spec h w). Qed.

Lemma quiet_findServerBinary : quiet (findServerBinary h).
Proof. intros w. apply (findServerBinary_spec h w). Qed.

End traces.

Create HintDb quiet.
#[export] Hint Resolve quiet_ret quiet_get_fs quiet_Getenv quiet_Setenv quiet_MkdirAll
  quiet_Create quiet_Copy quiet_CreateTemp quiet_Rename quiet_Remove quiet_Chmod
  quiet_getExtensionDataDir quiet_findServerBinary : quiet.

Ltac quiet_tac :=
  repeat first
    [ solve [auto with quiet]
    | apply quiet_bind; [|intros ?]
    | match goal with
      | |- quiet (match ?r with _ => _ end) => destruct r
      end ].

Ltac adds_tac :=
  unfold Eprint, Print;
  repeat first
    [ apply adds_only_ret
    | apply adds_only_emit; reflexivity
    | apply quiet_adds_only; solve [auto with quiet]
    | apply adds_only_bind; [|intros ?]
    | match goal with
      | |- adds_only _ (match ?r with _ => _ end) => destruct r
      end ].

Section composite_traces.
Context (h : Host).

Lemma quiet_extractFromZip zipPath targetPath :
  quiet (extractFromZip h zipPath targetPath).
Proof. unfold extractFromZip. quiet_tac. Qed.

Lemma quiet_extractFromTar tr targetPath : quiet (extractFromTar h tr targetPath).
Proof. induction tr; simpl; quiet_tac. Qed.

Lemma quiet_extractFromTarGz tarPath targetPath :
  quiet (extractFromTarGz h tarPath targetPath).
Proof. unfold extractFromTarGz. pose proof quiet_extractFromTar. quiet_tac. Qed.

Lemma quiet_installFrom assetURL tmpName targetPath :
  quiet (installFrom h assetURL tmpName targetPath).
Proof.
  unfold installFrom.
  pose proof quiet_extractFromZip. pose proof quiet_extractFromTarGz. quiet_tac.
Qed.

Lemma adds_print_assets assets : adds_only is_print (print_assets assets).
Proof. induction assets as [|a assets IH]; simpl; adds_tac. exact IH. Qed.

Lemma adds_Println_all lines : adds_only is_print (Println_all lines).
Proof. induction lines as [|l lines IH]; simpl; adds_tac. exact IH. Qed.

Lemma adds_chooseAsset assets : adds_only is_print (chooseAsset h assets).
Proof. unfold chooseAsset. adds_tac. Qed.

Lemma adds_Do req : adds_only no_exec (Os.Do h req).
Proof. intros w. exists [EvHTTP req]. split; reflexivity. Qed.

(** [getGitHubToken] runs [gh auth token] once and does nothing else. *)
Lemma getGitHubToken_world w :
  snd (getGitHubToken h w)
  = mkWorld (env w) (fs w) (EvExec "gh" ["gh"; "auth"; "token"] (env w) :: trace w).
Proof.
  unfold getGitHubToken, bind, Os.Run, ret. cbv beta iota zeta.
  repeat case_match; reflexivity.
Qed.

Lemma gh_adds_getGitHubToken : gh_adds 1 (getGitHubToken h).
Proof. intros w. rewrite getGitHubToken_world. unfold gh_calls. simpl. lia. Qed.

Lemma gh_adds_getLatestReleaseAssetURL : gh_adds 1 (getLatestReleaseAssetURL h).
Proof.
  unfold getLatestReleaseAssetURL. apply (gh_adds_bind 1 0).
  - apply gh_adds_getGitHubToken.
  - intros r. apply adds_only_gh_adds.
    pose proof (λ a, adds_only_weaken _ _ _ is_print_no_exec (adds_print_assets a)).
    pose proof (λ a, adds_only_weaken _ _ _ is_print_no_exec (adds_chooseAsset a)).
    pose proof adds_Do.
    adds_tac; auto.
Qed.

Lemma gh_adds_downloadServerBinary : gh_adds 1 (downloadServerBinary h).
Proof.
  unfold downloadServerBinary. apply (gh_adds_bind 1 0).
  - apply gh_adds_getLatestReleaseAssetURL.
  - intros r. apply adds_only_gh_adds.
    pose proof adds_Do. pose proof quiet_installFrom.
    adds_tac; auto.
Qed.

End composite_traces.

(** ** The Release Resolver *)

Section resolver.
Context (h : Host).

(** With the listing served and decoded, the resolver returns what the
    selection returns, and the selection's messages are its last ones. *)
Lemma getLatestReleaseAssetURL_listing w resp release :
  (∀ req, reqURL req = releaseAPIURL → http_do h req = Ok resp) →
  StatusCode resp = 200 →
  decode_release h (Body resp) = Ok release →
  ∃ w', getLatestReleaseAssetURL h w = chooseAsset h (Assets release) w'.
Proof.
  intros Hhttp Hstatus Hdec. unfold getLatestReleaseAssetURL.
  unfold bind at 1. destruct (getGitHubToken h w) as [r w1].
  unfold bind at 1. unfold Eprint at 1, emit at 1.
  unfold bind at 1. unfold Os.Do at 1. rewrite Hhttp by reflexivity.
  rewrite Hstatus, bool_decide_eq_false_2 by (intros Hne; apply Hne; reflexivity).
  rewrite Hdec. unfold bind at 1. unfold Eprint at 1, emit at 1.
  unfold bind at 1. destruct (print_assets (Assets release) _) as [[] w2].
  exists w2. reflexivity.
Qed.

End resolver.

(** C3 (as the code has it).  On darwin/arm64 a listing whose only asset
    is server-macos.zip matches no rule, because the macOS-alternative
    rule also asks for the architecture identifier, x86_64 or amd64 in the
    name: the resolver returns the no-suitable-binary error.  A sole asset
    named server-macos-arm64.zip is selected by the macOS-alternative rule
    and its download URL is returned. *)
Theorem macos_alternative_needs_architecture (h : Host) (w : World)
    (resp : Response) (release : Release) (url : string) :
  GOOS h = "darwin" →
  GOARCH h = "arm64" →
  (∀ req, reqURL req = releaseAPIURL → http_do h req = Ok resp) →
  StatusCode resp = 200 →
  decode_release h (Body resp) = Ok release →
  (Assets release = [mkAsset "server-macos.zip" url] →
   fst (getLatestReleaseAssetURL h w) = Err "no suitable binary found for darwin/arm64")
  ∧ (Assets release = [mkAsset "server-macos-arm64.zip" url] →
     fst (getLatestReleaseAssetURL h w) = Ok url
     ∧ head (trace (snd (getLatestReleaseAssetURL h w)))
       = Some (EvStderr (found_message RuleMacAlt (mkAsset "server-macos-arm64.zip" url)))).
Proof.
  intros Hos Harch Hhttp Hstatus Hdec.
  destruct (getLatestReleaseAssetURL_listing h w resp release Hhttp Hstatus Hdec)
    as [w' ->].
  split; intros ->.
  - unfold chooseAsset, first_variant_asset, first_asset, matchOsArch, matchMacAlt,
      matchX8664, matchOsOnly, macVariants, noSuitable, bind, ret, Eprint, emit.
    rewrite Hos, Harch. reflexivity.
  - pose proof (chooseAsset_pick h [mkAsset "server-macos-arm64.zip" url] w') as Hpick.
    assert (Hp : pickAsset h [mkAsset "server-macos-arm64.zip" url]
                 = Some (RuleMacAlt, mkAsset "server-macos-arm64.zip" url)).
    { unfold pickAsset, first_asset, matchOsArch, matchX8664, matchOsOnly,
        first_variant_asset, first_asset, matchMacAlt, macVariants.
      rewrite Hos, Harch. reflexivity. }
    rewrite Hp in Hpick. exact Hpick.
Qed.

Lemma macos_alternative_needs_architecture_witness :
  fst (getLatestReleaseAssetURL (mac_host [macos_arm64_zip]) empty_world)
  = Ok "https://example.invalid/server-macos-arm64.zip".
Proof.
  exact (proj1 (proj2 (macos_alternative_needs_architecture
                         (mac_host [macos_arm64_zip]) empty_world
                         (mkResponse 200 (mkStream [] None))
                         (mkRelease [macos_arm64_zip] "v1.0.0")
                         "https://example.invalid/server-macos-arm64.zip"
                         eq_refl eq_refl (λ _ _, eq_refl) eq_refl eq_refl)
                      eq_refl)).
Defined.

(** C3 as stated fails: on darwin/arm64, with server-macos.zip the only
    asset of the listing, the resolver returns an error, not the asset's
    download URL. *)
Lemma macos_zip_not_selected :
  Assets (mkRelease [macos_zip] "v1.0.0") = [macos_zip]
  ∧ fst (getLatestReleaseAssetURL (mac_host [macos_zip]) empty_world)
    = Err "no suitable binary found for darwin/arm64"
  ∧ fst (getLatestReleaseAssetURL (mac_host [macos_zip]) empty_world)
    ≠ Ok (BrowserDownloadURL macos_zip).
Proof.
  assert (He : fst (getLatestReleaseAssetURL (mac_host [macos_zip]) empty_world)
               = Err "no suitable binary found for darwin/arm64")
    by (vm_compute; reflexivity).
  split; [reflexivity|]. split; [exact He|]. rewrite He. discriminate.
Qed.

(** ** The Session Launcher *)

Section launcher.
Context (h : Host).

Lemma not_version_flag :
  Args h !! 1%nat = Some "stdio" →
  bool_decide (Args h !! 1%nat = Some "-v" ∨ Args h !! 1%nat = Some "--version") = false.
Proof.
  intros Hargs. apply bool_decide_eq_false_2. rewrite Hargs.
  intros [Hv|Hv]; discriminate Hv.
Qed.

Lemma token_error w :
  is_ok (fst (getGitHubToken h w)) = false →
  ∃ e, getGitHubToken h w
       = (Err e, mkWorld (env w) (fs w)
                   (EvExec "gh" ["gh"; "auth"; "token"] (env w) :: trace w)).
Proof.
  intros Hfail. pose proof (getGitHubToken_world h w) as Hw.
  destruct (getGitHubToken h w) as [[token|e] w1]; [discriminate Hfail|].
  simpl in Hw. subst w1. exists e. reflexivity.
Qed.

(** The resolver's request, as a function of what [getGitHubToken] gave. *)
Lemma getLatestReleaseAssetURL_request w :
  ∃ prints,
    trace (snd (getLatestReleaseAssetURL h w))
    = prints
      ++ [ EvHTTP (mkRequest "GET" releaseAPIURL
                     (if bool_decide (match fst (getGitHubToken h w) with
                                      | Ok token => token
                                      | Err _ => ""
                                      end ≠ "")
                      then [("User-Agent", "gh-github-mcp-server/" +:+ version h);
                            ("Authorization",
                             "token " +:+ match fst (getGitHubToken h w) with
                                          | Ok token => token
                                          | Err _ => ""
                                          end)]
                      else [("User-Agent", "gh-github-mcp-server/" +:+ version h)]));
           EvStderr ("Requesting latest release info from: " +:+ releaseAPIURL +:+ nl);
           EvExec "gh" ["gh"; "auth"; "token"] (env w) ]
      ++ trace w
    ∧ forallb is_print prints = true.
Proof.
  unfold getLatestReleaseAssetURL. unfold bind at 1.
  pose proof (getGitHubToken_world h w) as Hw.
  destruct (getGitHubToken h w) as [r w1]. cbn [fst snd] in *. subst w1.
  unfold bind at 1. unfold Eprint at 1, emit at 1. cbv beta iota zeta.
  unfold bind at 1. unfold Os.Do at 1. cbv beta iota zeta. cbn [env fs trace].
  pose proof adds_print_assets as Hpa. pose proof (adds_chooseAsset h) as Hca.
  match goal with
  | |- ∃ prints, trace (snd (?T ?W)) = _ ∧ _ =>
      assert (Ht : adds_only is_print T) by (adds_tac; auto);
      destruct (Ht W) as (prints & Ep & Fp)
  end.
  exists prints. rewrite Ep. split; [reflexivity | exact Fp].
Qed.

End launcher.

(** C8.  In a world where [gh auth token] fails: the Release Resolver
    still issues its request for the release listing, with the user-agent
    header and no authorization header, and afterwards only prints; the
    Session Launcher ([stdio] invocation) exits with status 1 after the
    failed [gh] run and one line on the error stream, so that no helper
    process is spawned and nothing else is done. *)
Theorem token_failure_resolver_and_launcher (h : Host) (w : World) :
  is_ok (fst (getGitHubToken h w)) = false →
  (∃ prints,
     trace (snd (getLatestReleaseAssetURL h w))
     = prints
       ++ [ EvHTTP (mkRequest "GET" releaseAPIURL
                      [("User-Agent", "gh-github-mcp-server/" +:+ version h)]);
            EvStderr ("Requesting latest release info from: " +:+ releaseAPIURL +:+ nl);
            EvExec "gh" ["gh"; "auth"; "token"] (env w) ]
       ++ trace w
     ∧ forallb is_print prints = true)
  ∧ (Args h !! 1%nat = Some "stdio" →
     ∃ e, main h w
          = (1, mkWorld (env w) (fs w)
                  (EvStderr ("Error getting GitHub token: " +:+ e +:+ nl)
                   :: EvExec "gh" ["gh"; "auth"; "token"] (env w) :: trace w))).
Proof.
  intros Hfail. split.
  - destruct (getLatestReleaseAssetURL_request h w) as (prints & Ep & Fp).
    exists prints. split; [|exact Fp]. rewrite Ep.
    destruct (fst (getGitHubToken h w)) as [token|e]; [discriminate Hfail|].
    rewrite bool_decide_eq_false_2 by (intros Hne; apply Hne; reflexivity).
    reflexivity.
  - intros Hargs. destruct (token_error h w Hfail) as [e He]. exists e.
    unfold main. rewrite (not_version_flag h Hargs).
    rewrite bool_decide_eq_true_2 by exact Hargs.
    unfold bind at 1. rewrite He. reflexivity.
Qed.

Lemma token_failure_resolver_and_launcher_witness :
  fst (main logged_out_host installed_world) = 1
  ∧ In (EvHTTP (mkRequest "GET" releaseAPIURL [("User-Agent", "gh-github-mcp-server/dev")]))
       (trace (snd (getLatestReleaseAssetURL logged_out_host installed_world))).
Proof.
  destruct (token_failure_resolver_and_launcher logged_out_host installed_world)
    as [(prints & Ep & _) Hmain]; [reflexivity|].
  split.
  - destruct (Hmain eq_refl) as [e ->]. reflexivity.
  - rewrite Ep. apply in_or_app. right. left. reflexivity.
Defined.

(** ** How often the Credential Provider runs, and how the launcher exits *)

Section credential.
Context (h : Host).

Lemma helper_not_gh path rest environ :
  is_gh_auth_token (EvExec path (path :: "stdio" :: rest) environ) = false.
Proof. simpl. apply bool_decide_eq_false_2. intros [_ Hargv]. discriminate Hargv. Qed.

Lemma helper_argv serverPath :
  (if (2 <? length (Args h))%nat then [serverPath; "stdio"] ++ drop 2 (Args h)
   else [serverPath; "stdio"])
  = serverPath :: "stdio" :: drop 2 (Args h).
Proof.
  destruct (2 <? length (Args h))%nat eqn:Hlen; [reflexivity|].
  apply Nat.ltb_ge in Hlen. rewrite drop_ge by exact Hlen. reflexivity.
Qed.

Lemma Setenv_world key value w :
  fs (snd (Os.Setenv key value w)) = fs w
  ∧ trace (snd (Os.Setenv key value w)) = trace w
  ∧ (∀ k, k ≠ key → env (snd (Os.Setenv key value w)) !! k = env w !! k).
Proof.
  unfold Os.Setenv. case_match; simpl; [auto|].
  split; [reflexivity|]. split; [reflexivity|].
  intros k Hk. apply lookup_insert_ne. congruence.
Qed.

Lemma hits_after_token w w' :
  fs w' = fs w →
  (∀ k, k ≠ "GITHUB_PERSONAL_ACCESS_TOKEN" → env w' !! k = env w !! k) →
  hits h w' = hits h w.
Proof.
  intros Hfs Henv. apply hits_env; [exact Hfs|].
  intros key Hk. apply Henv. intros ->. simpl in Hk.
  repeat (destruct Hk as [Hk|Hk]; [discriminate Hk|]). exact Hk.
Qed.

Lemma ensureServerBinary_gh_calls w :
  gh_calls (trace (snd (ensureServerBinary h w)))
  = (gh_calls (trace w)
     + (if bool_decide (first_hit (hits h w) ≠ "") then 0 else 1))%nat.
Proof.
  unfold ensureServerBinary. unfold bind at 1.
  destruct (findServerBinary_spec h w) as (Hp & _ & Ht & _ & _).
  destruct (findServerBinary h w) as [binPath w1]. cbn [fst snd] in *. subst binPath.
  rewrite <- Ht. destruct (bool_decide (first_hit (hits h w) ≠ "")).
  - simpl. lia.
  - revert w1 Ht. intros w1 _. revert w1.
    change (gh_adds (0 + (1 + 0))
              (bind (Eprint ("GitHub MCP Server binary not found, downloading..." +:+ nl))
                 (λ _, bind (downloadServerBinary h)
                         (λ r, match r with
                               | Err e => ret (Err ("failed to download server binary: " +:+ e))
                               | Ok binPath => ret (Ok binPath)
                               end)))).
    apply gh_adds_bind.
    + apply adds_only_gh_adds. adds_tac.
    + intros _. apply gh_adds_bind; [apply gh_adds_downloadServerBinary|].
      intros r. apply adds_only_gh_adds. adds_tac.
Qed.

(** The number of runs of [gh auth token] in one run of [main]. *)
Lemma main_gh_calls w :
  gh_calls (trace (snd (main h w)))
  = (gh_calls (trace w)
     + (if bool_decide (Args h !! 1%nat = Some "-v" ∨ Args h !! 1%nat = Some "--version")
        then 0
        else if bool_decide (Args h !! 1%nat = Some "stdio")
        then if is_ok (fst (getGitHubToken h w))
             then if bool_decide (first_hit (hits h w) ≠ "") then 1 else 2
             else 1
        else 0))%nat.
Proof.
  unfold main.
  destruct (bool_decide (Args h !! 1%nat = Some "-v" ∨ Args h !! 1%nat = Some "--version")).
  { simpl. unfold gh_calls. simpl. lia. }
  destruct (bool_decide (Args h !! 1%nat = Some "stdio")).
  2: { pose proof (adds_only_gh_adds
                     (bind (Println_all usage) (λ _, ret 0))) as Hu.
       rewrite Hu; [reflexivity|].
       pose proof adds_Println_all as Hp.
       apply (adds_only_weaken is_print no_exec); [exact is_print_no_exec|].
       apply adds_only_bind; [apply Hp | intros _; apply adds_only_ret]. }
  unfold bind at 1. pose proof (getGitHubToken_world h w) as Hw.
  destruct (getGitHubToken h w) as [[token|e] w1]; cbn [fst snd is_ok] in *; subst w1.
  2: { unfold gh_calls. simpl. lia. }
  unfold bind at 1.
  destruct (Setenv_world "GITHUB_PERSONAL_ACCESS_TOKEN" token
              (mkWorld (env w) (fs w)
                 (EvExec "gh" ["gh"; "auth"; "token"] (env w) :: trace w)))
    as (Hfs & Htr & Henv).
  destruct (Os.Setenv "GITHUB_PERSONAL_ACCESS_TOKEN" token _) as [u w2].
  cbn [fst snd env fs trace] in *.
  unfold bind at 1. pose proof (ensureServerBinary_gh_calls w2) as He.
  rewrite (hits_after_token w w2 Hfs Henv), Htr in He.
  assert (Hgh : gh_calls (EvExec "gh" ["gh"; "auth"; "token"] (env w) :: trace w)
                = S (gh_calls (trace w))) by reflexivity.
  rewrite Hgh in He. clear Hgh.
  destruct (ensureServerBinary h w2) as [[serverPath|e] w3]; cbn [fst snd] in He.
  2: { unfold Eprint, emit, bind, ret. cbn [snd trace].
       change (gh_calls (EvStderr ?x :: ?t)) with (gh_calls t).
       rewrite He. destruct (bool_decide (first_hit (hits h w) ≠ "")); lia. }
  rewrite helper_argv. unfold bind at 1, Eprint at 1, emit at 1. cbv beta iota zeta.
  unfold bind at 1, Os.Run at 1. cbv beta iota zeta. cbn [env fs trace].
  assert (Hrun : ∀ t, gh_calls (EvExec serverPath (serverPath :: "stdio" :: drop 2 (Args h))
                                  (env w3) :: t) = gh_calls t).
  { intros t. unfold gh_calls. cbn [List.filter]. rewrite helper_not_gh. reflexivity. }
  assert (Hprint : ∀ text t, gh_calls (EvStderr text :: t) = gh_calls t)
    by reflexivity.
  destruct (run_command h _ _ _ _) as [code out err|msg].
  - destruct (bool_decide (code = 0)); unfold bind, ret, Eprint, emit; cbn [snd trace];
      rewrite ?Hprint, Hrun, Hprint, He;
      destruct (bool_decide (first_hit (hits h w) ≠ "")); lia.
  - unfold bind, ret, Eprint, emit; cbn [snd trace].
    rewrite ?Hprint, Hrun, Hprint, He.
    destruct (bool_decide (first_hit (hits h w) ≠ "")); lia.
Qed.

End credential.

(** C2 (as the code has it).  One run of the launcher invokes the
    Credential Provider n times, where n is at most 2: not at all unless
    the subcommand is [stdio]; once by the Session Launcher on every
    [stdio] invocation; exactly once when the Binary Locator finds a
    binary; and exactly twice, the second time by the Release Resolver,
    when the token was obtained and the locator finds nothing (the download
    path). *)
Theorem credential_provider_runs (h : Host) (w : World) :
  ∃ n,
    gh_calls (trace (snd (main h w))) = (gh_calls (trace w) + n)%nat
    ∧ (n ≤ 2)%nat
    ∧ (Args h !! 1%nat ≠ Some "stdio" → n = 0%nat)
    ∧ (Args h !! 1%nat = Some "stdio" → (1 ≤ n)%nat)
    ∧ (Args h !! 1%nat = Some "stdio" → fst (findServerBinary h w) ≠ "" → n = 1%nat)
    ∧ (Args h !! 1%nat = Some "stdio" →
       is_ok (fst (getGitHubToken h w)) = true →
       fst (findServerBinary h w) = "" → n = 2%nat).
Proof.
  eexists. split; [apply main_gh_calls|].
  destruct (findServerBinary_spec h w) as (-> & _).
  destruct (bool_decide (Args h !! 1%nat = Some "-v" ∨ Args h !! 1%nat = Some "--version"))
    eqn:Hv.
  { apply bool_decide_eq_true_1 in Hv.
    repeat split; try lia; intros Hs; rewrite Hs in Hv; destruct Hv as [Hv|Hv];
      discriminate Hv. }
  destruct (bool_decide (Args h !! 1%nat = Some "stdio")) eqn:Hs;
    [apply bool_decide_eq_true_1 in Hs | apply bool_decide_eq_false_1 in Hs].
  2: { repeat split; try lia; intros Hs'; contradiction. }
  destruct (is_ok (fst (getGitHubToken h w)));
    destruct (bool_decide (first_hit (hits h w) ≠ "")) eqn:Hf;
    [apply bool_decide_eq_true_1 in Hf | apply bool_decide_eq_false_1 in Hf
    |apply bool_decide_eq_true_1 in Hf | apply bool_decide_eq_false_1 in Hf];
    repeat split; try lia; try discriminate; try contradiction; intros; try lia;
      try contradiction; try discriminate.
Qed.

Lemma credential_provider_runs_witness :
  gh_calls (trace (snd (main linux_host installed_world))) = 1%nat
  ∧ gh_calls (trace (snd (main linux_host empty_world))) = 2%nat.
Proof.
  split.
  - destruct (credential_provider_runs linux_host installed_world)
      as (n & Hn & _ & _ & _ & Hone & _).
    rewrite Hn, (Hone eq_refl); [reflexivity|]. vm_compute. discriminate.
  - destruct (credential_provider_runs linux_host empty_world)
      as (n & Hn & _ & _ & _ & _ & Htwo).
    rewrite Hn, (Htwo eq_refl); [reflexivity| |]; vm_compute; reflexivity.
Defined.

(** C2 as stated fails: with nothing installed, [stdio] runs
    [gh auth token] twice, once in [main] and once in the resolver. *)
Lemma credential_provider_runs_twice :
  trace empty_world = []
  ∧ fst (findServerBinary linux_host empty_world) = ""
  ∧ gh_calls (trace (snd (main linux_host empty_world))) = 2%nat
  ∧ ¬ (gh_calls (trace (snd (main linux_host empty_world))) ≤ 1)%nat.
Proof.
  assert (Hc : gh_calls (trace (snd (main linux_host empty_world))) = 2%nat)
    by (vm_compute; reflexivity).
  split; [reflexivity|]. split; [vm_compute; reflexivity|]. split; [exact Hc|].
  rewrite Hc. lia.
Qed.

(** C1 (as the code has it).  In a [stdio] invocation with a token and a
    resolved helper binary, the helper is run with [stdio] and the
    trailing arguments, and the launcher exits with 0 when the helper
    exits with status 0, and with 1 when the helper exits with any other
    status or cannot be started. *)
Theorem launcher_exit_status (h : Host) (w w1 w2 : World)
    (token serverPath : string) (outcome : CmdOutcome) :
  Args h !! 1%nat = Some "stdio" →
  getGitHubToken h w = (Ok token, w1) →
  ensureServerBinary h (snd (Os.Setenv "GITHUB_PERSONAL_ACCESS_TOKEN" token w1))
  = (Ok serverPath, w2) →
  run_command h (length (List.filter Os.is_exec (trace w2))) serverPath
    (serverPath :: "stdio" :: drop 2 (Args h)) (env w2)
  = outcome →
  fst (main h w)
  = match outcome with
    | Exited code _ _ => if bool_decide (code = 0) then 0 else 1
    | NotStarted _ => 1
    end
  ∧ In (EvExec serverPath (serverPath :: "stdio" :: drop 2 (Args h)) (env w2))
       (trace (snd (main h w))).
Proof.
  intros Hargs Htoken Hbin Hrun. remember (main h w) as res eqn:E. unfold main in E.
  rewrite (not_version_flag h Hargs), bool_decide_eq_true_2 in E by exact Hargs.
  unfold bind at 1 in E. rewrite Htoken in E. unfold bind at 1 in E.
  destruct (Os.Setenv "GITHUB_PERSONAL_ACCESS_TOKEN" token w1) as [u w1'].
  cbn [snd] in Hbin. unfold bind at 1 in E. rewrite Hbin, helper_argv in E.
  unfold bind at 1, Eprint at 1, emit at 1 in E. cbv beta iota zeta in E.
  unfold bind at 1, Os.Run at 1 in E. cbv beta iota zeta in E.
  cbn [env fs trace List.filter Os.is_exec] in E.
  rewrite Hrun in E. destruct outcome as [code out err|msg];
    [destruct (bool_decide (code = 0))|]; subst res.
  - split; [reflexivity|]. left. reflexivity.
  - split; [reflexivity|]. right. left. reflexivity.
  - split; [reflexivity|]. right. left. reflexivity.
Qed.

Lemma launcher_exit_status_witness :
  fst (main linux_host installed_world) = 0
  ∧ fst (main failing_helper_host installed_world) = 1.
Proof.
  split.
  - refine (proj1 (launcher_exit_status linux_host installed_world _ _ "gho_sample"
                     installed_path (Exited 0 "" "") eq_refl _ _ _)).
    + vm_compute. reflexivity.
    + vm_compute. reflexivity.
    + reflexivity.
  - refine (proj1 (launcher_exit_status failing_helper_host installed_world _ _
                     "gho_sample" installed_path (Exited 2 "" "") eq_refl _ _ _)).
    + vm_compute. reflexivity.
    + vm_compute. reflexivity.
    + reflexivity.
Defined.

(** C1 as stated fails: the helper exits with status 2, the launcher
    with status 1. *)
Lemma helper_status_not_propagated :
  (∃ environ,
     trace (snd (main failing_helper_host installed_world)) !! 1%nat
     = Some (EvExec installed_path [installed_path; "stdio"; "--read-only"] environ)
     ∧ run_command failing_helper_host 1 installed_path
         [installed_path; "stdio"; "--read-only"] environ
       = Exited 2 "" "")
  ∧ fst (main failing_helper_host installed_world) = 1
  ∧ fst (main failing_helper_host installed_world) ≠ 2.
Proof.
  split; [|split].
  - eexists. split; [vm_compute; reflexivity | reflexivity].
  - vm_compute. reflexivity.
  - vm_compute. discriminate.
Qed.

(** ** Two complete runs *)

(** Nothing installed: the release is resolved by the x86_64 rule,
    downloaded, unpacked and made executable, the temporary file is
    removed, and the helper runs with the forwarded argument. *)
Example download_path_end_to_end :
  fst (main release_host home_world) = 0
  ∧ fs (snd (main release_host home_world)) !! installed_path
    = Some (File helper_bytes 493)
  ∧ fs (snd (main release_host home_world)) !! "/tmp/github-mcp-server-1234567" = None
  ∧ head (trace (snd (main release_host home_world)))
    = Some (EvExec installed_path [installed_path; "stdio"; "--read-only"]
              (<["GITHUB_PERSONAL_ACCESS_TOKEN" := "gho_sample"]> {[ "HOME" := "/home/u" ]}))
  ∧ gh_calls (trace (snd (main release_host home_world))) = 2%nat.
Proof. vm_compute. repeat split; reflexivity. Qed.

(** The helper is installed: [stdio --read-only] runs [gh auth token]
    once and the helper with [stdio --read-only], the token in its
    environment; nothing on disk changes. *)
Example installed_end_to_end :
  fst (main linux_host installed_world) = 0
  ∧ fs (snd (main linux_host installed_world)) = installed_fs
  ∧ head (trace (snd (main linux_host installed_world)))
    = Some (EvExec installed_path [installed_path; "stdio"; "--read-only"]
              (<["GITHUB_PERSONAL_ACCESS_TOKEN" := "gho_sample"]> {[ "HOME" := "/home/u" ]}))
  ∧ gh_calls (trace (snd (main linux_host installed_world))) = 1%nat.
Proof. vm_compute. repeat split; reflexivity. Qed.

(** * Further properties of the code *)

(** ** Invocations without [stdio] *)

Section informational.
Context (h : Host).

Lemma Println_all_world lines w :
  Println_all lines w
  = (tt, mkWorld (env w) (fs w)
           (rev (map (λ line, EvStdout (line +:+ nl)) lines) ++ trace w)).
Proof.
  revert w. induction lines as [|line lines IH]; intros w; [destruct w; reflexivity|].
  cbn [Println_all]. unfold bind, Print, emit. rewrite IH. cbn [env fs trace map rev].
  rewrite <- app_assoc. reflexivity.
Qed.

Lemma forallb_is_stdout_lines lines :
  forallb is_stdout (rev (map (λ line, EvStdout (line +:+ nl)) lines)) = true.
Proof.
  apply forallb_forall. intros e He. apply in_rev, in_map_iff in He.
  destruct He as (line & <- & _). reflexivity.
Qed.

End informational.

(** X2.  An invocation whose first argument is not [stdio] is purely
    informational: the launcher exits with status 0 having only written to
    standard output; it runs no child process (not even [gh]), sends no
    request, and leaves environment and file system as they were.  With
    [-v] or [--version] as first argument it prints exactly the version
    line, whatever follows; otherwise it prints the twelve usage lines. *)
Theorem main_without_stdio (h : Host) (w : World) :
  Args h !! 1%nat ≠ Some "stdio" →
  ∃ prints,
    main h w = (0, mkWorld (env w) (fs w) (prints ++ trace w))
    ∧ forallb is_stdout prints = true
    ∧ (Args h !! 1%nat = Some "-v" ∨ Args h !! 1%nat = Some "--version" →
       prints = [EvStdout ("gh-github-mcp-server v" +:+ version h +:+ nl)])
    ∧ (Args h !! 1%nat ≠ Some "-v" → Args h !! 1%nat ≠ Some "--version" →
       prints = rev (map (λ line, EvStdout (line +:+ nl)) usage)).
Proof.
  intros Hstdio. unfold main.
  destruct (bool_decide (Args h !! 1%nat = Some "-v" ∨ Args h !! 1%nat = Some "--version"))
    eqn:Hv; [apply bool_decide_eq_true_1 in Hv | apply bool_decide_eq_false_1 in Hv].
  - exists [EvStdout ("gh-github-mcp-server v" +:+ version h +:+ nl)].
    split; [reflexivity|]. split; [reflexivity|]. split; [reflexivity|].
    intros H1 H2. destruct Hv; contradiction.
  - rewrite bool_decide_eq_false_2 by exact Hstdio.
    exists (rev (map (λ line, EvStdout (line +:+ nl)) usage)).
    split; [|split; [apply forallb_is_stdout_lines|split]].
    + unfold bind. rewrite Println_all_world. reflexivity.
    + intros Hflag. contradiction.
    + reflexivity.
Qed.

Lemma main_without_stdio_witness :
  main version_host installed_world
  = (0, mkWorld (env installed_world) (fs installed_world)
          [EvStdout ("gh-github-mcp-server v1.2.3" +:+ nl)]).
Proof.
  destruct (main_without_stdio version_host installed_world)
    as (prints & Hmain & _ & Hversion & _); [discriminate|].
  rewrite Hmain, (Hversion (or_intror eq_refl)). reflexivity.
Defined.

(** ** The selection's error *)

(** X3.  When no asset of the listing satisfies any of the four rules, the
    selection fails with the message
    "no suitable binary found for OS/ARCH", extended by the advice to
    build from source exactly on darwin/amd64; the last line it wrote
    announces the OS-only search. *)
Theorem chooseAsset_no_match (h : Host) (assets : list Asset) (w : World) :
  Strings.ToLower (unicode h) (GOARCH h) = GOARCH h →
  (∀ rule asset, In asset assets → spec_rule_matches h rule (Name asset) = false) →
  fst (chooseAsset h assets w) = Err (no_match_error h)
  ∧ head (trace (snd (chooseAsset h assets w)))
    = Some (EvStderr ("Looking for any binary for " +:+ GOOS h +:+ nl)).
Proof.
  intros Hlow Hnone.
  assert (Hp : pickAsset h assets = None).
  { destruct (pickAsset h assets) as [[rule asset]|] eqn:Hp; [|reflexivity].
    destruct (pickAsset_sound h assets rule asset Hlow Hp) as (Hin & Hm & _).
    rewrite (Hnone rule asset Hin) in Hm. discriminate Hm. }
  revert Hp. unfold pickAsset, chooseAsset, no_match_error, bind, ret, Eprint, emit.
  destruct (first_asset h (matchOsArch h) assets) as [a1|]; [discriminate|].
  destruct (bool_decide (GOOS h = "darwin"));
    [destruct (first_variant_asset h macVariants assets) as [a2|]; [discriminate|] |];
    (destruct (bool_decide (GOARCH h = "amd64"));
     [destruct (first_asset h (matchX8664 h) assets) as [a3|]; [discriminate|] |];
     (destruct (first_asset h (matchOsOnly h) assets) as [a4|]; [discriminate|]));
    intros _; split; reflexivity.
Qed.

Lemma chooseAsset_no_match_witness :
  fst (chooseAsset linux_host other_assets empty_world)
  = Err "no suitable binary found for linux/amd64".
Proof.
  refine (proj1 (chooseAsset_no_match linux_host other_assets empty_world eq_refl _)).
  intros rule asset Hin. unfold other_assets in Hin. cbn [In] in Hin.
  destruct Hin as [<-|[<-|[<-|[]]]]; destruct rule; vm_compute; reflexivity.
Defined.

(** ** The fast path of [ensureServerBinary] *)

(** X4.  When the Binary Locator has a hit, ensureServerBinary returns
    that path and does nothing else: no message, no request, no child
    process, no change of the environment, and on disk at most the new
    directories the locator itself creates. *)
Theorem ensureServerBinary_found (h : Host) (w : World) :
  first_hit (hits h w) ≠ "" →
  fst (ensureServerBinary h w) = Ok (first_hit (hits h w))
  ∧ env (snd (ensureServerBinary h w)) = env w
  ∧ trace (snd (ensureServerBinary h w)) = trace w
  ∧ only_new_dirs (fs w) (fs (snd (ensureServerBinary h w))).
Proof.
  intros Hhit. remember (ensureServerBinary h w) as res eqn:E.
  unfold ensureServerBinary in E. unfold bind at 1 in E.
  destruct (findServerBinary_spec h w) as (Hp & He & Ht & Hf & _).
  destruct (findServerBinary h w) as [binPath w1]. cbn [fst snd] in *. subst binPath.
  rewrite bool_decide_eq_true_2 in E by exact Hhit. subst res. auto.
Qed.

Lemma ensureServerBinary_found_witness :
  fst (ensureServerBinary linux_host installed_world) = Ok installed_path
  ∧ trace (snd (ensureServerBinary linux_host installed_world)) = [].
Proof.
  destruct (ensureServerBinary_found linux_host installed_world)
    as (Hr & _ & Ht & _); [vm_compute; discriminate|].
  split; [rewrite Hr; vm_compute; reflexivity | exact Ht].
Defined.

(** ** What the functions leave alone *)

Section preserving.
Context (h : Host).

Lemma preserves_ret {A X} (part : World → X) (a : A) : preserves part (ret a).
Proof. intros w. reflexivity. Qed.

Lemma preserves_bind {A B X} (part : World → X) (m : M A) (k : A → M B) :
  preserves part m → (∀ a, preserves part (k a)) → preserves part (bind m k).
Proof.
  intros Hm Hk w. unfold bind. specialize (Hm w). destruct (m w) as [a w1].
  rewrite (Hk a w1). exact Hm.
Qed.

Lemma env_emit e : preserves env (emit e).
Proof. intros w. reflexivity. Qed.

Lemma fs_emit e : preserves fs (emit e).
Proof. intros w. reflexivity. Qed.

Lemma env_get_fs : preserves env get_fs.
Proof. intros w. reflexivity. Qed.

Lemma env_Getenv key : preserves env (Os.Getenv key).
Proof. intros w. reflexivity. Qed.

Lemma fs_Getenv key : preserves fs (Os.Getenv key).
Proof. intros w. reflexivity. Qed.

Lemma env_Do req : preserves env (Os.Do h req).
Proof. intros w. reflexivity. Qed.

Lemma fs_Do req : preserves fs (Os.Do h req).
Proof. intros w. reflexivity. Qed.

Lemma env_Run path argv : preserves env (Os.Run h path argv).
Proof. intros w. reflexivity. Qed.

Lemma fs_Run path argv : preserves fs (Os.Run h path argv).
Proof. intros w. reflexivity. Qed.

Lemma env_MkdirAll path perm : preserves env (Os.MkdirAll h path perm).
Proof. intros w. apply (MkdirAll_frame h path perm w). Qed.

Lemma env_Create name : preserves env (Os.Create h name).
Proof. intros w. unfold Os.Create. repeat case_match; reflexivity. Qed.

Lemma env_Copy dst src : preserves env (Os.Copy dst src).
Proof. intros w. reflexivity. Qed.

Lemma env_CreateTemp dir pre suf : preserves env (Os.CreateTemp h dir pre suf).
Proof.
  unfold Os.CreateTemp. apply preserves_bind.
  - case_match; [|apply preserves_ret]. unfold Os.TempDir.
    apply preserves_bind; [apply env_Getenv | intros a; apply preserves_ret].
  - intros d w. repeat case_match; reflexivity.
Qed.

Lemma env_Rename oldpath newpath : preserves env (Os.Rename oldpath newpath).
Proof. intros w. unfold Os.Rename. repeat case_match; reflexivity. Qed.

Lemma env_Remove name : preserves env (Os.Remove name).
Proof. intros w. unfold Os.Remove. repeat case_match; reflexivity. Qed.

Lemma env_Chmod name mode : preserves env (Os.Chmod name mode).
Proof. intros w. unfold Os.Chmod. repeat case_match; reflexivity. Qed.

Lemma env_getExtensionDataDir : preserves env (getExtensionDataDir h).
Proof. intros w. apply (getExtensionDataDir_spec h w). Qed.

Lemma env_findServerBinary : preserves env (findServerBinary h).
Proof. intros w. apply (findServerBinary_spec h w). Qed.

Lemma env_getGitHubToken : preserves env (getGitHubToken h).
Proof. intros w. rewrite getGitHubToken_world. reflexivity. Qed.

Lemma fs_getGitHubToken : preserves fs (getGitHubToken h).
Proof. intros w. rewrite getGitHubToken_world. reflexivity. Qed.

End preserving.

Create HintDb keep.
#[export] Hint Resolve preserves_ret env_emit fs_emit env_get_fs env_Getenv fs_Getenv
  env_Do fs_Do env_Run fs_Run env_MkdirAll env_Create env_Copy env_CreateTemp
  env_Rename env_Remove env_Chmod env_getExtensionDataDir env_findServerBinary
  env_getGitHubToken fs_getGitHubToken : keep.

Ltac keep_tac :=
  unfold Eprint, Print;
  repeat first
    [ solve [auto with keep]
    | apply preserves_bind; [|intros ?]
    | match goal with
      | |- preserves _ (match ?r with _ => _ end) => destruct r
      end ].

(** As [adds_tac], trying the hypotheses before opening a function. *)
Ltac adds_hyp_tac :=
  unfold Eprint, Print;
  repeat first
    [ assumption
    | match goal with
      | H : ∀ a, adds_only _ _ |- _ => apply H
      end
    | apply adds_only_ret
    | apply adds_only_emit; reflexivity
    | apply quiet_adds_only; solve [auto with quiet]
    | apply adds_only_bind; [|intros ?]
    | match goal with
      | |- adds_only _ (match ?r with _ => _ end) => destruct r
      end ].

Section composite_preserving.
Context (h : Host).

Lemma print_assets_keeps {X} (part : World → X) assets :
  preserves part (emit (EvStderr "")) →
  (∀ text, preserves part (emit (EvStderr text))) →
  preserves part (print_assets assets).
Proof.
  intros _ Hemit. induction assets as [|a assets IH]; simpl.
  - apply preserves_ret.
  - apply preserves_bind; [apply Hemit | intros _; exact IH].
Qed.

Lemma env_print_assets assets : preserves env (print_assets assets).
Proof. apply print_assets_keeps; intros; apply env_emit. Qed.

Lemma fs_print_assets assets : preserves fs (print_assets assets).
Proof. apply print_assets_keeps; intros; apply fs_emit. Qed.

Lemma env_chooseAsset assets : preserves env (chooseAsset h assets).
Proof. unfold chooseAsset. keep_tac. Qed.

Lemma fs_chooseAsset assets : preserves fs (chooseAsset h assets).
Proof. unfold chooseAsset. keep_tac. Qed.

(** The resolver touches neither the environment nor the disk. *)
Lemma env_getLatestReleaseAssetURL : preserves env (getLatestReleaseAssetURL h).
Proof.
  unfold getLatestReleaseAssetURL.
  pose proof env_print_assets. pose proof env_chooseAsset. keep_tac.
Qed.

Lemma fs_getLatestReleaseAssetURL : preserves fs (getLatestReleaseAssetURL h).
Proof.
  unfold getLatestReleaseAssetURL.
  pose proof fs_print_assets. pose proof fs_chooseAsset. keep_tac.
Qed.

Lemma env_extractFromZip zipPath targetPath :
  preserves env (extractFromZip h zipPath targetPath).
Proof. unfold extractFromZip. keep_tac. Qed.

Lemma env_extractFromTar tr targetPath : preserves env (extractFromTar h tr targetPath).
Proof. induction tr; simpl; keep_tac. Qed.

Lemma env_extractFromTarGz tarPath targetPath :
  preserves env (extractFromTarGz h tarPath targetPath).
Proof. unfold extractFromTarGz. pose proof env_extractFromTar. keep_tac. Qed.

Lemma env_installFrom assetURL tmpName targetPath :
  preserves env (installFrom h assetURL tmpName targetPath).
Proof.
  unfold installFrom.
  pose proof env_extractFromZip. pose proof env_extractFromTarGz. keep_tac.
Qed.

Lemma env_downloadServerBinary : preserves env (downloadServerBinary h).
Proof.
  unfold downloadServerBinary.
  pose proof env_getLatestReleaseAssetURL. pose proof env_installFrom. keep_tac.
Qed.

Lemma env_ensureServerBinary : preserves env (ensureServerBinary h).
Proof.
  unfold ensureServerBinary. pose proof env_downloadServerBinary. keep_tac.
Qed.

(** Every child process the functions on the download path start is a
    run of [gh auth token]. *)
Lemma adds_getGitHubToken : adds_only gh_or_no_exec (getGitHubToken h).
Proof.
  intros w. exists [EvExec "gh" ["gh"; "auth"; "token"] (env w)].
  rewrite getGitHubToken_world. split; reflexivity.
Qed.

Lemma no_exec_gh_or_no_exec e : no_exec e = true → gh_or_no_exec e = true.
Proof. unfold gh_or_no_exec, no_exec. intros ->. reflexivity. Qed.

Lemma is_print_gh_or_no_exec e : is_print e = true → gh_or_no_exec e = true.
Proof. intros He. apply no_exec_gh_or_no_exec, is_print_no_exec, He. Qed.

Lemma adds_getLatestReleaseAssetURL :
  adds_only gh_or_no_exec (getLatestReleaseAssetURL h).
Proof.
  unfold getLatestReleaseAssetURL.
  pose proof adds_getGitHubToken.
  pose proof (λ a, adds_only_weaken _ _ _ is_print_gh_or_no_exec (adds_print_assets a)).
  pose proof (λ a, adds_only_weaken _ _ _ is_print_gh_or_no_exec (adds_chooseAsset h a)).
  pose proof (λ r, adds_only_weaken _ _ _ no_exec_gh_or_no_exec (adds_Do h r)).
  adds_hyp_tac.
Qed.

Lemma adds_downloadServerBinary : adds_only gh_or_no_exec (downloadServerBinary h).
Proof.
  unfold downloadServerBinary.
  pose proof adds_getLatestReleaseAssetURL.
  pose proof (λ r, adds_only_weaken _ _ _ no_exec_gh_or_no_exec (adds_Do h r)).
  pose proof (quiet_installFrom h).
  adds_hyp_tac.
Qed.

Lemma adds_ensureServerBinary : adds_only gh_or_no_exec (ensureServerBinary h).
Proof.
  unfold ensureServerBinary. pose proof adds_downloadServerBinary. adds_hyp_tac.
Qed.

End composite_preserving.

(** ** The [stdio] branch of [main], step by step *)

Section stdio_branch.
Context (h : Host).

Lemma Setenv_token value w :
  Os.Setenv "GITHUB_PERSONAL_ACCESS_TOKEN" value w
  = if Os.has_nul value then (Err "setenv: invalid argument", w)
    else (Ok tt, mkWorld (<["GITHUB_PERSONAL_ACCESS_TOKEN" := value]> (env w))
                   (fs w) (trace w)).
Proof. reflexivity. Qed.

Lemma main_stdio_token_failed w e w1 :
  Args h !! 1%nat = Some "stdio" →
  getGitHubToken h w = (Err e, w1) →
  main h w
  = (1, mkWorld (env w1) (fs w1)
          (EvStderr ("Error getting GitHub token: " +:+ e +:+ nl) :: trace w1)).
Proof.
  intros Hargs Htoken. unfold main.
  rewrite (not_version_flag h Hargs), bool_decide_eq_true_2 by exact Hargs.
  unfold bind at 1. rewrite Htoken. reflexivity.
Qed.

Lemma main_stdio_unresolved w token w1 e w2 :
  Args h !! 1%nat = Some "stdio" →
  getGitHubToken h w = (Ok token, w1) →
  ensureServerBinary h (snd (Os.Setenv "GITHUB_PERSONAL_ACCESS_TOKEN" token w1))
  = (Err e, w2) →
  main h w
  = (1, mkWorld (env w2) (fs w2)
          (EvStderr ("Error with server binary: " +:+ e +:+ nl) :: trace w2)).
Proof.
  intros Hargs Htoken Hbin. unfold main.
  rewrite (not_version_flag h Hargs), bool_decide_eq_true_2 by exact Hargs.
  unfold bind at 1. rewrite Htoken. unfold bind at 1.
  destruct (Os.Setenv "GITHUB_PERSONAL_ACCESS_TOKEN" token w1) as [u w1'].
  cbn [snd] in Hbin. unfold bind at 1. rewrite Hbin. reflexivity.
Qed.

Lemma main_stdio_resolved w token w1 serverPath w2 :
  Args h !! 1%nat = Some "stdio" →
  getGitHubToken h w = (Ok token, w1) →
  ensureServerBinary h (snd (Os.Setenv "GITHUB_PERSONAL_ACCESS_TOKEN" token w1))
  = (Ok serverPath, w2) →
  main h w
  = match run_command h (length (List.filter Os.is_exec (trace w2))) serverPath
            (serverPath :: "stdio" :: drop 2 (Args h)) (env w2) with
    | Exited code _ _ =>
        if bool_decide (code = 0) then
          (0, mkWorld (env w2) (fs w2)
                (EvExec serverPath (serverPath :: "stdio" :: drop 2 (Args h)) (env w2)
                 :: EvStderr ("Using server binary: " +:+ serverPath +:+ nl)
                 :: trace w2))
        else
          (1, mkWorld (env w2) (fs w2)
                (EvStderr ("Error running MCP server: exit status " +:+ pretty code +:+ nl)
                 :: EvExec serverPath (serverPath :: "stdio" :: drop 2 (Args h)) (env w2)
                 :: EvStderr ("Using server binary: " +:+ serverPath +:+ nl)
                 :: trace w2))
    | NotStarted msg =>
        (1, mkWorld (env w2) (fs w2)
              (EvStderr ("Error running MCP server: " +:+ msg +:+ nl)
               :: EvExec serverPath (serverPath :: "stdio" :: drop 2 (Args h)) (env w2)
               :: EvStderr ("Using server binary: " +:+ serverPath +:+ nl)
               :: trace w2))
    end.
Proof.
  intros Hargs Htoken Hbin. unfold main.
  rewrite (not_version_flag h Hargs), bool_decide_eq_true_2 by exact Hargs.
  unfold bind at 1. rewrite Htoken. unfold bind at 1.
  destruct (Os.Setenv "GITHUB_PERSONAL_ACCESS_TOKEN" token w1) as [u w1'].
  cbn [snd] in Hbin. unfold bind at 1. rewrite Hbin, helper_argv.
  unfold bind at 1, Eprint at 1, emit at 1. cbv beta iota zeta.
  unfold bind at 1, Os.Run at 1. cbv beta iota zeta.
  cbn [env fs trace List.filter Os.is_exec].
  destruct (run_command h _ _ _ _) as [code out err|msg];
    [destruct (bool_decide (code = 0))|]; reflexivity.
Qed.

End stdio_branch.

(** X5.  In a [stdio] invocation that reaches the helper, the helper is
    started with the arguments [stdio] followed by everything after
    [stdio] on the launcher's command line, and with the launcher's
    environment in which GITHUB_PERSONAL_ACCESS_TOKEN is set to the token.
    The error of os.Setenv is ignored: a token with a NUL byte is not set,
    and the helper then runs with the environment unchanged. *)
Theorem helper_arguments_and_environment (h : Host) (w w1 w2 : World)
    (token serverPath : string) :
  Args h !! 1%nat = Some "stdio" →
  getGitHubToken h w = (Ok token, w1) →
  ensureServerBinary h (snd (Os.Setenv "GITHUB_PERSONAL_ACCESS_TOKEN" token w1))
  = (Ok serverPath, w2) →
  ∃ environ,
    In (EvExec serverPath (serverPath :: "stdio" :: drop 2 (Args h)) environ)
       (trace (snd (main h w)))
    ∧ environ = (if Os.has_nul token then env w
                 else <["GITHUB_PERSONAL_ACCESS_TOKEN" := token]> (env w))
    ∧ (Os.has_nul token = false →
       environ !! "GITHUB_PERSONAL_ACCESS_TOKEN" = Some token).
Proof.
  intros Hargs Htoken Hbin. exists (env w2).
  assert (Henv : env w2 = (if Os.has_nul token then env w
                           else <["GITHUB_PERSONAL_ACCESS_TOKEN" := token]> (env w))).
  { pose proof (env_ensureServerBinary h
                  (snd (Os.Setenv "GITHUB_PERSONAL_ACCESS_TOKEN" token w1))) as He.
    rewrite Hbin in He. cbn [snd] in He. rewrite He, Setenv_token.
    pose proof (env_getGitHubToken h w) as Hg. rewrite Htoken in Hg. cbn [snd] in Hg.
    destruct (Os.has_nul token); cbn [snd env]; rewrite Hg; reflexivity. }
  split; [|split; [exact Henv|]].
  - rewrite (main_stdio_resolved h w token w1 serverPath w2 Hargs Htoken Hbin).
    destruct (run_command h _ _ _ _) as [code out err|msg];
      [destruct (bool_decide (code = 0))|]; cbn [snd trace].
    + left. reflexivity.
    + right. left. reflexivity.
    + right. left. reflexivity.
  - intros Hnul. rewrite Henv, Hnul. apply lookup_insert_eq.
Qed.

Lemma helper_arguments_and_environment_witness :
  In (EvExec installed_path [installed_path; "stdio"; "--read-only"]
        (<["GITHUB_PERSONAL_ACCESS_TOKEN" := "gho_sample"]> {[ "HOME" := "/home/u" ]}))
     (trace (snd (main linux_host installed_world))).
Proof.
  destruct (helper_arguments_and_environment linux_host installed_world
              (snd (getGitHubToken linux_host installed_world))
              (snd (ensureServerBinary linux_host
                      (snd (Os.Setenv "GITHUB_PERSONAL_ACCESS_TOKEN" "gho_sample"
                              (snd (getGitHubToken linux_host installed_world))))))
              "gho_sample" installed_path)
    as (environ & Hin & -> & _).
  - reflexivity.
  - vm_compute. reflexivity.
  - vm_compute. reflexivity.
  - exact Hin.
Defined.

(** X6.  A [stdio] invocation exits with status 0 only if the helper was
    started and exited with status 0; the helper's run is then the last
    event of the launcher. *)
Theorem stdio_success_is_helper_success (h : Host) (w : World) :
  Args h !! 1%nat = Some "stdio" →
  fst (main h w) = 0 →
  ∃ serverPath environ n out err,
    head (trace (snd (main h w)))
    = Some (EvExec serverPath (serverPath :: "stdio" :: drop 2 (Args h)) environ)
    ∧ run_command h n serverPath (serverPath :: "stdio" :: drop 2 (Args h)) environ
      = Exited 0 out err.
Proof.
  intros Hargs.
  destruct (getGitHubToken h w) as [[token|e] w1] eqn:Htoken.
  2: { rewrite (main_stdio_token_failed h w e w1 Hargs Htoken). discriminate. }
  destruct (ensureServerBinary h
              (snd (Os.Setenv "GITHUB_PERSONAL_ACCESS_TOKEN" token w1)))
    as [[serverPath|e] w2] eqn:Hbin.
  2: { rewrite (main_stdio_unresolved h w token w1 e w2 Hargs Htoken Hbin).
       discriminate. }
  rewrite (main_stdio_resolved h w token w1 serverPath w2 Hargs Htoken Hbin).
  destruct (run_command h _ _ _ _) as [code out err|msg] eqn:Hrun; [|discriminate].
  destruct (bool_decide (code = 0)) eqn:Hcode; [|discriminate].
  apply bool_decide_eq_true_1 in Hcode. subst code. intros _.
  exists serverPath, (env w2), (length (List.filter Os.is_exec (trace w2))), out, err.
  split; [reflexivity | exact Hrun].
Qed.

Lemma stdio_success_is_helper_success_witness :
  ∃ environ,
    head (trace (snd (main linux_host installed_world)))
    = Some (EvExec installed_path [installed_path; "stdio"; "--read-only"] environ).
Proof.
  destruct (stdio_success_is_helper_success linux_host installed_world)
    as (serverPath & environ & n & out & err & Hhead & _).
  - reflexivity.
  - vm_compute. reflexivity.
  - exists environ. rewrite Hhead.
    assert (Hp : head (trace (snd (main linux_host installed_world)))
                 = Some (EvExec installed_path [installed_path; "stdio"; "--read-only"]
                           (<["GITHUB_PERSONAL_ACCESS_TOKEN" := "gho_sample"]>
                              {[ "HOME" := "/home/u" ]})))
      by (vm_compute; reflexivity).
    rewrite Hhead in Hp. injection Hp as -> _ ->. reflexivity.
Defined.

(** X7.  When the helper binary can be neither located nor downloaded, a
    [stdio] invocation exits with status 1 without starting the helper:
    the only child processes of the whole run are runs of
    [gh auth token]. *)
Theorem unresolved_binary_starts_no_helper (h : Host) (w w1 w2 : World)
    (token e : string) :
  Args h !! 1%nat = Some "stdio" →
  getGitHubToken h w = (Ok token, w1) →
  ensureServerBinary h (snd (Os.Setenv "GITHUB_PERSONAL_ACCESS_TOKEN" token w1))
  = (Err e, w2) →
  fst (main h w) = 1
  ∧ ∃ new, trace (snd (main h w)) = new ++ trace w
           ∧ forallb gh_or_no_exec new = true.
Proof.
  intros Hargs Htoken Hbin.
  rewrite (main_stdio_unresolved h w token w1 e w2 Hargs Htoken Hbin).
  split; [reflexivity|]. cbn [snd trace].
  destruct (adds_ensureServerBinary h
              (snd (Os.Setenv "GITHUB_PERSONAL_ACCESS_TOKEN" token w1)))
    as (new & Hnew & Hall).
  rewrite Hbin in Hnew. cbn [snd] in Hnew.
  rewrite (quiet_Setenv _ _ w1) in Hnew.
  pose proof (getGitHubToken_world h w) as Hw. rewrite Htoken in Hw. cbn [snd] in Hw.
  subst w1. cbn [trace] in Hnew.
  exists (EvStderr ("Error with server binary: " +:+ e +:+ nl)
          :: new ++ [EvExec "gh" ["gh"; "auth"; "token"] (env w)]).
  split.
  - rewrite Hnew. cbn [app]. rewrite <- app_assoc. reflexivity.
  - cbn [forallb]. rewrite forallb_app, Hall. reflexivity.
Qed.

Lemma unresolved_binary_starts_no_helper_witness :
  fst (main linux_host empty_world) = 1.
Proof.
  refine (proj1 (unresolved_binary_starts_no_helper linux_host empty_world
                   (snd (getGitHubToken linux_host empty_world))
                   (snd (ensureServerBinary linux_host
                           (snd (Os.Setenv "GITHUB_PERSONAL_ACCESS_TOKEN" "gho_sample"
                                   (snd (getGitHubToken linux_host empty_world))))))
                   "gho_sample"
                   ("failed to download server binary: failed to get latest release info: "
                    +:+ "dial tcp: no route to host")
                   eq_refl _ _)).
  - vm_compute. reflexivity.
  - vm_compute. reflexivity.
Defined.

(** ** More on the extractors *)

Section extract_more.
Context (h : Host).

Lemma find_all_miss {A} (f : A → bool) (l : list A) :
  Forall (λ x, f x = false) l → List.find f l = None.
Proof. induction 1 as [|x l Hx _ IH]; simpl; [reflexivity | rewrite Hx; exact IH]. Qed.

(** The common end of both extractors: create the target, copy the
    entry. *)
Lemma create_then_copy targetPath src w :
  is_ok (fst (Os.Create h targetPath w)) = true →
  ∃ mode,
    (let* r := Os.Create h targetPath in
     match r with
     | Err e => ret (Err e)
     | Ok dst => Os.Copy dst src
     end) w
    = (match streamErr src with Some e => Err e | None => Ok tt end,
       Os.with_fs w (<[Filepath.Clean targetPath := File (streamBytes src) mode]> (fs w))).
Proof.
  intros Hcreate. destruct (Create_ok h targetPath w Hcreate) as (_ & _ & m & HC & _).
  exists m. unfold bind. rewrite HC. unfold Os.Copy, Os.with_fs. cbn [fs env trace].
  rewrite alter_insert_eq. reflexivity.
Qed.

Lemma extractFromTar_prepend pre tr targetPath w :
  Forall (λ entry, binary_tar_entry entry = false) pre →
  extractFromTar h (tar_prepend pre tr) targetPath w = extractFromTar h tr targetPath w.
Proof.
  induction 1 as [|[[name flag] data] pre Hentry _ IH]; [reflexivity|].
  cbn [tar_prepend extractFromTar]. unfold binary_tar_entry in Hentry.
  cbn [fst snd] in Hentry. rewrite Hentry. exact IH.
Qed.

End extract_more.

(** X8.  When no entry of the zip archive has the helper's base name in
    its name without being a directory entry (name ending in a slash),
    extractFromZip returns "binary not found in zip"; when the first such
    entry cannot be opened, it returns that error.  In both cases the
    world is left as it was: the target is neither created nor
    truncated. *)
Theorem extractFromZip_not_found (h : Host) (w : World)
    (zipPath targetPath : string) (bytes : list byte) (reader : list ZipFile) :
  Os.read_file (fs w) zipPath = Ok bytes →
  zip_read h bytes = Ok reader →
  (Forall (λ file, binary_entry file = false) reader →
   extractFromZip h zipPath targetPath w = (Err "binary not found in zip", w))
  ∧ (∀ pre binaryFile post e,
       reader = pre ++ binaryFile :: post →
       Forall (λ file, binary_entry file = false) pre →
       binary_entry binaryFile = true →
       zipOpen binaryFile = Err e →
       extractFromZip h zipPath targetPath w = (Err e, w)).
Proof.
  intros Hread Hdec. split.
  - intros Hnone. unfold extractFromZip, bind, get_fs, ret. rewrite Hread, Hdec.
    rewrite (find_all_miss _ _ Hnone). reflexivity.
  - intros pre binaryFile post e -> Hpre Hentry Hopen.
    unfold extractFromZip, bind, get_fs, ret. rewrite Hread, Hdec.
    rewrite (find_after_misses binary_entry pre post binaryFile Hpre Hentry), Hopen.
    reflexivity.
Qed.

Lemma extractFromZip_not_found_witness :
  extractFromZip (unpack_host (Ok zip_without_helper) (Err "gzip: invalid header"))
    "/tmp/github-mcp-server-1234567" "/data/bin/github-mcp-server" download_world
  = (Err "binary not found in zip", download_world).
Proof.
  refine (proj1 (extractFromZip_not_found
                   (unpack_host (Ok zip_without_helper) (Err "gzip: invalid header"))
                   download_world "/tmp/github-mcp-server-1234567"
                   "/data/bin/github-mcp-server" archive_bytes zip_without_helper _ _) _).
  - vm_compute. reflexivity.
  - reflexivity.
  - repeat constructor.
Defined.

(** X9.  Round trip through the tar.gz extractor.  When the downloaded
    file decodes as a tar stream whose first regular-file entry with the
    helper's base name in its name reads without error, and the target can
    be created, then extractFromTarGz leaves at the target a file with
    exactly that entry's bytes, and the install step returns the target
    path with mode 0755, every other path being as before. *)
Theorem extractFromTarGz_round_trip (h : Host) (w : World)
    (assetURL tarPath targetPath : string) (bytes : list byte)
    (pre : list (string * Typeflag * Stream)) (name : string) (data : Stream)
    (rest : TarStream) :
  Strings.HasSuffix assetURL ".zip" = false →
  Strings.HasSuffix assetURL ".tar.gz" = true →
  Os.read_file (fs w) tarPath = Ok bytes →
  targz_read h bytes = Ok (tar_prepend pre (TarEntry name TypeReg data rest)) →
  Forall (λ entry, binary_tar_entry entry = false) pre →
  Strings.Contains name "github-mcp-server" = true →
  streamErr data = None →
  Filepath.Clean tarPath ≠ Filepath.Clean targetPath →
  is_ok (fst (Os.Create h targetPath w)) = true →
  (∃ mode,
     extractFromTarGz h tarPath targetPath w
     = (Ok tt,
        Os.with_fs w (<[Filepath.Clean targetPath := File (streamBytes data) mode]> (fs w))))
  ∧ installFrom h assetURL tarPath targetPath w
    = (Ok targetPath,
       Os.with_fs w (<[Filepath.Clean targetPath := File (streamBytes data) 493]> (fs w))).
Proof.
  intros Hzip Htgz Hread Hdec Hpre Hname Hnoerr _ Hcreate.
  destruct (Create_ok h targetPath w Hcreate) as (Hr & Hfree & _).
  destruct (create_then_copy h targetPath data w Hcreate) as [mode Hcc].
  rewrite Hnoerr in Hcc.
  assert (Hx : extractFromTarGz h tarPath targetPath w
               = (Ok tt,
                  Os.with_fs w (<[Filepath.Clean targetPath := File (streamBytes data) mode]>
                                  (fs w)))).
  { unfold extractFromTarGz. unfold bind at 1. unfold get_fs at 1. cbv beta iota zeta.
    rewrite Hread, Hdec, (extractFromTar_prepend h pre _ targetPath w Hpre).
    cbn [extractFromTar is_TypeReg]. rewrite Hname. cbn [andb]. exact Hcc. }
  split; [exists mode; exact Hx|].
  unfold installFrom. unfold bind at 1. rewrite Hzip, Htgz, Hx.
  unfold bind at 1. rewrite (chmod_after_write targetPath _ mode w Hr Hfree).
  reflexivity.
Qed.

Lemma extractFromTarGz_round_trip_witness :
  ∃ w',
    installFrom (unpack_host (Err "zip: not a valid zip file") (Ok tar_with_helper))
      "https://example.invalid/server_Linux_x86_64.tar.gz"
      "/tmp/github-mcp-server-1234567" "/data/bin/github-mcp-server" download_world
    = (Ok "/data/bin/github-mcp-server", w')
    ∧ fs w' !! "/data/bin/github-mcp-server" = Some (File helper_bytes 493).
Proof.
  destruct (extractFromTarGz_round_trip
              (unpack_host (Err "zip: not a valid zip file") (Ok tar_with_helper))
              download_world "https://example.invalid/server_Linux_x86_64.tar.gz"
              "/tmp/github-mcp-server-1234567" "/data/bin/github-mcp-server"
              archive_bytes
              [("README.md", TypeReg, mkStream [x68; x69] None)]
              "github-mcp-server" (mkStream helper_bytes None) TarEOF)
    as [_ Hi].
  - reflexivity.
  - reflexivity.
  - vm_compute. reflexivity.
  - reflexivity.
  - repeat constructor.
  - reflexivity.
  - reflexivity.
  - vm_compute. discriminate.
  - vm_compute. reflexivity.
  - eexists. split; [exact Hi|]. vm_compute. reflexivity.
Defined.

(** X10.  A read error in the middle of the helper's zip entry is not
    repaired: extractFromZip has by then created or truncated the target,
    so it leaves there a file holding the bytes read before the error,
    returns the error, and the install step stops without setting the
    mode.  All other paths are as before. *)
Theorem extractFromZip_partial_write (h : Host) (w : World)
    (assetURL zipPath targetPath : string) (bytes : list byte)
    (pre post : list ZipFile) (binaryFile : ZipFile) (src : Stream) (e : string) :
  Strings.HasSuffix assetURL ".zip" = true →
  Os.read_file (fs w) zipPath = Ok bytes →
  zip_read h bytes = Ok (pre ++ binaryFile :: post) →
  Forall (λ file, binary_entry file = false) pre →
  binary_entry binaryFile = true →
  zipOpen binaryFile = Ok src →
  streamErr src = Some e →
  Filepath.Clean zipPath ≠ Filepath.Clean targetPath →
  is_ok (fst (Os.Create h targetPath w)) = true →
  ∃ mode,
    extractFromZip h zipPath targetPath w
    = (Err e,
       Os.with_fs w (<[Filepath.Clean targetPath := File (streamBytes src) mode]> (fs w)))
    ∧ installFrom h assetURL zipPath targetPath w
      = (Err ("failed to extract binary: " +:+ e),
         Os.with_fs w (<[Filepath.Clean targetPath := File (streamBytes src) mode]> (fs w)))
    ∧ (∀ content perm, fs w !! Filepath.Clean targetPath = Some (File content perm) →
         mode = perm).
Proof.
  intros Hzip Hread Hdec Hpre Hentry Hopen Herr _ Hcreate.
  destruct (create_then_copy h targetPath src w Hcreate) as [mode Hcc].
  rewrite Herr in Hcc. exists mode.
  assert (Hx : extractFromZip h zipPath targetPath w
               = (Err e,
                  Os.with_fs w (<[Filepath.Clean targetPath := File (streamBytes src) mode]>
                                  (fs w)))).
  { unfold extractFromZip. unfold bind at 1. unfold get_fs at 1. cbv beta iota zeta.
    rewrite Hread, Hdec.
    rewrite (find_after_misses binary_entry pre post binaryFile Hpre Hentry), Hopen.
    exact Hcc. }
  split; [exact Hx|]. split.
  - unfold installFrom. unfold bind at 1. rewrite Hzip, Hx. reflexivity.
  - intros content perm Hold. revert Hcc. unfold bind.
    destruct (Create_ok h targetPath w Hcreate) as (_ & _ & m & HC & Hm).
    rewrite HC. unfold Os.Copy. rewrite Herr.
    unfold Os.with_fs. cbn [fs env trace]. rewrite alter_insert_eq.
    intros [= Hf]. apply (f_equal (λ m, m !! Filepath.Clean targetPath)) in Hf.
    rewrite !lookup_insert_eq in Hf. cbn [Os.append_bytes] in Hf.
    rewrite <- (Hm content perm Hold). congruence.
Qed.

Lemma extractFromZip_partial_write_witness :
  ∃ mode,
    installFrom (unpack_host (Ok zip_truncated) (Err "gzip: invalid header"))
      "https://example.invalid/server_Linux_x86_64.zip"
      "/tmp/github-mcp-server-1234567" "/data/bin/github-mcp-server" download_world
    = (Err "failed to extract binary: unexpected EOF",
       Os.with_fs download_world
         (<["/data/bin/github-mcp-server" := File [x7f; x45] mode]> download_fs)).
Proof.
  destruct (extractFromZip_partial_write
              (unpack_host (Ok zip_truncated) (Err "gzip: invalid header"))
              download_world "https://example.invalid/server_Linux_x86_64.zip"
              "/tmp/github-mcp-server-1234567" "/data/bin/github-mcp-server"
              archive_bytes [] []
              (mkZipFile "github-mcp-server"
                 (Ok (mkStream [x7f; x45] (Some "unexpected EOF"))))
              (mkStream [x7f; x45] (Some "unexpected EOF")) "unexpected EOF")
    as (mode & _ & Hi & _).
  - reflexivity.
  - vm_compute. reflexivity.
  - reflexivity.
  - constructor.
  - reflexivity.
  - reflexivity.
  - reflexivity.
  - vm_compute. discriminate.
  - vm_compute. reflexivity.
  - exists mode. exact Hi.
Defined.

(** X11.  An asset whose URL ends neither in .zip nor in .tar.gz is taken
    to be the helper itself: when the rename succeeds, the install step
    moves the downloaded file to the target path, bytes unchanged, sets
    its mode to 0755 and returns the target path; the temporary path no
    longer exists and every other path is as before. *)
Theorem installFrom_plain_binary (h : Host) (w : World)
    (assetURL tmpName targetPath : string) (content : list byte) (perm : Z) :
  Strings.HasSuffix assetURL ".zip" = false →
  Strings.HasSuffix assetURL ".tar.gz" = false →
  Os.stat (fs w) tmpName = Some (File content perm) →
  is_ok (fst (Os.Rename tmpName targetPath w)) = true →
  Filepath.Clean tmpName ≠ Filepath.Clean targetPath →
  ∃ w',
    installFrom h assetURL tmpName targetPath w = (Ok targetPath, w')
    ∧ fs w' !! Filepath.Clean targetPath = Some (File content 493)
    ∧ fs w' !! Filepath.Clean tmpName = None
    ∧ (∀ k, k ≠ Filepath.Clean targetPath → k ≠ Filepath.Clean tmpName →
         fs w' !! k = fs w !! k)
    ∧ env w' = env w ∧ trace w' = trace w.
Proof.
  intros Hzip Htgz Hstat Hrename Hkeys.
  apply stat_file in Hstat.
  destruct (Rename_ok tmpName targetPath w Hrename) as (c & m & Hold & Hnew & Hfree & Hr).
  rewrite Hstat in Hold. injection Hold as <- <-.
  assert (Hkept : dirs_kept (fs w) (delete (Filepath.Clean tmpName) (fs w))).
  { apply dirs_kept_delete. congruence. }
  assert (Hfree' : ∀ m', delete (Filepath.Clean tmpName) (fs w) !! Filepath.Clean targetPath
                         ≠ Some (Dir m')).
  { intros m'. rewrite lookup_delete_ne by congruence. apply Hfree. }
  eexists. unfold installFrom. unfold bind at 1. rewrite Hzip, Htgz, Hr.
  unfold bind at 1.
  pose proof (chmod_after_write targetPath content perm
                (Os.with_fs w (delete (Filepath.Clean tmpName) (fs w)))
                (resolve_dirs_kept _ _ _ _ Hkept Hnew) Hfree') as Hch.
  unfold Os.with_fs in *. cbn [fs env trace] in *. rewrite Hch.
  split; [reflexivity|]. cbn [fs env trace].
  split; [apply lookup_insert_eq|]. split; [|split; [|split; reflexivity]].
  - rewrite lookup_insert_ne by congruence. apply lookup_delete_eq.
  - intros k Hk1 Hk2. rewrite lookup_insert_ne by congruence.
    apply lookup_delete_ne. congruence.
Qed.

Lemma installFrom_plain_binary_witness :
  ∃ w',
    installFrom archive_host "https://example.invalid/github-mcp-server-linux-amd64"
      "/tmp/github-mcp-server-1234567" "/data/bin/github-mcp-server" download_world
    = (Ok "/data/bin/github-mcp-server", w')
    ∧ fs w' !! "/data/bin/github-mcp-server" = Some (File archive_bytes 493)
    ∧ fs w' !! "/tmp/github-mcp-server-1234567" = None.
Proof.
  destruct (installFrom_plain_binary archive_host download_world
              "https://example.invalid/github-mcp-server-linux-amd64"
              "/tmp/github-mcp-server-1234567" "/data/bin/github-mcp-server"
              archive_bytes 384)
    as (w' & Hi & Ht & Htmp & _).
  - reflexivity.
  - reflexivity.
  - vm_compute. reflexivity.
  - vm_compute. reflexivity.
  - vm_compute. discriminate.
  - exists w'. split; [exact Hi|]. split; [exact Ht | exact Htmp].
Defined.

(** ** Directories stay *)

Section dirs.
Context (h : Host).

Lemma keeps_dirs_ret {A} (a : A) : keeps_dirs (ret a).
Proof. intros w. apply dirs_kept_refl. Qed.

Lemma keeps_dirs_bind {A B} (m : M A) (k : A → M B) :
  keeps_dirs m → (∀ a, keeps_dirs (k a)) → keeps_dirs (let* x := m in k x).
Proof.
  intros Hm Hk w. unfold bind. specialize (Hm w).
  destruct (m w) as [a w1]. cbn [snd] in Hm.
  eapply dirs_kept_trans; [exact Hm | apply Hk].
Qed.

Lemma keeps_dirs_Create name : keeps_dirs (Os.Create h name).
Proof.
  intros w. unfold Os.Create.
  repeat case_match; cbn [snd Os.with_fs fs]; try apply dirs_kept_refl;
    apply dirs_kept_insert; congruence.
Qed.

Lemma keeps_dirs_Copy dst src : keeps_dirs (Os.Copy dst src).
Proof.
  intros w. unfold Os.Copy. cbn [snd Os.with_fs fs].
  apply dirs_kept_alter. intros m. exists m. reflexivity.
Qed.

Lemma keeps_dirs_Chmod name mode : keeps_dirs (Os.Chmod name mode).
Proof.
  intros w. unfold Os.Chmod. repeat case_match; cbn [snd Os.with_fs fs];
    try apply dirs_kept_refl.
  apply dirs_kept_alter. intros m. exists mode. reflexivity.
Qed.

Lemma keeps_dirs_Rename oldpath newpath : keeps_dirs (Os.Rename oldpath newpath).
Proof.
  intros w. destruct (is_ok (fst (Os.Rename oldpath newpath w))) eqn:Hok.
  - destruct (Rename_ok oldpath newpath w Hok) as (c & m & Hold & _ & Hfree & ->).
    cbn [snd Os.with_fs fs].
    eapply dirs_kept_trans;
      [apply (dirs_kept_delete _ (Filepath.Clean oldpath)); congruence|].
    apply dirs_kept_insert. intros m'.
    destruct (decide (Filepath.Clean newpath = Filepath.Clean oldpath)) as [E|E];
      [rewrite E, lookup_delete_eq; discriminate
      |rewrite lookup_delete_ne by congruence; apply Hfree].
  - assert (Hw : snd (Os.Rename oldpath newpath w) = w).
    { revert Hok. unfold Os.Rename. repeat case_match; cbn; congruence. }
    rewrite Hw. apply dirs_kept_refl.
Qed.

Lemma keeps_dirs_write targetPath src :
  keeps_dirs (let* r := Os.Create h targetPath in
              match r with
              | Err e => ret (Err e)
              | Ok dst => Os.Copy dst src
              end).
Proof.
  apply keeps_dirs_bind; [apply keeps_dirs_Create|].
  intros [dst|e]; [apply keeps_dirs_Copy | apply keeps_dirs_ret].
Qed.

Lemma keeps_dirs_extractFromZip zipPath targetPath :
  keeps_dirs (extractFromZip h zipPath targetPath).
Proof.
  unfold extractFromZip. apply keeps_dirs_bind; [intros w; apply dirs_kept_refl|].
  intros files. repeat case_match; try apply keeps_dirs_ret. apply keeps_dirs_write.
Qed.

Lemma keeps_dirs_extractFromTar tr targetPath :
  keeps_dirs (extractFromTar h tr targetPath).
Proof.
  induction tr as [|msg|name flag data rest IH]; cbn [extractFromTar];
    try apply keeps_dirs_ret.
  case_match; [apply keeps_dirs_write | exact IH].
Qed.

Lemma keeps_dirs_extractFromTarGz tarPath targetPath :
  keeps_dirs (extractFromTarGz h tarPath targetPath).
Proof.
  unfold extractFromTarGz. apply keeps_dirs_bind; [intros w; apply dirs_kept_refl|].
  intros files. repeat case_match; try apply keeps_dirs_ret.
  apply keeps_dirs_extractFromTar.
Qed.

Lemma keeps_dirs_installFrom assetURL tmpName targetPath :
  keeps_dirs (installFrom h assetURL tmpName targetPath).
Proof.
  unfold installFrom. apply keeps_dirs_bind.
  - repeat case_match;
      [apply keeps_dirs_extractFromZip | apply keeps_dirs_extractFromTarGz
      | apply keeps_dirs_Rename].
  - intros [u|e]; [|apply keeps_dirs_ret].
    apply keeps_dirs_bind; [apply keeps_dirs_Chmod|].
    intros [u'|e]; apply keeps_dirs_ret.
Qed.

(** Removing what is not a directory. *)
Lemma Remove_dirs_kept name w :
  (∀ m, fs w !! Filepath.Clean name ≠ Some (Dir m)) →
  dirs_kept (fs w) (fs (snd (Os.Remove name w))).
Proof.
  intros Hk. unfold Os.Remove.
  destruct (Os.resolve (fs w) name) as [k|e] eqn:Hr; [|apply dirs_kept_refl].
  destruct (resolve_Clean _ _ _ Hr) as [-> _].
  destruct (fs w !! Filepath.Clean name) as [[c m|m]|] eqn:Hn;
    [| |apply dirs_kept_refl].
  - cbn [snd Os.with_fs fs]. apply dirs_kept_delete. congruence.
  - destruct (Hk m eq_refl).
Qed.

End dirs.

(** ** What a download writes *)

Section suffixes.

Lemma append_empty_r (s : string) : s +:+ "" = s.
Proof.
  induction s as [|c s IH]; [reflexivity|].
  change (String c s +:+ "") with (String c (s +:+ "")). rewrite IH. reflexivity.
Qed.

Lemma HasSuffix_slash_cons (c : ascii) (s : string) :
  s ≠ "" → Strings.HasSuffix (String c s) "/" = Strings.HasSuffix s "/".
Proof.
  intros Hs. destruct s as [|c' s']; [congruence|].
  unfold Strings.HasSuffix. cbn [String.length]. cbn [Nat.leb Nat.sub andb].
  rewrite Nat.sub_0_r. reflexivity.
Qed.

Lemma HasSuffix_slash_app (a b : string) :
  b ≠ "" → Strings.HasSuffix (a +:+ b) "/" = Strings.HasSuffix b "/".
Proof.
  intros Hb. induction a as [|c a IH]; [reflexivity|].
  change (String c a +:+ b) with (String c (a +:+ b)).
  rewrite HasSuffix_slash_cons; [exact IH|].
  destruct a; [exact Hb | discriminate].
Qed.

End suffixes.

Section download_effect.
Context (h : Host).

Lemma extensionDataDir_env w w' :
  env w' = env w → extensionDataDir h w' = extensionDataDir h w.
Proof.
  intros He. unfold extensionDataDir, getenv, Os.UserHomeDir, bind, ret, Os.Getenv.
  cbv beta iota zeta. rewrite He.
  repeat match goal with |- context [bool_decide ?P] => destruct (bool_decide P) end;
    reflexivity.
Qed.

Lemma Create_err name w e w' : Os.Create h name w = (Err e, w') → w' = w.
Proof. unfold Os.Create. repeat case_match; congruence. Qed.

(** Creating the target and copying into it touches the target only, and
    leaves a regular file there when it succeeds. *)
Lemma write_target_effect targetPath src w :
  let res := (let* r := Os.Create h targetPath in
              match r with
              | Err e => ret (Err e)
              | Ok dst => Os.Copy dst src
              end) w in
  (∀ k, k ≠ Filepath.Clean targetPath → fs (snd res) !! k = fs w !! k)
  ∧ (is_ok (fst res) = true →
     ∃ c m, fs (snd res) !! Filepath.Clean targetPath = Some (File c m)).
Proof.
  cbv zeta. destruct (is_ok (fst (Os.Create h targetPath w))) eqn:Hc.
  - destruct (create_then_copy h targetPath src w Hc) as [mode ->]. cbn [fst snd].
    unfold Os.with_fs. cbn [fs]. split.
    + intros k Hk. apply lookup_insert_ne. congruence.
    + intros _. eexists _, _. apply lookup_insert_eq.
  - unfold bind. destruct (Os.Create h targetPath w) as [[dst|e] w1] eqn:HC;
      [discriminate|]. apply Create_err in HC. subst w1. cbn. split; [reflexivity|discriminate].
Qed.

Lemma extractFromZip_effect zipPath targetPath w :
  (∀ k, k ≠ Filepath.Clean targetPath →
        fs (snd (extractFromZip h zipPath targetPath w)) !! k = fs w !! k)
  ∧ (is_ok (fst (extractFromZip h zipPath targetPath w)) = true →
     ∃ c m, fs (snd (extractFromZip h zipPath targetPath w)) !! Filepath.Clean targetPath
            = Some (File c m)).
Proof.
  unfold extractFromZip. unfold bind at 1 3 5. unfold get_fs. cbv beta iota zeta.
  destruct (Os.read_file (fs w) zipPath) as [bytes|e];
    [|cbn; split; [reflexivity|discriminate]].
  destruct (zip_read h bytes) as [reader|e]; [|cbn; split; [reflexivity|discriminate]].
  destruct (List.find binary_entry reader) as [binaryFile|];
    [|cbn; split; [reflexivity|discriminate]].
  destruct (zipOpen binaryFile) as [src|e]; [|cbn; split; [reflexivity|discriminate]].
  apply write_target_effect.
Qed.

Lemma extractFromTar_effect tr targetPath w :
  (∀ k, k ≠ Filepath.Clean targetPath →
        fs (snd (extractFromTar h tr targetPath w)) !! k = fs w !! k)
  ∧ (is_ok (fst (extractFromTar h tr targetPath w)) = true →
     ∃ c m, fs (snd (extractFromTar h tr targetPath w)) !! Filepath.Clean targetPath
            = Some (File c m)).
Proof.
  induction tr as [|e|name flag data rest IH]; cbn [extractFromTar].
  - cbn. split; [reflexivity|discriminate].
  - cbn. split; [reflexivity|discriminate].
  - destruct (Strings.Contains name "github-mcp-server" && is_TypeReg flag);
      [apply write_target_effect | exact IH].
Qed.

Lemma extractFromTarGz_effect tarPath targetPath w :
  (∀ k, k ≠ Filepath.Clean targetPath →
        fs (snd (extractFromTarGz h tarPath targetPath w)) !! k = fs w !! k)
  ∧ (is_ok (fst (extractFromTarGz h tarPath targetPath w)) = true →
     ∃ c m, fs (snd (extractFromTarGz h tarPath targetPath w)) !! Filepath.Clean targetPath
            = Some (File c m)).
Proof.
  unfold extractFromTarGz. unfold bind, get_fs. cbv beta iota zeta.
  destruct (Os.read_file (fs w) tarPath) as [bytes|e];
    [|cbn; split; [reflexivity|discriminate]].
  destruct (targz_read h bytes) as [tr|e]; [|cbn; split; [reflexivity|discriminate]].
  apply extractFromTar_effect.
Qed.

(** A rename touches its two paths only: the old one is gone, the new one
    is a regular file. *)
Lemma Rename_effect oldpath newpath w :
  (∀ k, k ≠ Filepath.Clean newpath →
        fs (snd (Os.Rename oldpath newpath w)) !! k = fs w !! k
        ∨ (k = Filepath.Clean oldpath ∧ fs (snd (Os.Rename oldpath newpath w)) !! k = None))
  ∧ (is_ok (fst (Os.Rename oldpath newpath w)) = true →
     ∃ c m, fs (snd (Os.Rename oldpath newpath w)) !! Filepath.Clean newpath
            = Some (File c m)).
Proof.
  assert (Hmove : ∀ c m,
    let f' := <[Filepath.Clean newpath := File c m]> (delete (Filepath.Clean oldpath) (fs w)) in
    (∀ k, k ≠ Filepath.Clean newpath →
          f' !! k = fs w !! k ∨ (k = Filepath.Clean oldpath ∧ f' !! k = None))
    ∧ (∃ c' m', f' !! Filepath.Clean newpath = Some (File c' m'))).
  { intros c m. cbv zeta. split.
    - intros k Hk. rewrite lookup_insert_ne by congruence.
      destruct (decide (k = Filepath.Clean oldpath)) as [->|Hne].
      + right. split; [reflexivity | apply lookup_delete_eq].
      + left. apply lookup_delete_ne. congruence.
    - eexists _, _. apply lookup_insert_eq. }
  destruct (is_ok (fst (Os.Rename oldpath newpath w))) eqn:Hok.
  - destruct (Rename_ok oldpath newpath w Hok) as (c & m & _ & _ & _ & ->).
    cbn [fst snd is_ok]. unfold Os.with_fs. cbn [fs].
    split; [apply (Hmove c m) | intros _; apply (Hmove c m)].
  - assert (Hw : snd (Os.Rename oldpath newpath w) = w).
    { revert Hok. unfold Os.Rename. repeat case_match; cbn; congruence. }
    rewrite Hw. split; [intros; left; reflexivity | discriminate].
Qed.

Lemma Chmod_effect name mode w :
  (∀ k, k ≠ Filepath.Clean name → fs (snd (Os.Chmod name mode w)) !! k = fs w !! k)
  ∧ (∀ c m, fs w !! Filepath.Clean name = Some (File c m) →
            is_ok (fst (Os.Chmod name mode w)) = true →
            fs (snd (Os.Chmod name mode w)) !! Filepath.Clean name = Some (File c mode)).
Proof.
  unfold Os.Chmod.
  destruct (Os.resolve (fs w) name) as [k|e] eqn:Hr;
    [|cbn [fst snd is_ok]; split; [reflexivity | discriminate]].
  destruct (resolve_Clean _ _ _ Hr) as [-> _].
  destruct (fs w !! Filepath.Clean name) as [n|] eqn:Hn; cbn [fst snd is_ok].
  - unfold Os.with_fs. cbn [fs]. split.
    + intros k Hk. apply lookup_alter_ne. congruence.
    + intros c m Hf _. injection Hf as ->. rewrite lookup_alter_eq, Hn. reflexivity.
  - split; [reflexivity | discriminate].
Qed.

(** The install step: outside the target only the temporary file may
    change, by disappearing; on success the target is a regular file with
    mode 0755. *)
Lemma installFrom_effect assetURL tmpName targetPath w :
  (∀ k, k ≠ Filepath.Clean targetPath →
        fs (snd (installFrom h assetURL tmpName targetPath w)) !! k = fs w !! k
        ∨ (k = Filepath.Clean tmpName
           ∧ fs (snd (installFrom h assetURL tmpName targetPath w)) !! k = None))
  ∧ (∀ p, fst (installFrom h assetURL tmpName targetPath w) = Ok p →
          p = targetPath
          ∧ ∃ c, fs (snd (installFrom h assetURL tmpName targetPath w))
                   !! Filepath.Clean targetPath = Some (File c 493)).
Proof.
  remember (installFrom h assetURL tmpName targetPath w) as res eqn:E.
  unfold installFrom in E. unfold bind at 1 in E.
  assert (Hx : ∀ x,
    x = (if Strings.HasSuffix assetURL ".zip" then extractFromZip h tmpName targetPath
         else if Strings.HasSuffix assetURL ".tar.gz"
              then extractFromTarGz h tmpName targetPath
              else Os.Rename tmpName targetPath) w →
    (∀ k, k ≠ Filepath.Clean targetPath →
          fs (snd x) !! k = fs w !! k ∨ (k = Filepath.Clean tmpName ∧ fs (snd x) !! k = None))
    ∧ (is_ok (fst x) = true →
       ∃ c m, fs (snd x) !! Filepath.Clean targetPath = Some (File c m))).
  { intros x ->. destruct (Strings.HasSuffix assetURL ".zip").
    - destruct (extractFromZip_effect tmpName targetPath w) as [H1 H2].
      split; [intros k Hk; left; apply H1, Hk | exact H2].
    - destruct (Strings.HasSuffix assetURL ".tar.gz").
      + destruct (extractFromTarGz_effect tmpName targetPath w) as [H1 H2].
        split; [intros k Hk; left; apply H1, Hk | exact H2].
      + apply Rename_effect. }
  match type of E with
  | _ = (let '(a, w') := ?X in _) =>
      specialize (Hx X eq_refl); destruct X as [[u|e] w1]
  end.
  - cbn [fst snd is_ok] in Hx. destruct Hx as [Hframe Hfile].
    destruct (Hfile eq_refl) as (c & m & Hc).
    unfold bind at 1 in E.
    destruct (Chmod_effect targetPath 493 w1) as [Hk1 Hk2]. specialize (Hk2 c m Hc).
    destruct (Os.Chmod targetPath 493 w1) as [[u'|e'] w2]; cbn [fst snd is_ok] in *;
      subst res; cbn [fst snd ret].
    + split.
      * intros k Hk. rewrite (Hk1 k Hk). apply Hframe, Hk.
      * intros p [= <-]. split; [reflexivity|]. exists c. apply Hk2. reflexivity.
    + split; [|discriminate]. intros k Hk. rewrite (Hk1 k Hk). apply Hframe, Hk.
  - subst res. cbn [fst snd ret] in *. split; [apply Hx | discriminate].
Qed.

Lemma CreateTemp_effect w :
  env (snd (Os.CreateTemp h "" "github-mcp-server-" "" w)) = env w
  ∧ trace (snd (Os.CreateTemp h "" "github-mcp-server-" "" w)) = trace w
  ∧ match fst (Os.CreateTemp h "" "github-mcp-server-" "" w) with
    | Err _ => fs (snd (Os.CreateTemp h "" "github-mcp-server-" "" w)) = fs w
    | Ok name =>
        name = tempName h w
        ∧ Os.resolve (fs w) name = Ok (Filepath.Clean name)
        ∧ fs w !! Filepath.Clean name = None
        ∧ ∃ m, fs (snd (Os.CreateTemp h "" "github-mcp-server-" "" w))
               = <[Filepath.Clean name := File [] m]> (fs w)
    end.
Proof.
  unfold Os.CreateTemp, Os.TempDir, bind, ret, Os.Getenv, tempName, getenv.
  cbv beta iota zeta. rewrite bool_decide_eq_true_2 by reflexivity.
  cbv beta iota zeta.
  set (name := (if Strings.HasSuffix _ "/" then _ else _) +:+ _).
  destruct (Os.resolve (fs w) name) as [k|e] eqn:Hr; cbn [fst snd]; [|repeat split].
  destruct (resolve_Clean _ _ _ Hr) as [-> _].
  destruct (fs w !! Filepath.Clean name) as [n|] eqn:Hfree;
    cbn [fst snd env fs trace Os.with_fs]; repeat split; eauto.
Qed.

End download_effect.
Section download_whole.
Context (h : Host).

Lemma tempName_env w w' : env w' = env w → tempName h w' = tempName h w.
Proof. intros He. unfold tempName, getenv. rewrite He. reflexivity. Qed.

Lemma Remove_effect name w :
  (∀ k, k ≠ Filepath.Clean name → fs (snd (Os.Remove name w)) !! k = fs w !! k)
  ∧ (Os.resolve (fs w) name = Ok (Filepath.Clean name) →
     (∃ c m, fs w !! Filepath.Clean name = Some (File c m))
     ∨ fs w !! Filepath.Clean name = None →
     fs (snd (Os.Remove name w)) !! Filepath.Clean name = None).
Proof.
  unfold Os.Remove. split.
  - intros k Hk. destruct (Os.resolve (fs w) name) as [k'|e] eqn:Hr; [|reflexivity].
    destruct (resolve_Clean _ _ _ Hr) as [-> _].
    repeat case_match; cbn [snd Os.with_fs fs]; try reflexivity;
      apply lookup_delete_ne; congruence.
  - intros -> Hfile.
    destruct Hfile as [(c & m & Hf)|Hf]; rewrite Hf; cbn [snd Os.with_fs fs].
    + apply lookup_delete_eq.
    + exact Hf.
Qed.

(** What saving the body and installing it does to the world that holds
    the fresh temporary file. *)
Lemma save_and_install_effect assetURL tmpName targetPath body mode f w5 :
  fs w5 = <[Filepath.Clean tmpName := File [] mode]> f →
  let res := (let* r := Os.Copy (Filepath.Clean tmpName) body in
              match r with
              | Err e => ret (Err ("failed to save downloaded file: " +:+ e))
              | Ok _ => installFrom h assetURL tmpName targetPath
              end) w5 in
  (∀ k, k ≠ Filepath.Clean targetPath → k ≠ Filepath.Clean tmpName →
        fs (snd res) !! k = f !! k)
  ∧ (Filepath.Clean tmpName ≠ Filepath.Clean targetPath →
     (∃ c m, fs (snd res) !! Filepath.Clean tmpName = Some (File c m))
     ∨ fs (snd res) !! Filepath.Clean tmpName = None)
  ∧ (∀ p, fst res = Ok p →
          p = targetPath
          ∧ ∃ c, fs (snd res) !! Filepath.Clean targetPath = Some (File c 493)).
Proof.
  intros Hfs5. cbv zeta. unfold bind, Os.Copy. cbv beta iota zeta.
  set (w6 := Os.with_fs _ (alter _ _ _)).
  assert (H6 : ∀ k, k ≠ Filepath.Clean tmpName → fs w6 !! k = f !! k).
  { intros k Hk. unfold w6, Os.with_fs. cbn [fs].
    rewrite Hfs5, lookup_alter_ne, lookup_insert_ne by congruence. reflexivity. }
  assert (H6t : ∃ c m, fs w6 !! Filepath.Clean tmpName = Some (File c m)).
  { unfold w6, Os.with_fs. cbn [fs]. rewrite Hfs5, lookup_alter_eq, lookup_insert_eq.
    eexists _, _. reflexivity. }
  clearbody w6. destruct (streamErr body) as [e|].
  - cbn [fst snd ret]. split; [intros k _ Hk; apply H6, Hk|].
    split; [intros _; left; exact H6t | discriminate].
  - destruct (installFrom_effect h assetURL tmpName targetPath w6) as [Hframe Hpost].
    split; [|split].
    + intros k Hkt Hk. destruct (Hframe k Hkt) as [->|[Habs _]]; [apply H6, Hk | contradiction].
    + intros Hne. destruct (Hframe _ Hne) as [->|[_ Hnone]]; [left; exact H6t | right; exact Hnone].
    + exact Hpost.
Qed.

(** The whole download: outside the target path it leaves nothing but
    new directories (the temporary file is gone again), and when it
    succeeds the target is a regular file with mode 0755. *)
Lemma downloadServerBinary_effect w :
  (Strings.HasSuffix (temp_random h) "/" = false →
   ∀ k, k ≠ Filepath.Clean (downloadTarget h w) →
        fs (snd (downloadServerBinary h w)) !! k = fs w !! k
        ∨ (fs w !! k = None
           ∧ ∃ m, fs (snd (downloadServerBinary h w)) !! k = Some (Dir m)))
  ∧ (∀ p, fst (downloadServerBinary h w) = Ok p →
          p = downloadTarget h w
          ∧ (Filepath.Clean (tempName h w) ≠ Filepath.Clean (downloadTarget h w) →
             ∃ c, fs (snd (downloadServerBinary h w)) !! Filepath.Clean (downloadTarget h w)
                  = Some (File c 493))).
Proof.
  remember (downloadServerBinary h w) as res eqn:E.
  unfold downloadServerBinary in E. unfold bind at 1 in E.
  pose proof (env_getLatestReleaseAssetURL h w) as He1.
  pose proof (fs_getLatestReleaseAssetURL h w) as Hf1.
  destruct (getLatestReleaseAssetURL h w) as [[assetURL|e] w1]; cbn [fst snd] in *.
  2: { subst res. cbn [fst snd ret]. split; [|discriminate].
       intros _ k _. left. congruence. }
  unfold bind at 1 in E.
  destruct (getExtensionDataDir_spec h w1) as (Hd & He2 & _ & Hf2).
  destruct (getExtensionDataDir h w1) as [dataDir w2]; cbn [fst snd] in *.
  assert (HdataDir : dataDir = extensionDataDir h w).
  { rewrite Hd. apply extensionDataDir_env. exact He1. }
  unfold bind at 1 in E.
  destruct (MkdirAll_frame h (Filepath.Join [dataDir; "bin"]) 493 w2) as (He3 & _ & Hf3).
  assert (Hdirs : only_new_dirs (fs w) (fs (snd (Os.MkdirAll h (Filepath.Join [dataDir; "bin"])
                                                   493 w2)))).
  { rewrite <- Hf1. eapply only_new_dirs_trans; [exact Hf2 | exact Hf3]. }
  clear Hf2 Hf3.
  destruct (Os.MkdirAll h (Filepath.Join [dataDir; "bin"]) 493 w2) as [[u|e] w3];
    cbn [fst snd] in *.
  2: { subst res. cbn [fst snd ret]. split; [|discriminate]. intros _ k _. apply Hdirs. }
  unfold bind at 1 in E. unfold Eprint at 1, emit at 1 in E. cbv beta iota zeta in E.
  unfold bind at 1 in E. unfold Os.Do at 1 in E. cbv beta iota zeta in E.
  cbn [env fs trace] in E.
  destruct (http_do h _) as [resp|e].
  2: { subst res. cbn [fst snd ret fs]. split; [|discriminate]. intros _ k _. apply Hdirs. }
  destruct (bool_decide (StatusCode resp ≠ 200)).
  { subst res. cbn [fst snd ret fs]. split; [|discriminate]. intros _ k _. apply Hdirs. }
  unfold bind at 1 in E.
  match type of E with
  | context [Os.CreateTemp h "" "github-mcp-server-" "" ?w4] =>
      destruct (CreateTemp_effect h w4) as (_ & _ & HCT);
      assert (Hname : tempName h w4 = tempName h w)
        by (apply tempName_env; cbn [env]; congruence);
      destruct (Os.CreateTemp h "" "github-mcp-server-" "" w4) as [[tmpName|e] w5]
  end; cbn [fst snd fs] in HCT.
  2: { subst res. cbn [fst snd ret fs]. split; [|discriminate].
       intros _ k _. rewrite HCT. apply Hdirs. }
  destruct HCT as (Htmp & Hres & Hfree & mode & Hfs5). rewrite Hname in Htmp.
  unfold bind at 1 in E.
  set (target := Filepath.Join [Filepath.Join [dataDir; "bin"]; binaryName h]) in *.
  assert (Htarget : target = downloadTarget h w).
  { unfold target, downloadTarget. rewrite HdataDir. reflexivity. }
  destruct (save_and_install_effect assetURL tmpName target (Body resp) mode (fs w3) w5 Hfs5)
    as (Hother & Htk & Hpost).
  assert (H56 : dirs_kept (fs w3)
            (fs (snd ((let* r := Os.Copy (Filepath.Clean tmpName) (Body resp) in
                       match r with
                       | Ok _ => installFrom h assetURL tmpName target
                       | Err e => ret (Err ("failed to save downloaded file: " +:+ e))
                       end) w5)))).
  { apply (dirs_kept_trans _ (fs w5));
      [rewrite Hfs5; apply dirs_kept_insert; congruence|].
    apply (keeps_dirs_bind _ _ (keeps_dirs_Copy _ _)).
    intros [u'|e]; [apply keeps_dirs_installFrom | apply keeps_dirs_ret]. }
  destruct ((let* r := Os.Copy (Filepath.Clean tmpName) (Body resp) in _) w5)
    as [result w6]; cbn [fst snd] in *.
  pose proof (resolve_dirs_kept _ _ _ _ H56 Hres) as Hres6.
  destruct (Remove_effect tmpName w6) as [Hrm Hgone].
  unfold bind in E. destruct (Os.Remove tmpName w6) as [r7 w7]; cbn [fst snd ret] in *.
  subst res. unfold ret. cbn [fst snd]. rewrite <- Htarget. split.
  - intros Hrand k Hk.
    destruct (decide (k = Filepath.Clean tmpName)) as [->|Hktmp].
    + left. rewrite (Hgone Hres6 (Htk Hk)).
      destruct (Hdirs (Filepath.Clean tmpName)) as [<-|[Hnone _]]; congruence.
    + rewrite (Hrm k Hktmp), (Hother k Hk Hktmp). apply Hdirs.
  - intros p Hp. destruct (Hpost p Hp) as [-> [c Hc]]. split; [reflexivity|].
    rewrite <- Htmp. intros Hne. exists c. rewrite Hrm by congruence. exact Hc.
Qed.

End download_whole.
(** X12.  Apart from the path it installs to, downloadServerBinary
    leaves the file system as it found it, up to new directories: every
    other path holds what it held before, or was absent and is now a
    directory.  In particular the temporary file the download is saved
    to does not survive the call, whether the call succeeds or fails.
    The environment is unchanged.  (The random part of a temporary name
    never ends in a separator; Go uses decimal digits.) *)
Theorem downloadServerBinary_frame (h : Host) (w : World) (k : string) :
  Strings.HasSuffix (temp_random h) "/" = false →
  k ≠ Filepath.Clean (downloadTarget h w) →
  env (snd (downloadServerBinary h w)) = env w
  ∧ (fs (snd (downloadServerBinary h w)) !! k = fs w !! k
     ∨ (fs w !! k = None
        ∧ ∃ m, fs (snd (downloadServerBinary h w)) !! k = Some (Dir m))).
Proof.
  intros Hrand Hk. split; [apply env_downloadServerBinary|].
  apply (proj1 (downloadServerBinary_effect h w) Hrand k Hk).
Qed.

Lemma downloadServerBinary_frame_witness :
  fs (snd (downloadServerBinary release_host home_world))
    !! "/tmp/github-mcp-server-1234567"
  = fs home_world !! "/tmp/github-mcp-server-1234567"
  ∨ (fs home_world !! "/tmp/github-mcp-server-1234567" = None
     ∧ ∃ m, fs (snd (downloadServerBinary release_host home_world))
              !! "/tmp/github-mcp-server-1234567" = Some (Dir m)).
Proof.
  refine (proj2 (downloadServerBinary_frame release_host home_world
                   "/tmp/github-mcp-server-1234567" _ _)).
  - reflexivity.
  - vm_compute. discriminate.
Defined.

(** ** Where the token goes *)

Section token_requests.
Context (h : Host).

Lemma is_print_token_stays e : is_print e = true → token_stays_with_api e = true.
Proof. destruct e; simpl; congruence. Qed.

Lemma adds_Run_token_stays path argv :
  adds_only token_stays_with_api (Os.Run h path argv).
Proof. intros w. exists [EvExec path argv (env w)]. split; reflexivity. Qed.

Lemma adds_getGitHubToken_token_stays :
  adds_only token_stays_with_api (getGitHubToken h).
Proof.
  intros w. exists [EvExec "gh" ["gh"; "auth"; "token"] (env w)].
  rewrite getGitHubToken_world. split; reflexivity.
Qed.

Lemma adds_api_request header :
  adds_only token_stays_with_api (Os.Do h (mkRequest "GET" releaseAPIURL header)).
Proof.
  intros w. exists [EvHTTP (mkRequest "GET" releaseAPIURL header)].
  split; [reflexivity|]. cbn [forallb token_stays_with_api reqURL].
  rewrite bool_decide_eq_true_2 by reflexivity. rewrite orb_true_r. reflexivity.
Qed.

Lemma adds_bare_request url :
  adds_only token_stays_with_api (Os.Do h (mkRequest "GET" url [])).
Proof. intros w. exists [EvHTTP (mkRequest "GET" url [])]. split; reflexivity. Qed.

Lemma adds_getLatestReleaseAssetURL_token_stays :
  adds_only token_stays_with_api (getLatestReleaseAssetURL h).
Proof.
  unfold getLatestReleaseAssetURL. cbv zeta.
  pose proof adds_getGitHubToken_token_stays.
  pose proof (λ a, adds_only_weaken _ _ _ is_print_token_stays (adds_print_assets a)).
  pose proof (λ a, adds_only_weaken _ _ _ is_print_token_stays (adds_chooseAsset h a)).
  pose proof adds_api_request.
  adds_hyp_tac.
Qed.

Lemma adds_downloadServerBinary_token_stays :
  adds_only token_stays_with_api (downloadServerBinary h).
Proof.
  unfold downloadServerBinary.
  pose proof adds_getLatestReleaseAssetURL_token_stays.
  pose proof adds_bare_request.
  pose proof (quiet_installFrom h).
  adds_hyp_tac.
Qed.

Lemma adds_ensureServerBinary_token_stays :
  adds_only token_stays_with_api (ensureServerBinary h).
Proof.
  unfold ensureServerBinary. pose proof adds_downloadServerBinary_token_stays.
  adds_hyp_tac.
Qed.

Lemma adds_main_token_stays : adds_only token_stays_with_api (main h).
Proof.
  unfold main. cbv zeta.
  pose proof adds_getGitHubToken_token_stays.
  pose proof adds_ensureServerBinary_token_stays.
  pose proof (adds_only_weaken _ _ _ is_print_token_stays (adds_Println_all usage)).
  destruct (bool_decide (Args h !! 1%nat = Some "-v" ∨ Args h !! 1%nat = Some "--version")).
  { adds_hyp_tac. }
  destruct (bool_decide (Args h !! 1%nat = Some "stdio")).
  2: { apply adds_only_bind; [assumption | intros _; apply adds_only_ret]. }
  adds_hyp_tac; apply adds_Run_token_stays.
Qed.

End token_requests.

(** X16.  The token leaves the process in a request only towards the
    release API: of the requests a run of the launcher sends, each one
    that carries an Authorization header is addressed to the latest
    release URL of github/github-mcp-server.  The asset download itself
    is sent without any header. *)
Theorem main_sends_token_to_api_only (h : Host) (w : World) :
  ∃ new,
    trace (snd (main h w)) = new ++ trace w
    ∧ ∀ req, In (EvHTTP req) new → has_authorization req = true →
             reqURL req = releaseAPIURL.
Proof.
  destruct (adds_main_token_stays h w) as (new & Htrace & Hall).
  exists new. split; [exact Htrace|]. intros req Hin Hauth.
  rewrite forallb_forall in Hall. specialize (Hall _ Hin).
  cbn [token_stays_with_api] in Hall. rewrite Hauth in Hall. cbn [negb orb] in Hall.
  apply bool_decide_eq_true_1 in Hall. exact Hall.
Qed.

(** ** The authenticated request *)

Section authenticated.
Context (h : Host).

Lemma getGitHubToken_nonempty w token :
  fst (getGitHubToken h w) = Ok token → token ≠ "".
Proof.
  unfold getGitHubToken, bind, Os.Run, ret. cbv beta iota zeta.
  destruct (run_command h _ _ _ _) as [code out err|msg]; [|discriminate].
  destruct (bool_decide (code ≠ 0)); [discriminate|].
  destruct (bool_decide (Strings.TrimSpace (unicode h) out = "")) eqn:Hempty; [discriminate|].
  apply bool_decide_eq_false_1 in Hempty. cbn [fst]. intros [= <-]. exact Hempty.
Qed.

Lemma prints_are_not_requests (l : list Event) :
  forallb is_print l = true → List.filter is_http l = [].
Proof.
  induction l as [|e l IH]; [reflexivity|]. cbn [forallb List.filter].
  intros [He Hl]%andb_true_iff. rewrite (IH Hl). destruct e; [reflexivity..|discriminate|discriminate].
Qed.

End authenticated.

(** X17.  When gh auth token yields a token, getLatestReleaseAssetURL
    sends exactly one request: a GET of the latest-release URL with the
    User-Agent header gh-github-mcp-server/<version> and the header
    Authorization: token <token>, in this order. *)
Theorem getLatestReleaseAssetURL_authenticated (h : Host) (w : World) (token : string) :
  fst (getGitHubToken h w) = Ok token →
  ∃ new,
    trace (snd (getLatestReleaseAssetURL h w)) = new ++ trace w
    ∧ List.filter is_http new
      = [ EvHTTP (mkRequest "GET" releaseAPIURL
                    [ ("User-Agent", "gh-github-mcp-server/" +:+ version h);
                      ("Authorization", "token " +:+ token) ]) ].
Proof.
  intros Htoken. destruct (getLatestReleaseAssetURL_request h w) as (prints & Htrace & Hprints).
  rewrite Htoken in Htrace.
  rewrite bool_decide_eq_true_2 in Htrace by exact (getGitHubToken_nonempty h w token Htoken).
  eexists. split; [rewrite Htrace; apply app_assoc|].
  rewrite List.filter_app, (prints_are_not_requests prints Hprints). reflexivity.
Qed.

Lemma getLatestReleaseAssetURL_authenticated_witness :
  ∃ new,
    trace (snd (getLatestReleaseAssetURL release_host home_world)) = new ++ trace home_world
    ∧ List.filter is_http new
      = [ EvHTTP (mkRequest "GET" releaseAPIURL
                    [ ("User-Agent", "gh-github-mcp-server/dev");
                      ("Authorization", "token gho_sample") ]) ].
Proof.
  apply (getLatestReleaseAssetURL_authenticated release_host home_world "gho_sample").
  vm_compute. reflexivity.
Defined.

(** ** Joining paths *)

Section paths.

Lemma split_on_nonempty sep s : Strings.split_on sep s ≠ [].
Proof.
  destruct s as [|c s]; cbn [Strings.split_on]; [discriminate|].
  destruct (Ascii.eqb c sep); [discriminate|].
  destruct (Strings.split_on sep s); discriminate.
Qed.

Lemma split_on_app s t :
  Strings.split_on "/" (s +:+ String "/" t)
  = Strings.split_on "/" s ++ Strings.split_on "/" t.
Proof.
  induction s as [|c s IH]; [reflexivity|].
  change (String c s +:+ String "/" t) with (String c (s +:+ String "/" t)).
  cbn [Strings.split_on]. rewrite IH. destruct (Ascii.eqb c "/"); [reflexivity|].
  destruct (Strings.split_on "/" s) as [|w ws] eqn:E; [|reflexivity].
  exfalso. exact (split_on_nonempty _ _ E).
Qed.

Lemma split_on_components s :
  Forall (λ c, Strings.split_on "/" c = [c]) (Strings.split_on "/" s).
Proof.
  induction s as [|c s IH]; cbn [Strings.split_on].
  - constructor; [reflexivity | constructor].
  - destruct (Ascii.eqb c "/") eqn:Hc.
    + constructor; [reflexivity | exact IH].
    + destruct (Strings.split_on "/" s) as [|w ws].
      * constructor; [|constructor]. cbn [Strings.split_on]. rewrite Hc. reflexivity.
      * inversion IH as [|? ? Hw Hws]; subst. constructor; [|exact Hws].
        cbn [Strings.split_on]. rewrite Hc, Hw. reflexivity.
Qed.

Lemma Join_cons2 e e' es :
  Strings.Join (e :: e' :: es) "/" = e +:+ String "/" (Strings.Join (e' :: es) "/").
Proof. reflexivity. Qed.

Lemma split_on_Join l :
  l ≠ [] → Forall (λ c, Strings.split_on "/" c = [c]) l →
  Strings.split_on "/" (Strings.Join l "/") = l.
Proof.
  induction l as [|e l IH]; [congruence|]. intros _ Hall.
  inversion Hall as [|? ? He Hl]; subst. destruct l as [|e' l]; [exact He|].
  rewrite Join_cons2, split_on_app, He, IH; [reflexivity | discriminate | exact Hl].
Qed.

Lemma append_assoc (s t u : string) : (s +:+ t) +:+ u = s +:+ t +:+ u.
Proof.
  induction s as [|c s IH]; [reflexivity|].
  change (String c ((s +:+ t) +:+ u) = String c (s +:+ t +:+ u)). rewrite IH. reflexivity.
Qed.

Lemma Join_snoc l n : ∃ pre, Strings.Join (l ++ [n]) "/" = pre +:+ n.
Proof.
  induction l as [|e l [pre IH]]; [exists ""; reflexivity|].
  destruct l as [|e' l].
  - exists (e +:+ "/"). cbn [app Strings.Join]. rewrite append_assoc. reflexivity.
  - exists (e +:+ "/" +:+ pre). change ((e :: e' :: l) ++ [n]) with (e :: (e' :: l) ++ [n]).
    cbn [app] in *. rewrite Join_cons2, IH.
    change (String "/" (pre +:+ n)) with ("/" +:+ pre +:+ n).
    rewrite !append_assoc. reflexivity.
Qed.

Lemma clean_go_app r cs ds : ∀ acc,
  Filepath.clean_go r (cs ++ ds) acc
  = Filepath.clean_go r ds (rev (Filepath.clean_go r cs acc)).
Proof.
  induction cs as [|c cs IH]; intros acc; cbn [app Filepath.clean_go].
  - rewrite rev_involutive. reflexivity.
  - repeat case_match; apply IH.
Qed.

Lemma clean_go_Forall (P : string → Prop) r cs : ∀ acc,
  Forall P cs → Forall P acc → Forall P (Filepath.clean_go r cs acc).
Proof.
  induction cs as [|c cs IH]; intros acc Hcs Hacc; cbn [Filepath.clean_go].
  - apply List.Forall_rev. exact Hacc.
  - inversion Hcs as [|? ? Hc Hcs']; subst.
    destruct (bool_decide (c = "" ∨ c = ".")); [apply IH; assumption|].
    destruct (bool_decide (c = "..")); [|apply IH; [assumption | constructor; assumption]].
    destruct acc as [|a acc].
    + destruct r; apply IH; auto.
    + inversion Hacc; subst.
      destruct (bool_decide (a = "..")); apply IH; auto.
Qed.

Lemma kept_snoc b cs c :
  c ≠ "" → c ≠ "." → c ≠ ".." →
  kept_from b cs = true → kept_from b (cs ++ [c]) = true.
Proof.
  intros H1 H2 H3. revert b. induction cs as [|d cs IH]; intros b; cbn [app kept_from].
  - intros _. rewrite bool_decide_eq_false_2 by exact H3.
    rewrite bool_decide_eq_false_2 by tauto. reflexivity.
  - destruct (bool_decide (d = "..")).
    + intros [-> Hk]%andb_true_iff. rewrite (IH _ Hk). reflexivity.
    + intros [-> Hk]%andb_true_iff. rewrite (IH _ Hk). reflexivity.
Qed.

Lemma kept_unsnoc b cs a : kept_from b (cs ++ [a]) = true → kept_from b cs = true.
Proof.
  revert b. induction cs as [|d cs IH]; intros b; cbn [app kept_from]; [reflexivity|].
  destruct (bool_decide (d = "..")).
  - intros [-> Hk]%andb_true_iff. rewrite (IH _ Hk). reflexivity.
  - intros [-> Hk]%andb_true_iff. rewrite (IH _ Hk). reflexivity.
Qed.

Lemma kept_snoc_dots b cs :
  kept_from b (cs ++ [".."]) = true → kept_from b (cs ++ [".."; ".."]) = true.
Proof.
  revert b. induction cs as [|d cs IH]; intros b; cbn [app kept_from].
  - rewrite !bool_decide_eq_true_2 by reflexivity. cbn [andb]. rewrite andb_true_r.
    intros ->. reflexivity.
  - destruct (bool_decide (d = "..")).
    + intros [-> Hk]%andb_true_iff. rewrite (IH _ Hk). reflexivity.
    + intros [-> Hk]%andb_true_iff. rewrite (IH _ Hk). reflexivity.
Qed.

(** A component in the middle of a kept list: it is neither empty nor
    [.], and a [..] stands first or behind another [..]. *)
Lemma kept_middle b pre c post :
  kept_from b (pre ++ c :: post) = true →
  c ≠ "" ∧ c ≠ "."
  ∧ (c = ".." → (pre = [] ∧ b = true) ∨ ∃ pre', pre = pre' ++ [".."]).
Proof.
  revert b. induction pre as [|d pre IH]; intros b; cbn [app kept_from].
  - destruct (bool_decide (c = "..")) eqn:Hc.
    + apply bool_decide_eq_true_1 in Hc. subst c.
      intros [-> _]%andb_true_iff. repeat split; try discriminate. auto.
    + apply bool_decide_eq_false_1 in Hc.
      intros [Hn _]%andb_true_iff. apply negb_true_iff, bool_decide_eq_false_1 in Hn.
      repeat split; tauto.
  - assert (Hrec : ∀ b', kept_from b' (pre ++ c :: post) = true →
              (b' = true → d = "..") →
              c ≠ "" ∧ c ≠ "."
              ∧ (c = ".." → (d :: pre = [] ∧ b = true) ∨ ∃ pre', d :: pre = pre' ++ [".."])).
    { intros b' Hk Hd. destruct (IH b' Hk) as (H1 & H2 & H3). repeat split; auto.
      intros Hc. right. destruct (H3 Hc) as [[-> Hb]|[pre' ->]].
      - exists []. rewrite (Hd Hb). reflexivity.
      - exists (d :: pre'). reflexivity. }
    destruct (bool_decide (d = "..")) eqn:Hd.
    + apply bool_decide_eq_true_1 in Hd.
      intros [_ Hk]%andb_true_iff. apply (Hrec true Hk). auto.
    + intros [_ Hk]%andb_true_iff. apply (Hrec false Hk). discriminate.
Qed.

Lemma clean_go_kept r cs : ∀ acc,
  kept_from (negb r) (rev acc) = true →
  kept_from (negb r) (Filepath.clean_go r cs acc) = true.
Proof.
  induction cs as [|c cs IH]; intros acc Hacc; cbn [Filepath.clean_go]; [exact Hacc|].
  destruct (bool_decide (c = "" ∨ c = ".")) eqn:Hskip; [apply IH, Hacc|].
  apply bool_decide_eq_false_1 in Hskip.
  destruct (bool_decide (c = "..")) eqn:Hdots.
  - apply bool_decide_eq_true_1 in Hdots. subst c. destruct acc as [|a acc].
    + destruct r; apply IH; reflexivity.
    + destruct (bool_decide (a = "..")) eqn:Ha.
      * apply bool_decide_eq_true_1 in Ha. subst a. apply IH.
        cbn [rev] in *. rewrite <- app_assoc. apply kept_snoc_dots, Hacc.
      * apply IH. cbn [rev] in Hacc. exact (kept_unsnoc _ _ _ Hacc).
  - apply bool_decide_eq_false_1 in Hdots. apply IH. cbn [rev].
    apply kept_snoc; tauto.
Qed.

(** Cleaning what is clean keeps every component. *)
Lemma clean_go_fix r cs : ∀ acc,
  kept_from (negb r) (rev acc ++ cs) = true →
  Filepath.clean_go r cs acc = rev acc ++ cs.
Proof.
  induction cs as [|c cs IH]; intros acc Hk; cbn [Filepath.clean_go].
  - rewrite app_nil_r. reflexivity.
  - destruct (kept_middle _ _ _ _ Hk) as (H1 & H2 & H3).
    rewrite bool_decide_eq_false_2 by tauto.
    assert (Hpush : Filepath.clean_go r cs (c :: acc) = rev acc ++ c :: cs).
    { rewrite IH; cbn [rev]; rewrite <- app_assoc; [reflexivity | exact Hk]. }
    destruct (bool_decide (c = "..")) eqn:Hdots; [|exact Hpush].
    apply bool_decide_eq_true_1 in Hdots. destruct (H3 Hdots) as [[Hnil Hr]|[pre' Hpre]].
    + destruct acc as [|a acc]; [|apply (f_equal (@length string)) in Hnil;
                                   cbn [rev] in Hnil; rewrite length_app in Hnil;
                                   cbn [length] in Hnil; lia].
      destruct r; [discriminate|]. exact Hpush.
    + destruct acc as [|a acc]; [destruct pre'; discriminate|].
      cbn [rev] in Hpre. apply app_inj_tail in Hpre. destruct Hpre as [_ ->].
      rewrite bool_decide_eq_true_2 by reflexivity. exact Hpush.
Qed.

Lemma HasPrefix_slash_app x t :
  x ≠ "" → Strings.HasPrefix (x +:+ t) "/" = Strings.HasPrefix x "/".
Proof. destruct x as [|c x]; [congruence|]. intros _. reflexivity. Qed.

(** [Clean] in terms of what it keeps. *)
Lemma Clean_render p :
  Filepath.Clean p
  = Filepath.render (Strings.HasPrefix p "/")
      (Filepath.clean_go (Strings.HasPrefix p "/") (Strings.split_on "/" p) []).
Proof. reflexivity. Qed.

Lemma Clean_kept p :
  kept_from (negb (Strings.HasPrefix p "/"))
    (Filepath.clean_go (Strings.HasPrefix p "/") (Strings.split_on "/" p) []) = true
  ∧ Forall (λ c, Strings.split_on "/" c = [c])
      (Filepath.clean_go (Strings.HasPrefix p "/") (Strings.split_on "/" p) []).
Proof.
  split.
  - apply clean_go_kept. reflexivity.
  - apply clean_go_Forall; [apply split_on_components | constructor].
Qed.

(** Appending a file name to a path. *)
Lemma Clean_snoc x n :
  x ≠ "" → plain n →
  Filepath.Clean (x +:+ "/" +:+ n)
  = Filepath.render (Strings.HasPrefix x "/")
      (Filepath.clean_go (Strings.HasPrefix x "/") (Strings.split_on "/" x) [] ++ [n]).
Proof.
  intros Hx (Hn1 & Hn2 & Hn3 & Hn4 & _). rewrite Clean_render.
  rewrite (HasPrefix_slash_app x _ Hx).
  change ("/" +:+ n) with (String "/" n). rewrite split_on_app, Hn4, clean_go_app.
  cbn [Filepath.clean_go]. rewrite bool_decide_eq_false_2 by tauto.
  rewrite bool_decide_eq_false_2 by exact Hn3. cbn [rev]. rewrite rev_involutive.
  reflexivity.
Qed.

(** What [Filepath.render] writes reads back as the same components. *)
Lemma render_reads_back r cs :
  kept_from (negb r) cs = true →
  Forall (λ c, Strings.split_on "/" c = [c]) cs →
  Filepath.render r cs ≠ ""
  ∧ Strings.HasPrefix (Filepath.render r cs) "/" = r
  ∧ Filepath.clean_go r (Strings.split_on "/" (Filepath.render r cs)) [] = cs.
Proof.
  intros Hk Hall.
  assert (Hfix : Filepath.clean_go r cs [] = cs) by (apply (clean_go_fix r cs []); exact Hk).
  destruct r; unfold Filepath.render.
  - split; [discriminate|]. split; [reflexivity|].
    change ("/" +:+ Strings.Join cs "/") with ("" +:+ String "/" (Strings.Join cs "/")).
    rewrite split_on_app. cbn [Strings.split_on app Filepath.clean_go].
    rewrite bool_decide_eq_true_2 by tauto.
    destruct cs as [|c cs]; [reflexivity|].
    rewrite split_on_Join by (discriminate || exact Hall). exact Hfix.
  - destruct cs as [|c cs]; [repeat split; discriminate || reflexivity|].
    destruct (kept_middle _ [] c cs Hk) as (Hc1 & _).
    inversion Hall as [|? ? Hc Hcs]; subst.
    assert (Hhead : ∃ a c', c = String a c' ∧ Ascii.eqb a "/" = false).
    { destruct c as [|a c']; [congruence|]. exists a, c'. split; [reflexivity|].
      destruct (Ascii.eqb a "/") eqn:Ha; [|reflexivity].
      exfalso. cbn [Strings.split_on] in Hc. rewrite Ha in Hc.
      injection Hc as Hc _. discriminate Hc. }
    destruct Hhead as (a & c' & -> & Ha).
    assert (Hstart : ∃ t, Strings.Join (String a c' :: cs) "/" = String a t).
    { destruct cs; [exists c'; reflexivity | eexists; reflexivity]. }
    destruct Hstart as [t Ht]. split; [rewrite Ht; discriminate|]. split.
    + rewrite Ht. cbn [Strings.HasPrefix]. rewrite Ascii.eqb_sym, Ha. reflexivity.
    + rewrite split_on_Join by (discriminate || exact Hall). exact Hfix.
Qed.

(** [Clean] of a cleaned path with a file name appended. *)
Lemma Clean_Clean_snoc x n :
  x ≠ "" → plain n →
  Filepath.Clean (Filepath.Clean x +:+ "/" +:+ n) = Filepath.Clean (x +:+ "/" +:+ n).
Proof.
  intros Hx Hn. destruct (Clean_kept x) as [Hk Hall].
  destruct (render_reads_back _ _ Hk Hall) as (Hne & Hpre & Hback).
  rewrite <- Clean_render in Hne, Hpre, Hback.
  rewrite (Clean_snoc (Filepath.Clean x) n Hne Hn), Hpre, Hback.
  symmetry. apply Clean_snoc; assumption.
Qed.

(** A path that ends in a file name is not empty and has no trailing
    separator. *)
Lemma Clean_snoc_file x n :
  x ≠ "" → plain n →
  Filepath.Clean (x +:+ "/" +:+ n) ≠ ""
  ∧ Strings.HasSuffix (Filepath.Clean (x +:+ "/" +:+ n)) "/" = false.
Proof.
  intros Hx Hn. rewrite (Clean_snoc x n Hx Hn). destruct Hn as (Hn1 & _ & _ & _ & Hn5).
  set (cs := Filepath.clean_go _ _ _). destruct (Join_snoc cs n) as [pre Hpre].
  assert (Hr : ∃ pre', Filepath.render (Strings.HasPrefix x "/") (cs ++ [n]) = pre' +:+ n).
  { unfold Filepath.render. destruct (Strings.HasPrefix x "/").
    - exists ("/" +:+ pre). rewrite Hpre. reflexivity.
    - exists pre. rewrite <- Hpre. destruct cs; reflexivity. }
  destruct Hr as [pre' ->]. split.
  - destruct pre'; [exact Hn1 | discriminate].
  - rewrite HasSuffix_slash_app by exact Hn1. exact Hn5.
Qed.

End paths.

(** ** The install path *)

Section install_path.
Context (h : Host).

Lemma plain_binaryName : plain (binaryName h).
Proof.
  unfold plain, binaryName. destruct (bool_decide (GOOS h = "windows"));
    repeat split; discriminate || reflexivity.
Qed.

Lemma plain_bin : plain "bin".
Proof. repeat split; discriminate || reflexivity. Qed.

Lemma Join_two a b :
  a ≠ "" → b ≠ "" → Filepath.Join [a; b] = Filepath.Clean (a +:+ "/" +:+ b).
Proof.
  intros Ha Hb. unfold Filepath.Join.
  rewrite (filter_cons_True _ a) by exact Ha. rewrite (filter_cons_True _ b) by exact Hb.
  reflexivity.
Qed.

Lemma Join_three a b c :
  a ≠ "" → b ≠ "" → c ≠ "" →
  Filepath.Join [a; b; c] = Filepath.Clean (a +:+ "/" +:+ b +:+ "/" +:+ c).
Proof.
  intros Ha Hb Hc. unfold Filepath.Join.
  rewrite (filter_cons_True _ a) by exact Ha. rewrite (filter_cons_True _ b) by exact Hb.
  rewrite (filter_cons_True _ c) by exact Hc. reflexivity.
Qed.

Lemma Join_skip_empty l : Filepath.Join ("" :: l) = Filepath.Join l.
Proof. unfold Filepath.Join. rewrite filter_cons_False by (intros H; apply H; reflexivity). reflexivity. Qed.

(** Joining in two steps, as [downloadServerBinary] does, gives the path
    joined in one step, as [findServerBinary] does. *)
Lemma Join_nested d n :
  plain n →
  Filepath.Join [Filepath.Join [d; "bin"]; n] = Filepath.Join [d; "bin"; n]
  ∧ Filepath.Join [d; "bin"; n] ≠ ""
  ∧ Strings.HasSuffix (Filepath.Join [d; "bin"; n]) "/" = false.
Proof.
  intros Hn. pose proof Hn as (Hn1 & _).
  destruct (decide (d = "")) as [->|Hd].
  - rewrite !Join_skip_empty. change (Filepath.Join ["bin"]) with "bin".
    split; [reflexivity|]. rewrite Join_two by (discriminate || exact Hn1).
    apply Clean_snoc_file; [discriminate | exact Hn].
  - rewrite (Join_two d "bin") by (discriminate || exact Hd).
    rewrite Join_three by (discriminate || assumption).
    assert (Hx : d +:+ "/" +:+ "bin" ≠ "") by (destruct d; [congruence | discriminate]).
    destruct (Clean_snoc_file d "bin" Hd plain_bin) as [Hne _].
    rewrite Join_two by assumption.
    rewrite (Clean_Clean_snoc _ n Hx Hn).
    replace (d +:+ "/" +:+ "bin" +:+ "/" +:+ n) with ((d +:+ "/" +:+ "bin") +:+ "/" +:+ n)
      by (rewrite !append_assoc; reflexivity).
    split; [reflexivity|]. apply Clean_snoc_file; assumption.
Qed.

End install_path.

(** ** The temporary file and the target *)

Section temporary_name.
Context (h : Host).

Lemma Contains_slash_cons c s :
  Strings.Contains (String c s) "/" = Ascii.eqb "/" c || Strings.Contains s "/".
Proof. cbn [Strings.Contains Strings.HasPrefix]. destruct (Ascii.eqb "/" c); reflexivity. Qed.

Lemma split_on_no_slash s :
  Strings.Contains s "/" = false → Strings.split_on "/" s = [s].
Proof.
  induction s as [|c s IH]; [reflexivity|]. rewrite Contains_slash_cons.
  intros [Hc Hs]%orb_false_iff. cbn [Strings.split_on].
  rewrite Ascii.eqb_sym, Hc, (IH Hs). reflexivity.
Qed.

Lemma HasSuffix_no_slash s :
  Strings.Contains s "/" = false → Strings.HasSuffix s "/" = false.
Proof.
  induction s as [|c s IH]; [reflexivity|]. rewrite Contains_slash_cons.
  intros [Hc Hs]%orb_false_iff. destruct s as [|c' s'].
  - unfold Strings.HasSuffix. cbn. rewrite Ascii.eqb_sym, Hc. reflexivity.
  - rewrite HasSuffix_slash_cons by discriminate. exact (IH Hs).
Qed.

Lemma HasSuffix_slash_inv d :
  Strings.HasSuffix d "/" = true → ∃ x, d = x +:+ "/".
Proof.
  induction d as [|c d IH]; [discriminate|]. destruct d as [|c' d'].
  - unfold Strings.HasSuffix. cbn. destruct (Ascii.eqb c "/") eqn:Hc; [|discriminate].
    apply Ascii.eqb_eq in Hc. subst c. intros _. exists "". reflexivity.
  - rewrite HasSuffix_slash_cons by discriminate. intros Hd.
    destruct (IH Hd) as [x Hx]. exists (String c x). rewrite Hx. reflexivity.
Qed.

Lemma plain_tempBase : Strings.Contains (temp_random h) "/" = false → plain (tempBase h).
Proof.
  intros Hr. unfold plain, tempBase. repeat split; try discriminate.
  - apply split_on_no_slash. exact Hr.
  - apply HasSuffix_no_slash. exact Hr.
Qed.

Lemma tempName_parts w : ∃ x, tempName h w = x +:+ "/" +:+ (tempBase h).
Proof.
  unfold tempName, tempBase. cbv zeta. rewrite append_empty_r.
  set (d := if bool_decide (getenv w "TMPDIR" = "") then "/tmp" else getenv w "TMPDIR").
  destruct (Strings.HasSuffix d "/") eqn:Hd.
  - destruct (HasSuffix_slash_inv d Hd) as [x ->]. exists x. apply append_assoc.
  - exists d. apply append_assoc.
Qed.

(** A cleaned path that ends in a file name keeps it as its last
    component. *)
Lemma Clean_ends_with x n :
  plain n →
  ∃ r cs,
    Filepath.Clean (x +:+ "/" +:+ n) = Filepath.render r (cs ++ [n])
    ∧ kept_from (negb r) (cs ++ [n]) = true
    ∧ Forall (λ c, Strings.split_on "/" c = [c]) (cs ++ [n]).
Proof.
  intros Hn. pose proof Hn as (Hn1 & Hn2 & Hn3 & Hn4 & _).
  destruct (decide (x = "")) as [->|Hx].
  - exists true, []. split; [|split].
    + rewrite Clean_render. change ("" +:+ "/" +:+ n) with ("" +:+ String "/" n).
      rewrite split_on_app, Hn4.
      change (Strings.HasPrefix ("" +:+ String "/" n) "/") with true.
      cbn [Strings.split_on app Filepath.clean_go].
      rewrite bool_decide_eq_true_2 by tauto.
      rewrite bool_decide_eq_false_2 by tauto.
      rewrite bool_decide_eq_false_2 by exact Hn3. reflexivity.
    + apply (kept_snoc _ []); auto.
    + constructor; [exact Hn4 | constructor].
  - destruct (Clean_kept x) as [Hk Hall].
    eexists _, _. split; [apply (Clean_snoc x n Hx Hn)|]. split.
    + apply kept_snoc; auto.
    + apply Forall_app. split; [exact Hall | constructor; [exact Hn4 | constructor]].
Qed.

Lemma render_inj r cs r' cs' :
  kept_from (negb r) cs = true → Forall (λ c, Strings.split_on "/" c = [c]) cs →
  kept_from (negb r') cs' = true → Forall (λ c, Strings.split_on "/" c = [c]) cs' →
  Filepath.render r cs = Filepath.render r' cs' → cs = cs'.
Proof.
  intros Hk Hall Hk' Hall' Heq.
  destruct (render_reads_back r cs Hk Hall) as (_ & Hr & Hback).
  destruct (render_reads_back r' cs' Hk' Hall') as (_ & Hr' & Hback').
  rewrite Heq in Hr, Hback. rewrite Hr' in Hr. subst r'. congruence.
Qed.

Lemma downloadTarget_parts w : ∃ x, downloadTarget h w = Filepath.Clean (x +:+ "/" +:+ binaryName h).
Proof.
  destruct (Join_nested (extensionDataDir h w) (binaryName h) (plain_binaryName h))
    as (Hjoin & _). fold (downloadTarget h w) in Hjoin. rewrite Hjoin.
  destruct (plain_binaryName h) as (Hn1 & _).
  destruct (decide (extensionDataDir h w = "")) as [->|Hd].
  - rewrite Join_skip_empty, Join_two by (discriminate || exact Hn1). eexists. reflexivity.
  - rewrite Join_three by (discriminate || assumption).
    exists (extensionDataDir h w +:+ "/" +:+ "bin"). rewrite !append_assoc. reflexivity.
Qed.

Lemma Clean_idem_snoc x n :
  plain n → Filepath.Clean (Filepath.Clean (x +:+ "/" +:+ n)) = Filepath.Clean (x +:+ "/" +:+ n).
Proof.
  intros Hn. destruct (Clean_ends_with x n Hn) as (r & cs & Hc & Hk & Hall).
  destruct (render_reads_back _ _ Hk Hall) as (_ & Hr & Hback).
  rewrite Hc at 1. rewrite Clean_render, Hr, Hback. symmetry. exact Hc.
Qed.

(** The temporary file is never the target: their file names differ. *)
Lemma temp_is_not_target w :
  Strings.Contains (temp_random h) "/" = false →
  Filepath.Clean (tempName h w) ≠ Filepath.Clean (downloadTarget h w).
Proof.
  intros Hr Heq. destruct (tempName_parts w) as [x Hx].
  destruct (downloadTarget_parts w) as [y Hy]. rewrite Hx, Hy in Heq.
  rewrite (Clean_idem_snoc y _ (plain_binaryName h)) in Heq.
  destruct (Clean_ends_with x (tempBase h) (plain_tempBase Hr)) as (r & cs & Hc & Hk & Hall).
  destruct (Clean_ends_with y (binaryName h) (plain_binaryName h))
    as (r' & cs' & Hc' & Hk' & Hall').
  rewrite Hc, Hc' in Heq.
  apply (render_inj _ _ _ _ Hk Hall Hk' Hall') in Heq.
  apply app_inj_tail in Heq. destruct Heq as [_ Heq]. revert Heq.
  unfold tempBase, binaryName. destruct (bool_decide (GOOS h = "windows")); discriminate.
Qed.

End temporary_name.

(** ** Resolving a name *)

Section resolve.
Context (h : Host).

Lemma walk_app f r xs ys : ∀ acc,
  Os.walk f r (xs ++ ys) acc
  = match Os.walk f r xs acc with
    | Ok a => Os.walk f r ys a
    | Err e => Err e
    end.
Proof.
  induction xs as [|c xs IH]; intros acc; [reflexivity|].
  cbn [app Os.walk]. destruct (f !! _) as [[c' m|m]|]; try reflexivity. apply IH.
Qed.

Lemma strip_empty_repeat cs : ∃ j, cs = Os.strip_empty cs ++ repeat "" j.
Proof.
  induction cs as [|c cs [j IH]]; [exists 0%nat; reflexivity|].
  cbn [Os.strip_empty]. destruct (Os.strip_empty cs) as [|t ts].
  - cbn [app] in IH. case_bool_decide as Hc.
    + subst c. exists (S j). rewrite IH at 1. reflexivity.
    + exists j. rewrite IH at 1. reflexivity.
  - exists j. rewrite IH at 1. reflexivity.
Qed.

Lemma walk_empties f r j acc m :
  f !! Filepath.render r (rev acc) = Some (Dir m) →
  Os.walk f r (repeat "" j) acc = Ok acc.
Proof.
  intros Hd. induction j as [|j IH]; [reflexivity|].
  cbn [repeat Os.walk]. rewrite Hd. exact IH.
Qed.

(** A directory that [Mkdir] has made resolves. *)
Lemma Mkdir_ok name perm w :
  is_ok (fst (Os.Mkdir h name perm w)) = true →
  ∃ m, Os.Stat (fs (snd (Os.Mkdir h name perm w))) name = Some (Dir m).
Proof.
  unfold Os.Mkdir, Os.Stat, Os.resolve.
  destruct (bool_decide (name = "")); [discriminate|].
  cbv zeta. set (r := Strings.HasPrefix name "/").
  destruct (strip_empty_repeat (Strings.split_on "/" name)) as [j Hj].
  destruct (Os.walk (fs w) r (Os.strip_empty _) []) as [acc|e] eqn:Hw; [|discriminate].
  destruct (fs w !! Filepath.render r (rev acc)) as [n|] eqn:Hk; [discriminate|].
  intros _. cbn [snd Os.with_fs fs]. exists (Z.ldiff perm (umask h)).
  set (f' := <[_ := _]> (fs w)).
  assert (Hkept : dirs_kept (fs w) f').
  { intros k m Hm. exists m. unfold f'. rewrite lookup_insert_ne; [exact Hm|]. congruence. }
  assert (Hnew : f' !! Filepath.render r (rev acc) = Some (Dir (Z.ldiff perm (umask h)))).
  { unfold f'. apply lookup_insert_eq. }
  rewrite Hj, walk_app, (walk_dirs_kept _ _ _ _ _ _ Hkept Hw).
  rewrite (walk_empties f' r j acc _ Hnew). exact Hnew.
Qed.

Lemma MkdirAll_rec_ok fuel path perm w :
  is_ok (fst (Os.MkdirAll_rec h fuel path perm w)) = true →
  ∃ m, Os.Stat (fs (snd (Os.MkdirAll_rec h fuel path perm w))) path = Some (Dir m).
Proof.
  assert (Hlast : ∀ w1,
    let res := (let '(r2, w2) := Os.Mkdir h path perm w1 in
                match r2 with
                | Ok _ => (Ok tt, w2)
                | Err e =>
                    match Os.Stat (fs w2) path with
                    | Some (Dir _) => (Ok tt, w2)
                    | _ => (Err e, w2)
                    end
                end) in
    is_ok (fst res) = true → ∃ m, Os.Stat (fs (snd res)) path = Some (Dir m)).
  { intros w1. cbv zeta. pose proof (Mkdir_ok path perm w1) as Hm.
    destruct (Os.Mkdir h path perm w1) as [[u|e] w2]; cbn [fst snd] in *; [auto|].
    clear Hm.
    destruct (Os.Stat (fs w2) path) as [[c m|m]|] eqn:Hs; cbn [fst snd];
      try discriminate. intros _. rewrite Hs. eauto. }
  destruct fuel as [|fuel]; cbn [Os.MkdirAll_rec].
  all: destruct (Os.Stat (fs w) path) as [[c m|m]|] eqn:Hs; cbn [fst snd];
    [discriminate | eauto |].
  - apply Hlast.
  - match goal with
    | |- context [let '(r, w1) := ?X in _] => destruct X as [[u|e] w1]
    end; cbn [fst snd]; [|discriminate].
    apply Hlast.
Qed.

Lemma Join_app_one cs n :
  cs ≠ [] → Strings.Join (cs ++ [n]) "/" = Strings.Join cs "/" +:+ String "/" n.
Proof.
  induction cs as [|c cs IH]; [congruence|]. intros _.
  destruct cs as [|c' cs].
  - reflexivity.
  - change ((c :: c' :: cs) ++ [n]) with (c :: ((c' :: cs) ++ [n])).
    cbn [app]. rewrite !Join_cons2. cbn [app] in IH. rewrite IH by discriminate.
    rewrite append_assoc. reflexivity.
Qed.

Lemma render_snoc r cs n :
  cs ≠ [] → Filepath.render r (cs ++ [n]) = Filepath.render r cs +:+ String "/" n.
Proof.
  intros Hcs. unfold Filepath.render. rewrite (Join_app_one cs n Hcs).
  destruct r.
  - rewrite append_assoc. reflexivity.
  - destruct cs as [|c cs]; [congruence|]. reflexivity.
Qed.

(** A file name below a directory that resolves: what resolution finds
    is the node at the cleaned name. *)
Lemma Stat_child f r cs n m :
  cs ≠ [] → kept_from (negb r) cs = true →
  Forall (λ c, Strings.split_on "/" c = [c]) cs → plain n →
  Os.Stat f (Filepath.render r cs) = Some (Dir m) →
  Os.Stat f (Filepath.render r (cs ++ [n])) = f !! Filepath.render r (cs ++ [n]).
Proof.
  intros Hcs Hk Hall Hn. pose proof Hn as (Hn1 & Hn2 & Hn3 & Hn4 & _).
  destruct (render_reads_back r cs Hk Hall) as (Hne & Hr & Hback).
  assert (Hk' : kept_from (negb r) (cs ++ [n]) = true) by (apply kept_snoc; auto).
  assert (Hall' : Forall (λ c, Strings.split_on "/" c = [c]) (cs ++ [n])).
  { apply Forall_app. split; [exact Hall | constructor; [exact Hn4 | constructor]]. }
  destruct (render_reads_back r (cs ++ [n]) Hk' Hall') as (Hne' & Hr' & _).
  unfold Os.Stat, Os.resolve. rewrite !bool_decide_eq_false_2 by assumption. cbv zeta.
  rewrite Hr, Hr'. rewrite (render_snoc r cs n Hcs), split_on_app, Hn4, walk_app.
  destruct (Os.walk f r (Strings.split_on "/" (Filepath.render r cs)) []) as [acc|e] eqn:Hw;
    [|discriminate].
  pose proof (walk_sound _ _ _ _ _ Hw) as Hacc. rewrite Hback in Hacc.
  intros Hd. cbn [Os.walk]. rewrite Hd. unfold Filepath.clean_step.
  rewrite bool_decide_eq_false_2 by tauto.
  rewrite bool_decide_eq_false_2 by exact Hn3.
  cbn [rev]. rewrite <- Hacc, <- (render_snoc r cs n Hcs). reflexivity.
Qed.

End resolve.

(** ** The locator on a file system where every name resolves *)

Section on_trees.
Context (h : Host).

Lemma Clean_idem p : Filepath.Clean (Filepath.Clean p) = Filepath.Clean p.
Proof.
  destruct (Clean_kept p) as [Hk Hall].
  destruct (render_reads_back _ _ Hk Hall) as (_ & Hr & Hback).
  rewrite (Clean_render p) at 1. rewrite Clean_render, Hr, Hback. symmetry.
  apply Clean_render.
Qed.

Lemma Join_clean l : Filepath.Join l = "" ∨ Filepath.Clean (Filepath.Join l) = Filepath.Join l.
Proof.
  unfold Filepath.Join. destruct (filter _ l); [left; reflexivity|right; apply Clean_idem].
Qed.

(** Where every name resolves, new directories do not make a cleaned name
    resolve to a file it did not resolve to before. *)
Lemma Stat_file_start f f' c content m :
  tree f → only_new_dirs f f' → c = "" ∨ Filepath.Clean c = c →
  Os.Stat f' c = Some (File content m) → Os.Stat f c = Some (File content m).
Proof.
  intros Ht Hf [->|Hc] Hs; [discriminate Hs|].
  apply Stat_lexical in Hs. rewrite Hc in Hs.
  assert (Hk : f !! c = Some (File content m)).
  { destruct (Hf c) as [E|[_ [m' E]]]; congruence. }
  destruct (Ht c) as [n Hn]; [eauto|]. rewrite Hn.
  apply Stat_lexical in Hn. rewrite Hc in Hn. congruence.
Qed.

Lemma is_regular_file_start f f' c :
  tree f → only_new_dirs f f' → c = "" ∨ Filepath.Clean c = c →
  is_regular_file f' c = is_regular_file f c.
Proof.
  intros Ht Hf Hc. unfold is_regular_file.
  destruct (Os.Stat f' c) as [[content m|m]|] eqn:Hs'.
  - rewrite (Stat_file_start f f' c content m Ht Hf Hc Hs'). reflexivity.
  - destruct (Os.Stat f c) as [[content' m'|m']|] eqn:Hs; try reflexivity.
    rewrite (Stat_more f f' c _ Hf Hs) in Hs'. discriminate.
  - destruct (Os.Stat f c) as [[content' m'|m']|] eqn:Hs; try reflexivity.
    rewrite (Stat_more f f' c _ Hf Hs) in Hs'. discriminate.
Qed.

Lemma findExecutable_start f f' c :
  tree f → only_new_dirs f f' → c = "" ∨ Filepath.Clean c = c →
  Os.findExecutable f' c = Os.findExecutable f c.
Proof.
  intros Ht Hf Hc. unfold Os.findExecutable.
  destruct (Os.Stat f' c) as [[content m|m]|] eqn:Hs'.
  - rewrite (Stat_file_start f f' c content m Ht Hf Hc Hs'). reflexivity.
  - destruct (Os.Stat f c) as [[content' m'|m']|] eqn:Hs; try reflexivity.
    rewrite (Stat_more f f' c _ Hf Hs) in Hs'. discriminate.
  - destruct (Os.Stat f c) as [[content' m'|m']|] eqn:Hs; try reflexivity.
    rewrite (Stat_more f f' c _ Hf Hs) in Hs'. discriminate.
Qed.

Lemma look_in_start f f' dirs file :
  tree f → only_new_dirs f f' → Os.look_in f' dirs file = Os.look_in f dirs file.
Proof.
  intros Ht Hf. induction dirs as [|d dirs IH]; [reflexivity|].
  cbn [Os.look_in]. rewrite (findExecutable_start f f' _ Ht Hf (Join_clean _)), IH.
  reflexivity.
Qed.

(** Where every name resolves, the six ranks can be read off the file
    system as the locator finds it. *)
Lemma hits_on_tree w : tree (fs w) → hits h w = hits_at_start h w.
Proof.
  intros Ht. destruct (getExtensionDataDir_spec h w) as (_ & He & _ & Hf).
  unfold hits, hits_at_start, candidates. cbv zeta. cbn [map app firstn skipn found_at].
  rewrite !(is_regular_file_start _ _ _ Ht Hf (Join_clean _)).
  assert (Hl : fst (Os.LookPath "github-mcp-server" (snd (getExtensionDataDir h w)))
               = fst (Os.LookPath "github-mcp-server" w)).
  { unfold Os.LookPath. change (Strings.Contains "github-mcp-server" "/") with false.
    cbn [fst]. rewrite He. apply (look_in_start _ _ _ _ Ht Hf). }
  rewrite Hl.
  destruct (Executable h) as [execPath|e]; cbn [found_at];
    rewrite ?(is_regular_file_start _ _ _ Ht Hf (Join_clean _)); reflexivity.
Qed.

Lemma hits_at_start_regular w path :
  In (Some path) (hits_at_start h w) → is_regular_file (fs w) path = true.
Proof.
  unfold hits_at_start. rewrite in_app_iff, in_map_iff.
  intros [(c & Hc & _)|[Hl|[]]].
  - exact (found_at_regular _ _ _ Hc).
  - apply LookPath_regular.
    destruct (fst (Os.LookPath "github-mcp-server" w)) as [p|e]; congruence.
Qed.

End on_trees.

(** C6.  The Binary Locator returns the path found at the first of its six
    ranks that has one: if rank k has a hit (a candidate that is a regular
    file; for the last rank, what the executable search path resolves) and
    no rank before it has, the result is exactly that path; if no rank has
    a hit the result is the empty string (NotFound), and only then.  The
    function is total: it never fails.  The locator looks at ranks 3 to 6
    after it has had the extension data directory created; in a file
    system where the name of every entry resolves that makes no
    difference, and all six ranks are read off the file system as the
    locator finds it. *)
Theorem findServerBinary_priority (h : Host) (w : World) :
  length (hits h w) = 6%nat
  ∧ (∀ k path,
       hits h w !! k = Some (Some path) →
       (∀ j, (j < k)%nat → hits h w !! j = Some None) →
       fst (findServerBinary h w) = path)
  ∧ ((∀ k, (k < 6)%nat → hits h w !! k = Some None) →
     fst (findServerBinary h w) = "")
  ∧ (fst (findServerBinary h w) = "" →
     ∀ k, (k < 6)%nat → hits h w !! k = Some None)
  ∧ (tree (fs w) → hits h w = hits_at_start h w).
Proof.
  destruct (findServerBinary_spec h w) as (Hres & _).
  assert (Hlen : length (hits h w) = 6%nat) by reflexivity.
  split; [exact Hlen|]. rewrite Hres. split; [|split; [|split]].
  - intros k path Hk Hbefore. exact (first_hit_at _ k path Hk Hbefore).
  - intros Hall. apply first_hit_none. rewrite Hlen. exact Hall.
  - intros He. rewrite <- Hlen. exact (first_hit_empty _ (hits_nonempty h w) He).
  - apply hits_on_tree.
Qed.

Lemma findServerBinary_priority_witness :
  fst (findServerBinary linux_host installed_world) = installed_path
  ∧ fst (findServerBinary linux_host empty_world) = ""
  ∧ hits linux_host installed_world = hits_at_start linux_host installed_world.
Proof.
  split; [|split].
  - destruct (findServerBinary_priority linux_host installed_world) as (_ & Hk & _).
    apply (Hk 2%nat installed_path); [vm_compute; reflexivity|].
    intros [|[|j]] Hj; [vm_compute; reflexivity..|lia].
  - destruct (findServerBinary_priority linux_host empty_world) as (_ & _ & Hnone & _).
    apply Hnone.
    intros [|[|[|[|[|[|k]]]]]] Hk; [vm_compute; reflexivity..|lia].
  - destruct (findServerBinary_priority linux_host installed_world) as (_ & _ & _ & _ & Ht).
    apply Ht. apply (bool_decide_unpack _). vm_compute. exact I.
Defined.

(** C10.  When the override variable is set: if it names an existing
    regular file the locator returns it; if the path does not exist (it
    does not resolve) or is a directory, the first rank has no hit, the
    locator reports nothing, and it returns what it returns with the
    variable unset, which, in a file system where the name of every entry
    resolves, is not the override path. *)
Theorem override_only_for_regular_files (h : Host) (w : World) :
  getenv w "GITHUB_MCP_SERVER_PATH" ≠ "" →
  (is_regular_file (fs w) (getenv w "GITHUB_MCP_SERVER_PATH") = true →
   fst (findServerBinary h w) = getenv w "GITHUB_MCP_SERVER_PATH")
  ∧ (Os.Stat (fs w) (getenv w "GITHUB_MCP_SERVER_PATH") = None
     ∨ (∃ m, Os.Stat (fs w) (getenv w "GITHUB_MCP_SERVER_PATH") = Some (Dir m)) →
     fst (findServerBinary h w) = fst (findServerBinary h (without_override w))
     ∧ hits h w !! 0%nat = Some None
     ∧ (tree (fs w) →
        fst (findServerBinary h w) ≠ getenv w "GITHUB_MCP_SERVER_PATH")
     ∧ trace (snd (findServerBinary h w)) = trace w).
Proof.
  intros Hset.
  destruct (findServerBinary_spec h w) as (Hres & _ & Htrace & _ & _).
  destruct (findServerBinary_spec h (without_override w)) as (Hres' & _).
  rewrite Hres, Hres'. clear Hres Hres'. split.
  - intros Hfile. rewrite hits_head.
    rewrite bool_decide_eq_true_2 by exact Hset. rewrite Hfile. reflexivity.
  - intros Hmiss.
    assert (Hfile : is_regular_file (fs w) (getenv w "GITHUB_MCP_SERVER_PATH") = false).
    { unfold is_regular_file. destruct Hmiss as [->|[m ->]]; reflexivity. }
    split; [|split; [|split; [|exact Htrace]]].
    + rewrite (hits_head h w), (hits_head h (without_override w)).
      rewrite Hfile, andb_false_r.
      assert (getenv (without_override w) "GITHUB_MCP_SERVER_PATH" = "") as ->.
      { unfold getenv, without_override. simpl. rewrite lookup_delete_eq. reflexivity. }
      rewrite bool_decide_eq_false_2 by (intros Hne; apply Hne; reflexivity).
      cbn [andb first_hit]. f_equal. symmetry. apply hits_tail_env; [reflexivity|].
      intros key Hk. unfold without_override. simpl env.
      apply lookup_delete_ne. simpl in Hk.
      intros <-. repeat (destruct Hk as [Hk|Hk]; [discriminate Hk|]). exact Hk.
    + rewrite (hits_head h w), Hfile, andb_false_r. reflexivity.
    + intros Ht Heq. rewrite (hits_on_tree h w Ht) in Heq.
      destruct (first_hit_in (hits_at_start h w)) as [Hempty|Hin]; [congruence|].
      rewrite Heq in Hin. apply hits_at_start_regular in Hin. congruence.
Qed.

Lemma override_only_for_regular_files_witness :
  fst (findServerBinary linux_host override_file_world) = installed_path
  ∧ (fst (findServerBinary linux_host override_dir_world)
     = fst (findServerBinary linux_host (without_override override_dir_world))
     ∧ fst (findServerBinary linux_host override_dir_world) ≠ "/home/u")
  ∧ (fst (findServerBinary linux_host override_missing_world)
     = fst (findServerBinary linux_host (without_override override_missing_world))
     ∧ hits linux_host override_missing_world !! 0%nat = Some None).
Proof.
  split; [|split].
  - apply (override_only_for_regular_files linux_host override_file_world);
      [vm_compute; discriminate | vm_compute; reflexivity].
  - destruct (override_only_for_regular_files linux_host override_dir_world)
      as [_ Hdir]; [vm_compute; discriminate|].
    destruct Hdir as (Hsame & _ & Hne & _).
    + right. exists 493. vm_compute. reflexivity.
    + split; [exact Hsame|]. apply Hne. apply (bool_decide_unpack _). vm_compute. exact I.
  - destruct (override_only_for_regular_files linux_host override_missing_world)
      as [_ Hmiss]; [vm_compute; discriminate|].
    destruct Hmiss as (Hsame & Hnone & _).
    + left. vm_compute. reflexivity.
    + split; [exact Hsame | exact Hnone].
Defined.

(** ** What is installed can be located *)

Section installed_file.
Context (h : Host).

Lemma binDir_parts d :
  d ≠ "" → ∃ r cs,
    Filepath.Join [d; "bin"] = Filepath.render r (cs ++ ["bin"])
    ∧ kept_from (negb r) (cs ++ ["bin"]) = true
    ∧ Forall (λ c, Strings.split_on "/" c = [c]) (cs ++ ["bin"]).
Proof.
  intros Hd. rewrite Join_two by (discriminate || exact Hd).
  apply Clean_ends_with. exact plain_bin.
Qed.

Lemma Clean_nonempty p : Filepath.Clean p ≠ "".
Proof.
  rewrite Clean_render. destruct (Clean_kept p) as [Hk Hall].
  apply (render_reads_back _ _ Hk Hall).
Qed.

Lemma Join_nonempty l e : e ∈ l → e ≠ "" → Filepath.Join l ≠ "".
Proof.
  intros Hin He. unfold Filepath.Join.
  destruct (filter (λ e, e ≠ "") l) as [|a es] eqn:Hl; [|apply Clean_nonempty].
  assert (Hf : e ∈ filter (λ e, e ≠ "") l) by (apply list_elem_of_filter; auto).
  rewrite Hl in Hf. inversion Hf.
Qed.

Lemma extensionDataDir_nonempty w : extensionDataDir h w ≠ "".
Proof.
  unfold extensionDataDir. repeat case_match; try discriminate.
  all: apply (Join_nonempty _ "gh-github-mcp-server"); [set_solver | discriminate].
Qed.

(** After a successful download the directory the helper is installed
    into resolves. *)
Lemma downloadServerBinary_bin_dir w :
  Strings.Contains (temp_random h) "/" = false →
  is_ok (fst (downloadServerBinary h w)) = true →
  ∃ m, Os.Stat (fs (snd (downloadServerBinary h w)))
               (Filepath.Join [extensionDataDir h w; "bin"]) = Some (Dir m).
Proof.
  intros Hrand.
  pose proof (temp_is_not_target h w Hrand) as Hdiff.
  remember (downloadServerBinary h w) as res eqn:E.
  unfold downloadServerBinary in E. unfold bind at 1 in E.
  pose proof (env_getLatestReleaseAssetURL h w) as He1.
  destruct (getLatestReleaseAssetURL h w) as [[assetURL|e] w1]; cbn [fst snd] in *.
  2: { subst res. discriminate. }
  unfold bind at 1 in E.
  destruct (getExtensionDataDir_spec h w1) as (Hd & He2 & _ & _).
  destruct (getExtensionDataDir h w1) as [dataDir w2]; cbn [fst snd] in *.
  assert (HdataDir : dataDir = extensionDataDir h w).
  { rewrite Hd. apply extensionDataDir_env. exact He1. }
  unfold bind at 1 in E.
  destruct (MkdirAll_frame h (Filepath.Join [dataDir; "bin"]) 493 w2) as (He3 & _ & _).
  pose proof (MkdirAll_rec_ok h (String.length (Filepath.Join [dataDir; "bin"]))
                (Filepath.Join [dataDir; "bin"]) 493 w2) as Hbin.
  fold (Os.MkdirAll h (Filepath.Join [dataDir; "bin"]) 493 w2) in Hbin.
  destruct (Os.MkdirAll h (Filepath.Join [dataDir; "bin"]) 493 w2) as [[u|e] w3];
    cbn [fst snd] in *.
  2: { subst res. discriminate. }
  destruct (Hbin eq_refl) as [m3 H3]. clear Hbin.
  unfold bind at 1 in E. unfold Eprint at 1, emit at 1 in E. cbv beta iota zeta in E.
  unfold bind at 1 in E. unfold Os.Do at 1 in E. cbv beta iota zeta in E.
  cbn [env fs trace] in E.
  destruct (http_do h _) as [resp|e].
  2: { subst res. discriminate. }
  destruct (bool_decide (StatusCode resp ≠ 200)).
  { subst res. discriminate. }
  unfold bind at 1 in E.
  match type of E with
  | context [Os.CreateTemp h "" "github-mcp-server-" "" ?w4] =>
      destruct (CreateTemp_effect h w4) as (_ & _ & HCT);
      assert (Hname : tempName h w4 = tempName h w)
        by (apply tempName_env; cbn [env]; congruence);
      destruct (Os.CreateTemp h "" "github-mcp-server-" "" w4) as [[tmpName|e] w5]
  end; cbn [fst snd fs] in HCT.
  2: { subst res. discriminate. }
  destruct HCT as (Htmp & Hres & Hfree & mode & Hfs5). rewrite Hname in Htmp.
  unfold bind at 1 in E.
  set (target := Filepath.Join [Filepath.Join [dataDir; "bin"]; binaryName h]) in *.
  assert (Htarget : target = downloadTarget h w).
  { unfold target, downloadTarget. rewrite HdataDir. reflexivity. }
  destruct (save_and_install_effect h assetURL tmpName target (Body resp) mode (fs w3) w5 Hfs5)
    as (_ & Htk & _).
  assert (H56 : dirs_kept (fs w5)
            (fs (snd ((let* r := Os.Copy (Filepath.Clean tmpName) (Body resp) in
                       match r with
                       | Ok _ => installFrom h assetURL tmpName target
                       | Err e => ret (Err ("failed to save downloaded file: " +:+ e))
                       end) w5)))).
  { apply (keeps_dirs_bind _ _ (keeps_dirs_Copy _ _)).
    intros [u'|e]; [apply keeps_dirs_installFrom | apply keeps_dirs_ret]. }
  destruct ((let* r := Os.Copy (Filepath.Clean tmpName) (Body resp) in _) w5)
    as [result w6]; cbn [fst snd] in *.
  pose proof (Remove_dirs_kept tmpName w6) as H67.
  unfold bind in E. destruct (Os.Remove tmpName w6) as [r7 w7]; cbn [fst snd ret] in *.
  subst res. unfold ret. cbn [fst snd]. intros _. rewrite <- HdataDir.
  apply (Stat_dir_kept (fs w3) (fs w7) _ m3); [|exact H3].
  eapply dirs_kept_trans; [|eapply dirs_kept_trans; [exact H56|]].
  - rewrite Hfs5. apply dirs_kept_insert. congruence.
  - apply H67. intros m. rewrite Htmp, Htarget in Htk.
    rewrite Htmp. destruct (Htk Hdiff) as [(c & m' & ->)| ->]; discriminate.
Qed.

(** What a successful download returns resolves to a regular file. *)
Lemma downloadServerBinary_Stat w p :
  Strings.Contains (temp_random h) "/" = false →
  fst (downloadServerBinary h w) = Ok p →
  ∃ content, Os.Stat (fs (snd (downloadServerBinary h w))) p = Some (File content 493).
Proof.
  intros Hrand Hp.
  destruct (proj2 (downloadServerBinary_effect h w) p Hp) as [-> Hfile].
  destruct (Hfile (temp_is_not_target h w Hrand)) as [content Hc]. clear Hfile.
  destruct (downloadServerBinary_bin_dir w Hrand) as [m Hm]; [rewrite Hp; reflexivity|].
  destruct (binDir_parts _ (extensionDataDir_nonempty w)) as (r & cs & Hbin & Hk & Hall).
  assert (Hcs : cs ++ ["bin"] ≠ []) by (destruct cs; discriminate).
  rewrite Hbin in Hm.
  pose proof (Stat_child _ r (cs ++ ["bin"]) (binaryName h) m Hcs Hk Hall
                (plain_binaryName h) Hm) as Hs.
  destruct (render_reads_back r _ Hk Hall) as (Hne & Hr & Hback).
  assert (Ht : downloadTarget h w
               = Filepath.render r ((cs ++ ["bin"]) ++ [binaryName h])).
  { unfold downloadTarget. rewrite Hbin.
    rewrite Join_two by (exact Hne || apply plain_binaryName).
    rewrite (Clean_snoc _ _ Hne (plain_binaryName h)), Hr, Hback. reflexivity. }
  destruct (downloadTarget_parts h w) as [x Hx].
  assert (Hclean : Filepath.Clean (downloadTarget h w) = downloadTarget h w).
  { rewrite Hx. apply Clean_idem_snoc. apply plain_binaryName. }
  rewrite Hclean in Hc. exists content. rewrite Ht, Hs, <- Ht. exact Hc.
Qed.

(** The path a successful download returns, and what is there. *)
Lemma downloadServerBinary_regular w p :
  Strings.Contains (temp_random h) "/" = false →
  fst (downloadServerBinary h w) = Ok p →
  p = downloadTarget h w
  ∧ p = Filepath.Join [extensionDataDir h w; "bin"; binaryName h]
  ∧ (∃ content, fs (snd (downloadServerBinary h w)) !! Filepath.Clean p
                = Some (File content 493))
  ∧ is_regular_file (fs (snd (downloadServerBinary h w))) p = true.
Proof.
  intros Hrand Hp.
  destruct (downloadServerBinary_Stat w p Hrand Hp) as [content' Hs].
  destruct (proj2 (downloadServerBinary_effect h w) p Hp) as [-> Hfile].
  destruct (Hfile (temp_is_not_target h w Hrand)) as [content Hc]. clear Hfile.
  destruct (Join_nested (extensionDataDir h w) (binaryName h) (plain_binaryName h))
    as (Hjoin & _).
  fold (downloadTarget h w) in Hjoin.
  split; [reflexivity|]. split; [exact Hjoin|]. split; [exists content; exact Hc|].
  unfold is_regular_file. rewrite Hs. reflexivity.
Qed.

(** What the locator returns is a regular file in the world it leaves
    behind. *)
Lemma findServerBinary_regular w :
  fst (findServerBinary h w) ≠ "" →
  is_regular_file (fs (snd (findServerBinary h w))) (fst (findServerBinary h w)) = true.
Proof.
  destruct (findServerBinary_spec h w) as (Hr & _ & _ & _ & Hfs).
  rewrite Hr, Hfs. intros Hne. pose proof (hits_regular h w) as Hreg.
  destruct (first_hit_in (hits h w)) as [Hempty|Hin]; [contradiction|].
  specialize (Hreg _ Hin). revert Hreg. clear Hin Hne. unfold override_hit, hits, candidates.
  cbv zeta. cbn [map app firstn skipn].
  match goal with
  | |- context [found_at (fs w) ?c1 :: found_at (fs w) ?c2 :: _] =>
      destruct (found_at (fs w) c1) as [p1|] eqn:H1;
        [|destruct (found_at (fs w) c2) as [p2|] eqn:H2]
  end; cbn [first_hit]; intros Hreg.
  - exact (found_at_regular _ _ _ H1).
  - exact (found_at_regular _ _ _ H2).
  - exact Hreg.
Qed.

End installed_file.

(** X13.  When downloadServerBinary returns a path, it is the path
    <data dir>/bin/<binary name> computed in the starting world, and a
    regular file with mode 0755 is there.  (The random part of the
    temporary file's name holds no separator; Go uses decimal
    digits.) *)
Theorem downloadServerBinary_installs (h : Host) (w : World) (p : string) :
  Strings.Contains (temp_random h) "/" = false →
  fst (downloadServerBinary h w) = Ok p →
  p = downloadTarget h w
  ∧ ∃ content, fs (snd (downloadServerBinary h w)) !! Filepath.Clean p
               = Some (File content 493).
Proof.
  intros Hrand Hp.
  destruct (downloadServerBinary_regular h w p Hrand Hp) as (Ht & _ & Hfile & _).
  split; assumption.
Qed.

Lemma downloadServerBinary_installs_witness :
  installed_path = downloadTarget release_host home_world
  ∧ ∃ content, fs (snd (downloadServerBinary release_host home_world))
                 !! Filepath.Clean installed_path
               = Some (File content 493).
Proof.
  apply (downloadServerBinary_installs release_host home_world installed_path).
  - reflexivity.
  - vm_compute. reflexivity.
Defined.

(** X18.  What the downloader installs is what the locator looks for:
    after a successful downloadServerBinary the returned path is the
    locator's third candidate and a regular file, so a following
    findServerBinary finds a binary, and finds exactly the installed one
    unless one of the two overrides has a hit. *)
Theorem downloaded_binary_is_located (h : Host) (w : World) (p : string) :
  Strings.Contains (temp_random h) "/" = false →
  fst (downloadServerBinary h w) = Ok p →
  hits h (snd (downloadServerBinary h w)) !! 2%nat = Some (Some p)
  ∧ fst (findServerBinary h (snd (downloadServerBinary h w))) ≠ ""
  ∧ (override_hit h (snd (downloadServerBinary h w)) = false →
     fst (findServerBinary h (snd (downloadServerBinary h w))) = p).
Proof.
  intros Hrand Hp.
  destruct (downloadServerBinary_regular h w p Hrand Hp) as (_ & Hjoin & _ & Hreg).
  pose proof (env_downloadServerBinary h w) as He.
  set (w' := snd (downloadServerBinary h w)) in *.
  assert (Hthird : hits h w' !! 2%nat = Some (Some p)).
  { destruct (getExtensionDataDir_spec h w') as (_ & _ & _ & Hf).
    unfold hits, candidates. cbv zeta. cbn [map app firstn skipn lookup list_lookup].
    rewrite (extensionDataDir_env h w w' He).
    rewrite <- Hjoin. cbn [found_at]. rewrite (is_regular_file_more _ _ _ Hf Hreg).
    reflexivity. }
  rewrite (proj1 (findServerBinary_spec h w')).
  split; [exact Hthird|]. split.
  - intros Hempty.
    pose proof (first_hit_empty _ (hits_nonempty h w') Hempty 2%nat) as Hnone.
    rewrite Hthird in Hnone. unfold hits in Hnone. cbv zeta in Hnone.
    rewrite !length_app, !length_map in Hnone.
    cbn [candidates length firstn skipn] in Hnone. specialize (Hnone ltac:(lia)).
    discriminate Hnone.
  - intros Hover. apply (first_hit_at _ 2%nat _ Hthird). intros j Hj.
    revert Hover Hthird. unfold override_hit.
    destruct (hits h w') as [|[p1|] [|[p2|] l]]; try discriminate.
    intros _ _. destruct j as [|[|j]]; [reflexivity | reflexivity | lia].
Qed.

Lemma downloaded_binary_is_located_witness :
  fst (findServerBinary release_host (snd (downloadServerBinary release_host home_world)))
  = installed_path.
Proof.
  refine (proj2 (proj2 (downloaded_binary_is_located release_host home_world
                          installed_path _ _)) _).
  - reflexivity.
  - vm_compute. reflexivity.
  - vm_compute. reflexivity.
Defined.

(** X19.  Whatever path ensureServerBinary returns names a regular file
    in the world it leaves behind, whether the locator found it or the
    downloader has just installed it; this is the file main then
    starts. *)
Theorem ensureServerBinary_returns_a_file (h : Host) (w : World) (p : string) :
  Strings.Contains (temp_random h) "/" = false →
  fst (ensureServerBinary h w) = Ok p →
  is_regular_file (fs (snd (ensureServerBinary h w))) p = true.
Proof.
  intros Hrand. remember (ensureServerBinary h w) as res eqn:E.
  unfold ensureServerBinary in E. unfold bind at 1 in E.
  pose proof (findServerBinary_regular h w) as Hreg.
  destruct (findServerBinary h w) as [binPath w1]; cbn [fst snd] in *.
  destruct (bool_decide (binPath ≠ "")) eqn:Hfound.
  - apply bool_decide_eq_true_1 in Hfound. subst res. cbn [fst snd ret].
    intros [= <-]. exact (Hreg Hfound).
  - unfold bind at 1 in E. unfold Eprint at 1, emit at 1 in E. cbv beta iota zeta in E.
    unfold bind at 1 in E.
    match type of E with
    | context [downloadServerBinary h ?w2] =>
        pose proof (downloadServerBinary_regular h w2) as Hd;
        destruct (downloadServerBinary h w2) as [[q|e] w3]
    end; subst res; cbn [fst snd ret] in *; [|discriminate].
    intros [= <-]. apply (Hd q Hrand eq_refl).
Qed.

Lemma ensureServerBinary_returns_a_file_witness :
  is_regular_file (fs (snd (ensureServerBinary release_host home_world))) installed_path
  = true.
Proof.
  apply (ensureServerBinary_returns_a_file release_host home_world installed_path).
  - reflexivity.
  - vm_compute. reflexivity.
Defined.

(** ** Failures before the install step *)

(** X20.  When the asset cannot be fetched (the request fails or is
    answered with a status other than 200), downloadServerBinary fails
    before it creates the temporary file or touches the target: the
    file system differs from the starting one by new directories only,
    so a binary installed earlier is still in place. *)
Theorem downloadServerBinary_failed_transfer (h : Host) (w : World) (url : string) :
  fst (getLatestReleaseAssetURL h w) = Ok url →
  (∀ resp, http_do h (mkRequest "GET" url []) = Ok resp → StatusCode resp ≠ 200) →
  is_ok (fst (downloadServerBinary h w)) = false
  ∧ only_new_dirs (fs w) (fs (snd (downloadServerBinary h w))).
Proof.
  intros Hurl Hfetch. remember (downloadServerBinary h w) as res eqn:E.
  unfold downloadServerBinary in E. unfold bind at 1 in E.
  pose proof (fs_getLatestReleaseAssetURL h w) as Hf1.
  destruct (getLatestReleaseAssetURL h w) as [r1 w1]; cbn [fst snd] in *. subst r1.
  unfold bind at 1 in E.
  destruct (getExtensionDataDir_spec h w1) as (_ & _ & _ & Hf2).
  destruct (getExtensionDataDir h w1) as [dataDir w2]; cbn [fst snd] in *.
  unfold bind at 1 in E.
  destruct (MkdirAll_frame h (Filepath.Join [dataDir; "bin"]) 493 w2) as (_ & _ & Hf3).
  assert (Hdirs : only_new_dirs (fs w) (fs (snd (Os.MkdirAll h (Filepath.Join [dataDir; "bin"])
                                                   493 w2)))).
  { rewrite <- Hf1. eapply only_new_dirs_trans; [exact Hf2 | exact Hf3]. }
  clear Hf2 Hf3.
  destruct (Os.MkdirAll h (Filepath.Join [dataDir; "bin"]) 493 w2) as [[u|e] w3];
    cbn [fst snd] in *.
  2: { subst res. split; [reflexivity | exact Hdirs]. }
  unfold bind at 1 in E. unfold Eprint at 1, emit at 1 in E. cbv beta iota zeta in E.
  unfold bind at 1 in E. unfold Os.Do at 1 in E. cbv beta iota zeta in E.
  cbn [env fs trace] in E.
  destruct (http_do h (mkRequest "GET" url [])) as [resp|e] eqn:Hdo.
  2: { subst res. split; [reflexivity | exact Hdirs]. }
  rewrite bool_decide_eq_true_2 in E by exact (Hfetch resp eq_refl).
  subst res. split; [reflexivity | exact Hdirs].
Qed.

Lemma downloadServerBinary_failed_transfer_witness :
  is_ok (fst (downloadServerBinary unreachable_asset_host installed_world)) = false
  ∧ only_new_dirs (fs installed_world)
      (fs (snd (downloadServerBinary unreachable_asset_host installed_world))).
Proof.
  apply (downloadServerBinary_failed_transfer unreachable_asset_host installed_world
           "https://example.invalid/github-mcp-server_Linux_x86_64.zip").
  - vm_compute. reflexivity.
  - intros resp. vm_compute. intros [= <-]. discriminate.
Defined.

(** X21.  A tar stream that breaks before any regular-file entry with
    the helper's base name in its name makes extractFromTarGz return
    the stream's error; nothing is created or written. *)
Theorem extractFromTarGz_broken_stream (h : Host) (w : World)
    (tarPath targetPath : string) (bytes : list byte)
    (pre : list (string * Typeflag * Stream)) (e : string) :
  Os.read_file (fs w) tarPath = Ok bytes →
  targz_read h bytes = Ok (tar_prepend pre (TarFail e)) →
  Forall (λ entry, binary_tar_entry entry = false) pre →
  extractFromTarGz h tarPath targetPath w = (Err e, w).
Proof.
  intros Hread Hdec Hpre. unfold extractFromTarGz, bind, get_fs.
  rewrite Hread, Hdec. rewrite (extractFromTar_prepend h pre _ targetPath w Hpre).
  reflexivity.
Qed.

Lemma extractFromTarGz_broken_stream_witness :
  extractFromTarGz (unpack_host (Err "zip: not a valid zip file") (Ok tar_broken))
    "/tmp/github-mcp-server-1234567" "/data/bin/github-mcp-server" download_world
  = (Err "unexpected EOF", download_world).
Proof.
  apply (extractFromTarGz_broken_stream
           (unpack_host (Err "zip: not a valid zip file") (Ok tar_broken))
           download_world "/tmp/github-mcp-server-1234567" "/data/bin/github-mcp-server"
           archive_bytes [("README.md", TypeReg, mkStream [x68; x69] None)] "unexpected EOF").
  - vm_compute. reflexivity.
  - reflexivity.
  - repeat constructor.
Defined.
